(** * Sleep Routine Designer: the action handlers over the three tables

    A shallow embedding of [src/actions/index.ts] (the eight handlers of
    [server]) and of the table definitions ([SleepRoutines],
    [SleepRoutineSteps], [SleepLogs]), with the properties of the
    specification proved about it.

    Conventions of the embedding
    - a JavaScript [Date] is its number of milliseconds since the epoch, a
      [Z]; the numbers of the inputs ([orderIndex], [page], ...) are integers
      (the input schemas ask for [.int()]) and are [Z] as well;
    - a table is the list of its rows in insertion order; the primary key is
      checked on insertion; a [references] column is checked when the store
      enforces foreign keys, which is a setting of the storage engine
      ([foreign_keys]) and is left open;
    - [.orderBy] sorts; the properties use only that its result is sorted
      and a permutation, not how it orders rows with equal keys;
    - the store is embedded within its limits, which the section on the
      limits of the store names. It keeps a date as its ISO-8601 text and
      orders the text, which is the order of the dates for the years 0000
      to 9999 ([plain_year]); the dates read from the clock are taken to be
      in these years, and a property on the order of a date the caller
      supplies ([sleepDate]) has it as a hypothesis. Its client throws a
      RangeError in place of rows holding a stored integer beyond
      [MAX_SAFE_INTEGER]: the handlers take the rows as the engine selects
      them, and [delivered] makes the client's check on what a handler
      returns. The engine refuses an offset that is no 64-bit integer; the
      properties of paging are stated for an offset that is a safe integer
      ([safe_offset]);
    - [new Date()] and [crypto.randomUUID()] read two oracles of the run
      time, each call consuming the next value;
    - a handler is a state-and-error computation over the [World]: the
      store, the journal of the statements issued to it and the two oracle
      counters. A thrown error keeps the world reached so far: nothing is
      rolled back;
    - input validation (the zod schemas) happens before a handler runs; a
      parsed optional key is [None] when it is undefined, and for the two
      update handlers, which test [key in input], a [Field]. *)

From Stdlib Require Import ZArith Lia.
From stdpp Require Import base decidable option list strings sorting.

Local Open Scope Z_scope.

(** ** Schema layer *)

Abbreviation Date := Z (only parsing).

Module Routine.
Record t := mk {
  id : string;
  userId : string;
  name : string;
  goalDescription : option string;
  targetBedTimeLocal : option string;
  targetWakeTimeLocal : option string;
  timeZone : option string;
  notes : option string;
  isActive : bool;
  createdAt : Date;
  updatedAt : Date;
}.
End Routine.

Module Step.
Record t := mk {
  id : string;
  routineId : string;
  orderIndex : Z;
  title : string;
  description : option string;
  minutesBeforeBed : option Z;
  createdAt : Date;
}.
End Step.

Module Log.
Record t := mk {
  id : string;
  userId : string;
  routineId : option string;
  sleepDate : Date;
  bedTime : option Date;
  wakeTime : option Date;
  sleepQualityScore : option Z;
  notes : option string;
  createdAt : Date;
}.
End Log.

(** The store: the three tables, and whether the engine enforces the
    [references] declarations. *)
Record Db := mkDb {
  routines : list Routine.t;
  steps : list Step.t;
  logs : list Log.t;
  foreign_keys : bool;
}.

(** The table objects of the schema, indexed by their row type. *)
Inductive Table : Type -> Type :=
  | SleepRoutines : Table Routine.t
  | SleepRoutineSteps : Table Step.t
  | SleepLogs : Table Log.t.

Definition rows {R} (t : Table R) (d : Db) : list R :=
  match t in Table R return list R with
  | SleepRoutines => routines d
  | SleepRoutineSteps => steps d
  | SleepLogs => logs d
  end.

Definition with_rows {R} (t : Table R) (l : list R) (d : Db) : Db :=
  match t in Table R return list R -> Db with
  | SleepRoutines => fun l => mkDb l (steps d) (logs d) (foreign_keys d)
  | SleepRoutineSteps => fun l => mkDb (routines d) l (logs d) (foreign_keys d)
  | SleepLogs => fun l => mkDb (routines d) (steps d) l (foreign_keys d)
  end l.

(** [id: column.text({ primaryKey: true })] *)
Definition primaryKey {R} (t : Table R) : R -> string :=
  match t in Table R return R -> string with
  | SleepRoutines => Routine.id
  | SleepRoutineSteps => Step.id
  | SleepLogs => Log.id
  end.

(** [routineId: column.text({ references: () => SleepRoutines.columns.id })] *)
Definition references {R} (t : Table R) : R -> option string :=
  match t in Table R return R -> option string with
  | SleepRoutines => fun _ => None
  | SleepRoutineSteps => fun s => Some (Step.routineId s)
  | SleepLogs => Log.routineId
  end.

(** The payload of [.set(...)]: the columns that are keys of the object. *)
Module RoutineSet.
Record t := mk {
  name : option string;
  goalDescription : option string;
  targetBedTimeLocal : option string;
  targetWakeTimeLocal : option string;
  timeZone : option string;
  notes : option string;
  isActive : option bool;
  updatedAt : option Date;
}.
Definition empty : t := mk None None None None None None None None.
(** [Object.keys(updateData).length] *)
Definition keys (s : t) : nat :=
  (length (option_list (name s)) + length (option_list (goalDescription s))
   + length (option_list (targetBedTimeLocal s))
   + length (option_list (targetWakeTimeLocal s))
   + length (option_list (timeZone s)) + length (option_list (notes s))
   + length (option_list (isActive s)) + length (option_list (updatedAt s)))%nat.
End RoutineSet.

Module LogSet.
Record t := mk {
  routineId : option string;
  sleepDate : option Date;
  bedTime : option Date;
  wakeTime : option Date;
  sleepQualityScore : option Z;
  notes : option string;
}.
Definition empty : t := mk None None None None None None.
Definition keys (s : t) : nat :=
  (length (option_list (routineId s)) + length (option_list (sleepDate s))
   + length (option_list (bedTime s)) + length (option_list (wakeTime s))
   + length (option_list (sleepQualityScore s))
   + length (option_list (notes s)))%nat.
End LogSet.

(** A column named in the payload takes the new value, the others keep theirs. *)
Definition assign {A} (new : option A) (old : A) : A := default old new.
Definition assign_opt {A} (new : option A) (old : option A) : option A :=
  match new with Some v => Some v | None => old end.

Definition set_routine (s : RoutineSet.t) (r : Routine.t) : Routine.t :=
  {| Routine.id := Routine.id r;
     Routine.userId := Routine.userId r;
     Routine.name := assign (RoutineSet.name s) (Routine.name r);
     Routine.goalDescription :=
       assign_opt (RoutineSet.goalDescription s) (Routine.goalDescription r);
     Routine.targetBedTimeLocal :=
       assign_opt (RoutineSet.targetBedTimeLocal s) (Routine.targetBedTimeLocal r);
     Routine.targetWakeTimeLocal :=
       assign_opt (RoutineSet.targetWakeTimeLocal s) (Routine.targetWakeTimeLocal r);
     Routine.timeZone := assign_opt (RoutineSet.timeZone s) (Routine.timeZone r);
     Routine.notes := assign_opt (RoutineSet.notes s) (Routine.notes r);
     Routine.isActive := assign (RoutineSet.isActive s) (Routine.isActive r);
     Routine.createdAt := Routine.createdAt r;
     Routine.updatedAt := assign (RoutineSet.updatedAt s) (Routine.updatedAt r) |}.

Definition set_log (s : LogSet.t) (l : Log.t) : Log.t :=
  {| Log.id := Log.id l;
     Log.userId := Log.userId l;
     Log.routineId := assign_opt (LogSet.routineId s) (Log.routineId l);
     Log.sleepDate := assign (LogSet.sleepDate s) (Log.sleepDate l);
     Log.bedTime := assign_opt (LogSet.bedTime s) (Log.bedTime l);
     Log.wakeTime := assign_opt (LogSet.wakeTime s) (Log.wakeTime l);
     Log.sleepQualityScore :=
       assign_opt (LogSet.sleepQualityScore s) (Log.sleepQualityScore l);
     Log.notes := assign_opt (LogSet.notes s) (Log.notes l);
     Log.createdAt := Log.createdAt l |}.

(** The payload of an update, by table. *)
Inductive Assignment : Type -> Type :=
  | SetRoutine (s : RoutineSet.t) : Assignment Routine.t
  | SetLog (s : LogSet.t) : Assignment Log.t.

Definition apply_set {R} (a : Assignment R) : R -> R :=
  match a in Assignment R return R -> R with
  | SetRoutine s => set_routine s
  | SetLog s => set_log s
  end.

(** The reference an update writes, if it writes one. *)
Definition set_reference {R} (a : Assignment R) : option string :=
  match a with
  | SetRoutine _ => None
  | SetLog s => LogSet.routineId s
  end.

Inductive ErrorCode := UNAUTHORIZED | NOT_FOUND | FORBIDDEN.

Inductive SqlError := PrimaryKeyConstraint | ForeignKeyConstraint.

(** ** Queries: conditions, orderings and statements *)

Module Q.
(** [eq(column, value)] and [and(...conditions)] *)
#[warnings="-register-all"] Inductive Cond (R : Type) : Type :=
  | eq {A : Type} {dec : EqDecision A} (column : R -> A) (value : A)
  | and (conditions : list (Cond R)).
Arguments eq {R A dec} column value.
Arguments and {R} conditions.

Fixpoint holds {R} (c : Cond R) (r : R) : bool :=
  match c with
  | eq column value => bool_decide (column r = value)
  | and conditions => forallb (fun c => holds c r) conditions
  end.

(** [asc(column)] and [desc(column)] *)
Inductive Order (R : Type) : Type :=
  | asc (column : R -> Z)
  | desc (column : R -> Z).
Arguments asc {R} column.
Arguments desc {R} column.

(** [a] may come before [b] under [orderBy(...os)]: lexicographic. *)
Fixpoint precedes {R} (os : list (Order R)) (a b : R) : Prop :=
  match os with
  | [] => True
  | asc column :: os =>
      column a < column b \/ (column a = column b /\ precedes os a b)
  | desc column :: os =>
      column b < column a \/ (column a = column b /\ precedes os a b)
  end.

#[global] Instance precedes_dec {R} (os : list (Order R)) (a b : R) :
  Decision (precedes os a b).
Proof. induction os as [|[column|column] os IH]; simpl; apply _. Defined.

Definition orderBy {R} (os : list (Order R)) (l : list R) : list R :=
  match os with
  | [] => l
  | _ => merge_sort (precedes os) l
  end.

(** [.limit(n)]: a negative limit is no limit; [.offset(n)]: a negative
    offset is none. *)
Definition limit {R} (n : option Z) (l : list R) : list R :=
  match n with
  | Some n => if n <? 0 then l else take (Z.to_nat n) l
  | None => l
  end.

Definition offset {R} (n : option Z) (l : list R) : list R :=
  match n with
  | Some n => drop (Z.to_nat n) l
  | None => l
  end.
End Q.

(** The statements the handlers build, indexed by the type of their result:
    the selected rows (projected by [fields]), nothing, or [rowsAffected]. *)
Inductive Stmt : Type -> Type :=
  | Select {R B} (fields : R -> B) (from : Table R) (where_ : Q.Cond R)
      (orderBy : list (Q.Order R)) (limit offset : option Z) : Stmt (list B)
  | Insert {R} (into : Table R) (values : list R) : Stmt unit
  | Update {R} (table : Table R) (set : Assignment R) (where_ : Q.Cond R) : Stmt nat
  | Delete {R} (from : Table R) (where_ : Q.Cond R) : Stmt unit.

(** The rows a condition selects. *)
Definition matching {R} (where_ : Q.Cond R) (l : list R) : list R :=
  filter (fun r => Q.holds where_ r) l.

(** A reference may be written when the store does not enforce foreign
    keys, when it is null, or when it is the id of a stored routine. *)
Definition reference_ok (d : Db) (ref : option string) : Prop :=
  foreign_keys d = true ->
  forall r, ref = Some r -> r ∈ (Routine.id <$> routines d).

#[global] Instance reference_ok_dec d ref : Decision (reference_ok d ref).
Proof.
  unfold reference_ok. destruct ref as [r|].
  - destruct (decide (foreign_keys d = true)) as [Hfk|Hfk].
    + destruct (decide (r ∈ (Routine.id <$> routines d))) as [Hin|Hin].
      * left. intros _ r' [= <-]. exact Hin.
      * right. intros H. exact (Hin (H Hfk r eq_refl)).
    + left. intros H. contradiction.
  - left. intros _ r [=].
Defined.

(** The storage engine: a statement run on the store. An insert is one
    statement: all its rows are stored, or none. An update reports as
    [rowsAffected] the rows its condition selects, whether or not their
    values change. A query without [orderBy] returns the rows in table
    order. *)
Definition run {A} (s : Stmt A) (d : Db) : SqlError + (A * Db) :=
  match s in Stmt A return SqlError + (A * Db) with
  | Select fields from where_ orderBy limit offset =>
      inr (fields <$>
             Q.limit limit (Q.offset offset
               (Q.orderBy orderBy (matching where_ (rows from d)))), d)
  | Insert into values =>
      let keys := primaryKey into <$> values in
      if decide (NoDup keys /\
                 Forall (fun k => k ∉ (primaryKey into <$> rows into d)) keys)
      then
        if decide (Forall (fun v => reference_ok d (references into v)) values)
        then inr (tt, with_rows into (rows into d ++ values) d)
        else inl ForeignKeyConstraint
      else inl PrimaryKeyConstraint
  | Update table set where_ =>
      let hit := matching where_ (rows table d) in
      if decide (hit = [] \/ reference_ok d (set_reference set))
      then
        inr (length hit,
             with_rows table
               ((fun r => if Q.holds where_ r then apply_set set r else r)
                  <$> rows table d) d)
      else inl ForeignKeyConstraint
  | Delete from where_ =>
      inr (tt, with_rows from
                 (filter (fun r => negb (Q.holds where_ r)) (rows from d)) d)
  end.

(** An entry of the journal: a statement, whatever its result type. *)
Inductive Issued : Type :=
  | issued : forall A, Stmt A -> Issued.
Arguments issued {A} s.

(** ** Errors, run time and the handler monad *)

(** What a handler can throw: an [ActionError], or the error of a statement
    the store refused. *)
Inductive Thrown :=
  | ActionError (code : ErrorCode) (message : string)
  | StorageError (e : SqlError).

Inductive Outcome (A : Type) :=
  | Return (a : A)
  | Throw (e : Thrown).
Arguments Return {A} a.
Arguments Throw {A} e.

Record Runtime := mkRuntime {
  Date_at : nat -> Date;            (* the value of the k-th [new Date()] *)
  randomUUID_at : nat -> string;    (* the value of the k-th [crypto.randomUUID()] *)
}.

Record World := mkWorld {
  db : Db;
  journal : list Issued;
  dates_read : nat;
  uuids_drawn : nat;
}.

Definition Action (A : Type) : Type := Runtime -> World -> Outcome A * World.

Global Instance Action_ret : MRet Action := fun A a _ w => (Return a, w).

Global Instance Action_bind : MBind Action := fun A B k m rt w =>
  match m rt w with
  | (Return a, w') => k a rt w'
  | (Throw e, w') => (Throw e, w')
  end.

Definition throw {A} (e : Thrown) : Action A := fun _ w => (Throw e, w).

Definition new_Date : Action Date :=
  fun rt w =>
    (Return (Date_at rt (dates_read w)),
     {| db := db w; journal := journal w;
        dates_read := S (dates_read w); uuids_drawn := uuids_drawn w |}).

Definition randomUUID : Action string :=
  fun rt w =>
    (Return (randomUUID_at rt (uuids_drawn w)),
     {| db := db w; journal := journal w;
        dates_read := dates_read w; uuids_drawn := S (uuids_drawn w) |}).

(** Issue a statement: it is journalled, then run on the store. *)
Definition issue {A} (s : Stmt A) : Action A :=
  fun _ w =>
    let w' d := {| db := d; journal := journal w ++ [issued s];
                   dates_read := dates_read w; uuids_drawn := uuids_drawn w |} in
    match run s (db w) with
    | inr (a, d) => (Return a, w' d)
    | inl e => (Throw (StorageError e), w' (db w))
    end.

(** ** Request context and inputs *)

Record User := mkUser { user_id : string }.
Record Locals := mkLocals { user : option User }.
Record ActionAPIContext := mkContext { locals : option Locals }.

(** A property of a parsed input object whose schema is [.optional()]: the
    key may be missing, or present with the value [undefined], or defined. *)
Inductive Field (A : Type) :=
  | Missing
  | Present (v : option A).
Arguments Missing {A}.
Arguments Present {A} v.

(** [key in input] *)
Definition has_key {A} (f : Field A) : bool :=
  match f with Missing => false | Present _ => true end.

(** [input[key]], with [None] for [undefined] *)
Definition get {A} (f : Field A) : option A :=
  match f with Missing => None | Present v => v end.

(** Truthiness of a string or [undefined]: [undefined] and the empty string
    are falsy. The result is the string when it is truthy. *)
Definition truthy (s : option string) : option string :=
  match s with
  | Some s => if bool_decide (s = ""%string) then None else Some s
  | None => None
  end.

Module routineStepInput.
Record t := mk {
  title : string;
  description : option string;
  minutesBeforeBed : option Z;
  orderIndex : option Z;
}.
End routineStepInput.

Module CreateRoutineInput.
Record t := mk {
  steps : option (list routineStepInput.t);
  name : string;
  goalDescription : option string;
  targetBedTimeLocal : option string;
  targetWakeTimeLocal : option string;
  timeZone : option string;
  notes : option string;
}.
End CreateRoutineInput.

Module UpdateRoutineInput.
Record t := mk {
  id : string;
  steps : Field (list routineStepInput.t);
  name : Field string;
  goalDescription : Field string;
  targetBedTimeLocal : Field string;
  targetWakeTimeLocal : Field string;
  timeZone : Field string;
  notes : Field string;
}.
End UpdateRoutineInput.

Module CreateSleepLogInput.
Record t := mk {
  routineId : option string;
  sleepDate : option Date;
  bedTime : option Date;
  wakeTime : option Date;
  sleepQualityScore : option Z;
  notes : option string;
}.
End CreateSleepLogInput.

Module UpdateSleepLogInput.
Record t := mk {
  id : string;
  routineId : Field string;
  sleepDate : Field Date;
  bedTime : Field Date;
  wakeTime : Field Date;
  sleepQualityScore : Field Z;
  notes : Field string;
}.
End UpdateSleepLogInput.

Module ListSleepLogsInput.
Record t := mk {
  page : Z;
  pageSize : Z;
  routineId : option string;
}.
End ListSleepLogsInput.

(** What the input schema of [listSleepLogs] accepts (the handler runs on
    parsed input only): [page >= 1] and [1 <= pageSize <= 100]. *)
Definition valid_page (i : ListSleepLogsInput.t) : Prop :=
  1 <= ListSleepLogsInput.page i /\
  1 <= ListSleepLogsInput.pageSize i <= 100.

(** The [data] of a successful reply, [{ success: true, data }]. *)
Inductive Data :=
  | DataNone
  | DataId (id : string)
  | DataRoutine (routine : Routine.t) (steps : list Step.t)
  | DataRoutines (items : list Routine.t) (total : nat)
  | DataLogs (items : list Log.t) (page pageSize : Z) (total : nat).

(** ** The handlers *)

Definition requireUser (context : ActionAPIContext) : Action User :=
  match locals context ≫= user with
  | None =>
      throw (ActionError UNAUTHORIZED
               "You must be signed in to perform this action.")
  | Some user => mret user
  end.

(** [steps.map((step, index) => ({ id: crypto.randomUUID(), ... }))],
    from position [index] on. *)
Fixpoint stepValues (routineId : string) (now : Date) (index : nat)
    (steps : list routineStepInput.t) : Action (list Step.t) :=
  match steps with
  | [] => mret []
  | step :: rest =>
      id ← randomUUID;
      let value :=
        {| Step.id := id;
           Step.routineId := routineId;
           Step.orderIndex :=
             default (Z.of_nat index + 1) (routineStepInput.orderIndex step);
           Step.title := routineStepInput.title step;
           Step.description := routineStepInput.description step;
           Step.minutesBeforeBed := routineStepInput.minutesBeforeBed step;
           Step.createdAt := now |} in
      values ← stepValues routineId now (S index) rest;
      mret (value :: values)
  end.

(** [and(eq(SleepRoutines.id, id), eq(SleepRoutines.userId, user.id))] *)
Definition owned (id userId : string) : Q.Cond Routine.t :=
  Q.and [Q.eq Routine.id id; Q.eq Routine.userId userId].

Definition createRoutine (input : CreateRoutineInput.t)
    (context : ActionAPIContext) : Action Data :=
  user ← requireUser context;
  now ← new_Date;
  routineId ← randomUUID;
  issue (Insert SleepRoutines
    [ {| Routine.id := routineId;
         Routine.userId := user_id user;
         Routine.name := CreateRoutineInput.name input;
         Routine.goalDescription := CreateRoutineInput.goalDescription input;
         Routine.targetBedTimeLocal := CreateRoutineInput.targetBedTimeLocal input;
         Routine.targetWakeTimeLocal := CreateRoutineInput.targetWakeTimeLocal input;
         Routine.timeZone := CreateRoutineInput.timeZone input;
         Routine.notes := CreateRoutineInput.notes input;
         Routine.isActive := true;
         Routine.createdAt := now;
         Routine.updatedAt := now |} ]);;
  match CreateRoutineInput.steps input with
  | Some ((_ :: _) as steps) =>
      values ← stepValues routineId now 0 steps;
      issue (Insert SleepRoutineSteps values)
  | _ => mret tt
  end;;
  mret (DataId routineId).

(** The [forEach] over the keys of [routineBaseFields]: a key is copied when
    [key in input && input[key] !== undefined]. *)
Definition copied {A} (f : Field A) : option A :=
  if has_key f then get f else None.

Definition routineUpdateData (input : UpdateRoutineInput.t) (now : Date)
    : RoutineSet.t :=
  {| RoutineSet.name := copied (UpdateRoutineInput.name input);
     RoutineSet.goalDescription := copied (UpdateRoutineInput.goalDescription input);
     RoutineSet.targetBedTimeLocal :=
       copied (UpdateRoutineInput.targetBedTimeLocal input);
     RoutineSet.targetWakeTimeLocal :=
       copied (UpdateRoutineInput.targetWakeTimeLocal input);
     RoutineSet.timeZone := copied (UpdateRoutineInput.timeZone input);
     RoutineSet.notes := copied (UpdateRoutineInput.notes input);
     RoutineSet.isActive := None;
     RoutineSet.updatedAt := Some now |}.

Definition not_found (message : string) : Thrown := ActionError NOT_FOUND message.

Definition updateRoutine (input : UpdateRoutineInput.t)
    (context : ActionAPIContext) : Action Data :=
  user ← requireUser context;
  let id := UpdateRoutineInput.id input in
  existing ← issue (Select (fun r => r) SleepRoutines (owned id (user_id user))
                      [] None None);
  match head existing with
  | None => throw (not_found "Sleep routine not found.")
  | Some routine =>
      now ← new_Date;
      let updateData := routineUpdateData input now in
      (if (0 <? RoutineSet.keys updateData)%nat
       then issue (Update SleepRoutines (SetRoutine updateData)
                     (owned id (user_id user)));; mret tt
       else mret tt);;
      match get (UpdateRoutineInput.steps input) with
      | Some steps =>
          issue (Delete SleepRoutineSteps (Q.eq Step.routineId id));;
          match steps with
          | _ :: _ =>
              values ← stepValues id now 0 steps;
              issue (Insert SleepRoutineSteps values)
          | [] => mret tt
          end
      | None => mret tt
      end;;
      mret DataNone
  end.

Definition archiveRoutine (id : string) (context : ActionAPIContext)
    : Action Data :=
  user ← requireUser context;
  now ← new_Date;
  rowsAffected ←
    issue (Update SleepRoutines
             (SetRoutine
                {| RoutineSet.name := None; RoutineSet.goalDescription := None;
                   RoutineSet.targetBedTimeLocal := None;
                   RoutineSet.targetWakeTimeLocal := None;
                   RoutineSet.timeZone := None; RoutineSet.notes := None;
                   RoutineSet.isActive := Some false;
                   RoutineSet.updatedAt := Some now |})
             (owned id (user_id user)));
  if (rowsAffected =? 0)%nat
  then throw (not_found "Sleep routine not found.")
  else mret DataNone.

Definition getRoutineWithSteps (id : string) (context : ActionAPIContext)
    : Action Data :=
  user ← requireUser context;
  routines ← issue (Select (fun r => r) SleepRoutines (owned id (user_id user))
                      [] None None);
  match head routines with
  | None => throw (not_found "Sleep routine not found.")
  | Some routine =>
      steps ← issue (Select (fun s => s) SleepRoutineSteps
                       (Q.eq Step.routineId id)
                       [Q.asc Step.orderIndex] None None);
      mret (DataRoutine routine steps)
  end.

Definition listMyRoutines (includeInactive : bool) (context : ActionAPIContext)
    : Action Data :=
  user ← requireUser context;
  let filters := [Q.eq Routine.userId (user_id user)] in
  let filters :=
    if negb includeInactive
    then filters ++ [Q.eq Routine.isActive true]
    else filters in
  routines ← issue (Select (fun r => r) SleepRoutines (Q.and filters)
                      [Q.desc Routine.updatedAt] None None);
  mret (DataRoutines routines (length routines)).

(** [if (input.routineId) { ... }], the check that both sleep-log writers
    make before they write. *)
Definition checkRoutine (routineId : option string) (user : User) : Action unit :=
  match truthy routineId with
  | Some routineId =>
      routine ← issue (Select Routine.id SleepRoutines
                         (owned routineId (user_id user)) [] None None);
      match head routine with
      | None =>
          throw (ActionError FORBIDDEN "You cannot log sleep for this routine.")
      | Some _ => mret tt
      end
  | None => mret tt
  end.

Definition createSleepLog (input : CreateSleepLogInput.t)
    (context : ActionAPIContext) : Action Data :=
  user ← requireUser context;
  now ← new_Date;
  checkRoutine (CreateSleepLogInput.routineId input) user;;
  logId ← randomUUID;
  issue (Insert SleepLogs
    [ {| Log.id := logId;
         Log.userId := user_id user;
         Log.routineId := CreateSleepLogInput.routineId input;
         Log.sleepDate := default now (CreateSleepLogInput.sleepDate input);
         Log.bedTime := CreateSleepLogInput.bedTime input;
         Log.wakeTime := CreateSleepLogInput.wakeTime input;
         Log.sleepQualityScore := CreateSleepLogInput.sleepQualityScore input;
         Log.notes := CreateSleepLogInput.notes input;
         Log.createdAt := now |} ]);;
  mret (DataId logId).

Definition logUpdateData (input : UpdateSleepLogInput.t) : LogSet.t :=
  {| LogSet.routineId := copied (UpdateSleepLogInput.routineId input);
     LogSet.sleepDate := copied (UpdateSleepLogInput.sleepDate input);
     LogSet.bedTime := copied (UpdateSleepLogInput.bedTime input);
     LogSet.wakeTime := copied (UpdateSleepLogInput.wakeTime input);
     LogSet.sleepQualityScore := copied (UpdateSleepLogInput.sleepQualityScore input);
     LogSet.notes := copied (UpdateSleepLogInput.notes input) |}.

(** [and(eq(SleepLogs.id, id), eq(SleepLogs.userId, user.id))] *)
Definition own_log (id userId : string) : Q.Cond Log.t :=
  Q.and [Q.eq Log.id id; Q.eq Log.userId userId].

Definition updateSleepLog (input : UpdateSleepLogInput.t)
    (context : ActionAPIContext) : Action Data :=
  user ← requireUser context;
  let id := UpdateSleepLogInput.id input in
  logs ← issue (Select (fun l => l) SleepLogs (own_log id (user_id user))
                  [] None None);
  match head logs with
  | None => throw (not_found "Sleep log not found.")
  | Some log =>
      checkRoutine (get (UpdateSleepLogInput.routineId input)) user;;
      let updateData := logUpdateData input in
      (if (0 <? LogSet.keys updateData)%nat
       then issue (Update SleepLogs (SetLog updateData)
                     (own_log id (user_id user)));; mret tt
       else mret tt);;
      mret DataNone
  end.

Definition listSleepLogs (input : ListSleepLogsInput.t)
    (context : ActionAPIContext) : Action Data :=
  user ← requireUser context;
  let filters := [Q.eq Log.userId (user_id user)] in
  let filters :=
    match truthy (ListSleepLogsInput.routineId input) with
    | Some routineId => filters ++ [Q.eq Log.routineId (Some routineId)]
    | None => filters
    end in
  let offset := (ListSleepLogsInput.page input - 1)
                * ListSleepLogsInput.pageSize input in
  logs ← issue (Select (fun l => l) SleepLogs (Q.and filters)
                  [Q.desc Log.sleepDate; Q.desc Log.createdAt]
                  (Some (ListSleepLogsInput.pageSize input)) (Some offset));
  mret (DataLogs logs (ListSleepLogsInput.page input)
          (ListSleepLogsInput.pageSize input) (length logs)).

(** [export const server = { ... }]: the eight actions. *)
Inductive Request :=
  | CreateRoutine (input : CreateRoutineInput.t)
  | UpdateRoutine (input : UpdateRoutineInput.t)
  | ArchiveRoutine (id : string)
  | GetRoutineWithSteps (id : string)
  | ListMyRoutines (includeInactive : bool)
  | CreateSleepLog (input : CreateSleepLogInput.t)
  | UpdateSleepLog (input : UpdateSleepLogInput.t)
  | ListSleepLogs (input : ListSleepLogsInput.t).

Definition server (request : Request) : ActionAPIContext -> Action Data :=
  match request with
  | CreateRoutine input => createRoutine input
  | UpdateRoutine input => updateRoutine input
  | ArchiveRoutine id => archiveRoutine id
  | GetRoutineWithSteps id => getRoutineWithSteps id
  | ListMyRoutines includeInactive => listMyRoutines includeInactive
  | CreateSleepLog input => createSleepLog input
  | UpdateSleepLog input => updateSleepLog input
  | ListSleepLogs input => listSleepLogs input
  end.

(** * Vocabulary of the properties *)

Definition newest_first : relation Routine.t :=
  fun a b => Routine.updatedAt b <= Routine.updatedAt a.

(** Two rows that differ at most in the active flag and the update time. *)
Definition same_but_activity (r r' : Routine.t) : Prop :=
  Routine.id r' = Routine.id r /\ Routine.userId r' = Routine.userId r /\
  Routine.name r' = Routine.name r /\
  Routine.goalDescription r' = Routine.goalDescription r /\
  Routine.targetBedTimeLocal r' = Routine.targetBedTimeLocal r /\
  Routine.targetWakeTimeLocal r' = Routine.targetWakeTimeLocal r /\
  Routine.timeZone r' = Routine.timeZone r /\
  Routine.notes r' = Routine.notes r /\
  Routine.createdAt r' = Routine.createdAt r.

Definition archive_set (now : Date) : RoutineSet.t :=
  {| RoutineSet.name := None; RoutineSet.goalDescription := None;
     RoutineSet.targetBedTimeLocal := None;
     RoutineSet.targetWakeTimeLocal := None;
     RoutineSet.timeZone := None; RoutineSet.notes := None;
     RoutineSet.isActive := Some false;
     RoutineSet.updatedAt := Some now |}.

(** The row built for the step at position [i] of the supplied list, when
    [k] identifiers had been drawn before the list was mapped. *)
Definition stepRow (rt : Runtime) (routineId : string) (now : Date) (k : nat)
    (i : nat) (step : routineStepInput.t) : Step.t :=
  {| Step.id := randomUUID_at rt (k + i);
     Step.routineId := routineId;
     Step.orderIndex :=
       default (Z.of_nat i + 1) (routineStepInput.orderIndex step);
     Step.title := routineStepInput.title step;
     Step.description := routineStepInput.description step;
     Step.minutesBeforeBed := routineStepInput.minutesBeforeBed step;
     Step.createdAt := now |}.

(** A key the patch leaves alone: missing from the input, or present with
    the value [undefined]. *)
Definition absent_or_undefined {A} (f : Field A) : Prop :=
  f = Missing \/ f = Present None.

Definition by_orderIndex : relation Step.t :=
  fun a b => Step.orderIndex a <= Step.orderIndex b.

(** The routine row [createRoutine] inserts. *)
Definition routineRow (input : CreateRoutineInput.t) (u : User) (now : Date)
    (routineId : string) : Routine.t :=
  {| Routine.id := routineId;
     Routine.userId := user_id u;
     Routine.name := CreateRoutineInput.name input;
     Routine.goalDescription := CreateRoutineInput.goalDescription input;
     Routine.targetBedTimeLocal := CreateRoutineInput.targetBedTimeLocal input;
     Routine.targetWakeTimeLocal := CreateRoutineInput.targetWakeTimeLocal input;
     Routine.timeZone := CreateRoutineInput.timeZone input;
     Routine.notes := CreateRoutineInput.notes input;
     Routine.isActive := true;
     Routine.createdAt := now;
     Routine.updatedAt := now |}.

(** The step rows [createRoutine] inserts for the supplied list. *)
Definition stepRows (rt : Runtime) (w : World)
    (supplied : option (list routineStepInput.t)) : list Step.t :=
  imap (stepRow rt (randomUUID_at rt (uuids_drawn w))
          (Date_at rt (dates_read w)) (S (uuids_drawn w)))
       (default [] supplied).

(** Referential integrity of the step table: each step belongs to a stored
    routine. *)
Definition steps_reference_routines (d : Db) : Prop :=
  Forall (fun s => Step.routineId s ∈ (Routine.id <$> routines d)) (steps d).

Definition failed_with (code : ErrorCode) {A} (o : Outcome A) : Prop :=
  exists message, o = Throw (ActionError code message).


(** The log row [createSleepLog] inserts. *)
Definition logRow (input : CreateSleepLogInput.t) (u : User) (now : Date)
    (logId : string) : Log.t :=
  {| Log.id := logId;
     Log.userId := user_id u;
     Log.routineId := CreateSleepLogInput.routineId input;
     Log.sleepDate := default now (CreateSleepLogInput.sleepDate input);
     Log.bedTime := CreateSleepLogInput.bedTime input;
     Log.wakeTime := CreateSleepLogInput.wakeTime input;
     Log.sleepQualityScore := CreateSleepLogInput.sleepQualityScore input;
     Log.notes := CreateSleepLogInput.notes input;
     Log.createdAt := now |}.

(** What the write phase of [updateSleepLog] has done, given the statements
    [js] it issued. *)
Definition log_written (input : UpdateSleepLogInput.t) (u : User)
    (w : World) (o : Outcome Data) (w' : World) (js : list Issued) : Prop :=
  let set := logUpdateData input in
  let mine := own_log (UpdateSleepLogInput.id input) (user_id u) in
  (LogSet.keys set = 0%nat /\ js = [] /\ o = Return DataNone /\ db w' = db w) \/
  ((0 < LogSet.keys set)%nat /\
   js = [issued (Update SleepLogs (SetLog set) mine)] /\
   (((exists e, o = Throw (StorageError e)) /\ db w' = db w) \/
    (o = Return DataNone /\
     db w' = mkDb (routines (db w)) (steps (db w))
               ((fun l => if Q.holds mine l then set_log set l else l)
                  <$> logs (db w))
               (foreign_keys (db w))))).

(** Later sleep date first; for equal sleep dates, later creation first. *)
Definition latest_first : relation Log.t :=
  fun a b => Log.sleepDate b < Log.sleepDate a \/
             (Log.sleepDate a = Log.sleepDate b /\
              Log.createdAt b <= Log.createdAt a).

(** The logs a listing selects: the caller's, of the routine asked for when
    one is asked for. *)
Definition selected (uid : string) (routine : option string) (l : Log.t) : Prop :=
  Log.userId l = uid /\
  match routine with
  | Some rid => Log.routineId l = Some rid
  | None => True
  end.

#[global] Instance selected_dec uid routine l : Decision (selected uid routine l).
Proof. unfold selected. destruct routine; apply _. Defined.

(** The worlds the actions can reach from an empty store. *)
Inductive reachable (rt : Runtime) : World -> Prop :=
  | reachable_empty fk : reachable rt (mkWorld (mkDb [] [] [] fk) [] 0 0)
  | reachable_action w request context o w' :
      reachable rt w ->
      server request context rt w = (o, w') ->
      reachable rt w'.

(** * Sample data *)

Definition alice_user : User := mkUser "alice".
Definition bob_user : User := mkUser "bob".
Definition alice : ActionAPIContext := mkContext (Some (mkLocals (Some alice_user))).
Definition bob : ActionAPIContext := mkContext (Some (mkLocals (Some bob_user))).
Definition anonymous : ActionAPIContext := mkContext (Some (mkLocals None)).

(** A run time whose dates advance by a millisecond and whose identifiers
    are the letters from "A" on. *)
Definition clock : Runtime :=
  {| Date_at := fun k => 1700000000000 + Z.of_nat k;
     randomUUID_at := fun k => String (Ascii.ascii_of_nat (65 + k)) EmptyString |}.

Definition weekday : Routine.t :=
  Routine.mk "r1" "alice" "Weekday" None (Some "23:00"%string)
    (Some "06:00"%string) None None true 100 300.
Definition travel : Routine.t :=
  Routine.mk "r2" "alice" "Travel" None None None None None false 110 200.
Definition night_shift : Routine.t :=
  Routine.mk "r3" "bob" "Night shift" None None None None None true 120 400.

Definition dim_lights : Step.t :=
  Step.mk "s1" "r1" 1 "Dim lights" None (Some 30) 100.
Definition read_a_book : Step.t :=
  Step.mk "s2" "r1" 2 "Read" None None 100.
Definition ear_plugs : Step.t :=
  Step.mk "s3" "r3" 1 "Ear plugs" None None 120.

Definition monday : Log.t :=
  Log.mk "l1" "alice" (Some "r1"%string) 1000 None None (Some 7) None 1001.
Definition tuesday : Log.t :=
  Log.mk "l2" "alice" None 2000 None None None None 2001.
Definition bobs_night : Log.t :=
  Log.mk "l3" "bob" (Some "r3"%string) 1500 None None None None 1501.

Definition home (foreign_keys : bool) : World :=
  mkWorld (mkDb [weekday; travel; night_shift]
             [dim_lights; read_a_book; ear_plugs]
             [monday; tuesday; bobs_night] foreign_keys) [] 0 0.

Definition two_steps : CreateRoutineInput.t :=
  CreateRoutineInput.mk
    (Some [routineStepInput.mk "Dim lights" None None None;
           routineStepInput.mk "Read" None None None])
    "Weekday" None None None None None.

Definition only_notes : UpdateRoutineInput.t :=
  UpdateRoutineInput.mk "r1" Missing Missing Missing Missing Missing Missing
    (Present (Some "no coffee"%string)).

Definition no_steps : UpdateRoutineInput.t :=
  UpdateRoutineInput.mk "r1" (Present (Some [])) Missing Missing Missing Missing
    Missing Missing.

Definition log_of (routineId : option string) : CreateSleepLogInput.t :=
  CreateSleepLogInput.mk routineId None None None None None.

Definition first_page (routineId : option string) : ListSleepLogsInput.t :=
  ListSleepLogsInput.mk 1 20 routineId.

(** ** Vocabulary of the further properties *)

(** A journal entry that is a [select]. *)
Definition is_select (q : Issued) : bool :=
  match q with
  | issued s => match s with Select _ _ _ _ _ _ => true | _ => false end
  end.

(** The three actions that only read. *)
Definition reads_only (request : Request) : bool :=
  match request with
  | GetRoutineWithSteps _ | ListMyRoutines _ | ListSleepLogs _ => true
  | _ => false
  end.

(** The actions whose handler has a [throw] of the code (UNAUTHORIZED is
    thrown by [requireUser], for all of them). *)
Definition throws (request : Request) (code : ErrorCode) : bool :=
  match code, request with
  | UNAUTHORIZED, _ => true
  | NOT_FOUND, (UpdateRoutine _ | ArchiveRoutine _ | GetRoutineWithSteps _
                | UpdateSleepLog _) => true
  | FORBIDDEN, (CreateSleepLog _ | UpdateSleepLog _) => true
  | _, _ => false
  end.

(** What one action of the caller [u] may have done to the three tables. *)
Definition effect (request : Request) (u : User) (w : World)
    (o : Outcome Data) (w' : World) : Prop :=
  (routines (db w') = routines (db w) \/
   (exists r, routines (db w') = routines (db w) ++ [r] /\
              Routine.userId r = user_id u /\
              Routine.id r ∉ (Routine.id <$> routines (db w))) \/
   (exists id set,
      routines (db w') =
        (fun r => if Q.holds (owned id (user_id u)) r
                  then set_routine set r else r) <$> routines (db w))) /\
  (logs (db w') = logs (db w) \/
   (exists l, logs (db w') = logs (db w) ++ [l] /\ Log.userId l = user_id u) \/
   (exists id set,
      logs (db w') =
        (fun l => if Q.holds (own_log id (user_id u)) l
                  then set_log set l else l) <$> logs (db w))) /\
  (steps (db w') = steps (db w) \/
   (exists id fresh,
      (forall s, s ∈ fresh -> Step.routineId s = id) /\
      (((id ∉ (Routine.id <$> routines (db w))) /\
        steps (db w') = steps (db w) ++ fresh) \/
       ((exists r, r ∈ routines (db w) /\
                   Routine.id r = id /\ Routine.userId r = user_id u) /\
        steps (db w') =
          filter (fun s => Step.routineId s <> id) (steps (db w)) ++ fresh)))) /\
  foreign_keys (db w') = foreign_keys (db w) /\
  (forall code message, o = Throw (ActionError code message) ->
     db w' = db w /\ throws request code = true /\ code <> UNAUTHORIZED).

(** Every log whose routine reference is a non-empty string references a
    routine of the owner of the log. *)
Definition logs_reference_own_routines (d : Db) : Prop :=
  forall l rid, l ∈ logs d -> Log.routineId l = Some rid -> rid <> ""%string ->
    exists r, r ∈ routines d /\
              Routine.id r = rid /\ Routine.userId r = Log.userId l.

(** The ids of each table are pairwise distinct. *)
Definition primary_keys_unique (d : Db) : Prop :=
  NoDup (Routine.id <$> routines d) /\
  NoDup (Step.id <$> steps d) /\
  NoDup (Log.id <$> logs d).

(** A computation keeps a property of the store, whatever its outcome. *)
Definition keeps (I : Db -> Prop) {A} (m : Action A) : Prop :=
  forall rt w o w', I (db w) -> m rt w = (o, w') -> I (db w').

(** ** The limits of the store *)

(** [Number.MAX_SAFE_INTEGER]. *)
Definition MAX_SAFE_INTEGER : Z := Eval cbv in 2 ^ 53 - 1.

(** [Number.isSafeInteger], of an integer. *)
Definition safe_integer (n : Z) : Prop :=
  - MAX_SAFE_INTEGER <= n <= MAX_SAFE_INTEGER.

(** The integral numbers the engine takes as 64-bit integers: those
    strictly between [- 2 ^ 63] and [2 ^ 63]. A number column keeps such a
    number as an integer, and any other as a float; the offset of a
    [select] has to be one. *)
Definition fits_int64 (n : Z) : bool :=
  Eval cbv beta delta [Z.pow Z.pow_pos Pos.iter Z.mul Pos.mul Pos.add Z.opp]
         iota in
  (- 2 ^ 63 <? n) && (n <? 2 ^ 63).

(** The client hands a stored float back as it is, and a stored integer
    when it is a safe integer; it throws a RangeError for any other stored
    integer. *)
Definition reads_back (n : Z) : bool :=
  negb (fits_int64 n) ||
  ((- MAX_SAFE_INTEGER <=? n) && (n <=? MAX_SAFE_INTEGER)).

Definition step_reads_back (s : Step.t) : bool :=
  reads_back (Step.orderIndex s) &&
  from_option reads_back true (Step.minutesBeforeBed s).

Definition log_reads_back (l : Log.t) : bool :=
  from_option reads_back true (Log.sleepQualityScore l).

(** What the caller of a handler gets, the client's check of the rows read
    included. The steps and the logs are the rows with number columns, and
    each is read by the last statement of its handler (the [select] of
    [getRoutineWithSteps], of [listSleepLogs]), so that the check of the
    client is a check of what the handler returns. (The score of a log is
    validated to lie between 1 and 10 before a handler runs; the numbers of
    a step are validated to be integers, the order index at least 1.) *)
Inductive Delivered :=
  | Handed (o : Outcome Data)
  | RangeError.

Definition delivered (o : Outcome Data) : Delivered :=
  match o with
  | Return (DataRoutine _ steps) =>
      if forallb step_reads_back steps then Handed o else RangeError
  | Return (DataLogs items _ _ _) =>
      if forallb log_reads_back items then Handed o else RangeError
  | _ => Handed o
  end.

(** A supplied step whose numbers are safe integers. *)
Definition safe_step (step : routineStepInput.t) : Prop :=
  from_option safe_integer True (routineStepInput.orderIndex step) /\
  from_option safe_integer True (routineStepInput.minutesBeforeBed step).

(** A stored step whose numbers are safe integers. *)
Definition safe_row (s : Step.t) : Prop :=
  safe_integer (Step.orderIndex s) /\
  from_option safe_integer True (Step.minutesBeforeBed s).

(** The dates whose ISO-8601 text has a plain four-digit year, from
    0000-01-01T00:00:00.000Z to 9999-12-31T23:59:59.999Z: on these the order
    of the texts is the order of the dates. *)
Definition plain_year (d : Date) : Prop :=
  -62167219200000 <= d <= 253402300799999.

(** The sleep dates of the logs of a user have plain years. *)
Definition plain_sleep_dates (uid : string) (d : Db) : Prop :=
  forall l, l ∈ logs d -> Log.userId l = uid -> plain_year (Log.sleepDate l).

(** The offset of a page, [(page - 1) * pageSize], is a safe integer: it is
    computed exactly and the engine takes it as a 64-bit integer. *)
Definition safe_offset (page pageSize : Z) : Prop :=
  (page - 1) * pageSize <= MAX_SAFE_INTEGER.

(** ** Further sample data *)

(** A routine with one step, whose order index is [2 ^ 53]. *)
Definition far_step : CreateRoutineInput.t :=
  CreateRoutineInput.mk
    (Some [routineStepInput.mk "Dim lights" None None
             (Some (MAX_SAFE_INTEGER + 1))])
    "Weekday" None None None None None.

(** A run time whose identifiers all collide with the id of a stored step. *)
Definition jammed : Runtime :=
  {| Date_at := fun k => 1700000000000 + Z.of_nat k;
     randomUUID_at := fun _ => "s3"%string |}.

Definition new_steps : UpdateRoutineInput.t :=
  UpdateRoutineInput.mk "r1"
    (Present (Some [routineStepInput.mk "Stretch" None None (Some 5);
                    routineStepInput.mk "Tea" None (Some 45) None]))
    Missing Missing Missing Missing Missing Missing.

Definition relog (routineId : Field string) (notes : Field string)
    : UpdateSleepLogInput.t :=
  UpdateSleepLogInput.mk "l1" routineId Missing Missing Missing Missing notes.

Definition bare : CreateRoutineInput.t :=
  CreateRoutineInput.mk None "Nap" None None None None None.

Definition page_of (page pageSize : Z) : ListSleepLogsInput.t :=
  ListSleepLogsInput.mk page pageSize None.

(** * Properties *)

(** ** The handler monad *)

(** Reduce the projections of a world or a store built by a handler. *)
Ltac world :=
  cbn [db journal dates_read uuids_drawn routines steps logs foreign_keys rows
       with_rows] in *.

(** Split the equation of a finished run into its outcome and its world. *)
Ltac ended H o w :=
  let Ho := fresh "Ho" in
  let Hw := fresh "Hw" in
  pose proof (f_equal fst H) as Ho; pose proof (f_equal snd H) as Hw;
  cbn [fst snd] in Ho, Hw; subst o w; world.

Lemma bind_run {A B} (m : Action A) (k : A -> Action B) rt w :
  (m ≫= k) rt w =
  match m rt w with
  | (Return a, w') => k a rt w'
  | (Throw e, w') => (Throw e, w')
  end.
Proof. reflexivity. Qed.

Lemma requireUser_some context u rt w :
  locals context ≫= user = Some u ->
  requireUser context rt w = (Return u, w).
Proof. intros H. unfold requireUser. rewrite H. reflexivity. Qed.

Lemma requireUser_none context rt w :
  locals context ≫= user = None ->
  requireUser context rt w =
  (Throw (ActionError UNAUTHORIZED
            "You must be signed in to perform this action."), w).
Proof. intros H. unfold requireUser. rewrite H. reflexivity. Qed.

(** C5: each of the eight actions, run in a context that carries no user,
    throws UNAUTHORIZED and leaves the world as it was: the store is the
    same, and the journal has no new statement (no read and no write was
    issued), no date was read and no identifier drawn. *)
Theorem unauthorized_before_any_storage_access request context rt w :
  locals context ≫= user = None ->
  server request context rt w =
  (Throw (ActionError UNAUTHORIZED
            "You must be signed in to perform this action."), w).
Proof.
  intros Hnone.
  destruct request; simpl;
    unfold createRoutine, updateRoutine, archiveRoutine, getRoutineWithSteps,
      listMyRoutines, createSleepLog, updateSleepLog, listSleepLogs;
    rewrite bind_run, requireUser_none by exact Hnone; reflexivity.
Qed.

(** ** Queries *)

Arguments Q.orderBy : simpl never.
Arguments Q.precedes : simpl never.
Arguments matching : simpl never.

Lemma holds_eq {R A} `{EqDecision A} (column : R -> A) (value : A) (r : R) :
  Q.holds (Q.eq column value) r <-> column r = value.
Proof. simpl. apply bool_decide_spec. Qed.

Lemma holds_and2 {R} (c1 c2 : Q.Cond R) (r : R) :
  Q.holds (Q.and [c1; c2]) r <-> Q.holds c1 r /\ Q.holds c2 r.
Proof.
  simpl. destruct (Q.holds c1 r), (Q.holds c2 r); simpl; intuition.
Qed.

Lemma holds_and1 {R} (c : Q.Cond R) (r : R) :
  Q.holds (Q.and [c]) r <-> Q.holds c r.
Proof. simpl. destruct (Q.holds c r); simpl; intuition. Qed.

Lemma holds_owned id uid (r : Routine.t) :
  Q.holds (owned id uid) r <-> Routine.id r = id /\ Routine.userId r = uid.
Proof. unfold owned. rewrite holds_and2, !holds_eq. reflexivity. Qed.

Lemma holds_own_log id uid (l : Log.t) :
  Q.holds (own_log id uid) l <-> Log.id l = id /\ Log.userId l = uid.
Proof. unfold own_log. rewrite holds_and2, !holds_eq. reflexivity. Qed.

Lemma matching_filter {R} (c : Q.Cond R) (P : R -> Prop)
    `{forall r, Decision (P r)} (l : list R) :
  (forall r, Q.holds c r <-> P r) -> matching c l = filter P l.
Proof. intros Hiff. unfold matching. apply list_filter_iff. exact Hiff. Qed.

Lemma elem_of_matching {R} (c : Q.Cond R) (l : list R) (r : R) :
  r ∈ matching c l <-> Q.holds c r /\ r ∈ l.
Proof. unfold matching. rewrite list_elem_of_filter. reflexivity. Qed.

Lemma matching_nil_iff {R} (c : Q.Cond R) (l : list R) :
  matching c l = [] <-> forall r, r ∈ l -> ~ Q.holds c r.
Proof.
  split.
  - intros Hnil r Hin Hc.
    assert (Hm : r ∈ matching c l) by (apply elem_of_matching; auto).
    rewrite Hnil in Hm. inversion Hm.
  - intros Hno. destruct (matching c l) as [|r rest] eqn:E; [reflexivity|].
    assert (Hm : r ∈ matching c l) by (rewrite E; left).
    apply elem_of_matching in Hm as [Hc Hin]. destruct (Hno r Hin Hc).
Qed.

#[global] Instance precedes_total {R} (os : list (Q.Order R)) :
  Total (Q.precedes os).
Proof.
  intros a b. induction os as [|[column|column] os IH]; simpl.
  - left. exact I.
  - destruct (Z.lt_trichotomy (column a) (column b)) as [Hlt|[Heq|Hgt]];
      [left; left; exact Hlt| |right; left; exact Hgt].
    destruct IH as [IH|IH]; [left|right]; right; split; auto.
  - destruct (Z.lt_trichotomy (column a) (column b)) as [Hlt|[Heq|Hgt]];
      [right; left; exact Hlt| |left; left; exact Hgt].
    destruct IH as [IH|IH]; [left|right]; right; split; auto.
Qed.

Lemma orderBy_Permutation {R} (os : list (Q.Order R)) (l : list R) :
  Q.orderBy os l ≡ₚ l.
Proof.
  destruct os as [|o os]; [reflexivity|].
  change (merge_sort (Q.precedes (o :: os)) l ≡ₚ l).
  apply merge_sort_Permutation.
Qed.

Lemma orderBy_Sorted {R} (os : list (Q.Order R)) (l : list R) :
  os <> [] -> Sorted (Q.precedes os) (Q.orderBy os l).
Proof.
  destruct os as [|o os]; [congruence|]. intros _.
  change (Sorted (Q.precedes (o :: os)) (merge_sort (Q.precedes (o :: os)) l)).
  apply Sorted_merge_sort, precedes_total.
Qed.

Lemma Sorted_weaken {A} (R1 R2 : relation A) (l : list A) :
  (forall x y, R1 x y -> R2 x y) -> Sorted R1 l -> Sorted R2 l.
Proof.
  intros Himp Hs. induction Hs as [|x l Hs IH Hhd]; constructor; auto.
  destruct Hhd; constructor; auto.
Qed.

Lemma Sorted_drop {A} (R : relation A) (n : nat) (l : list A) :
  Sorted R l -> Sorted R (drop n l).
Proof.
  revert l. induction n as [|n IH]; intros l Hs; [rewrite drop_0; exact Hs|].
  destruct l as [|x l]; simpl; [constructor|].
  apply IH. inversion Hs; assumption.
Qed.

Lemma Sorted_take {A} (R : relation A) (n : nat) (l : list A) :
  Sorted R l -> Sorted R (take n l).
Proof.
  revert l. induction n as [|n IH]; intros l Hs; [constructor|].
  destruct l as [|x l]; simpl; [constructor|].
  inversion Hs as [|? ? Hs' Hhd]; subst. constructor; [apply IH; exact Hs'|].
  destruct n; simpl; [constructor|].
  destruct Hhd; simpl; constructor; assumption.
Qed.

(** A read never fails and leaves the store as it is. *)
Lemma issue_select {R B} (fields : R -> B) (from : Table R) where_ orderBy
    limit offset rt w :
  issue (Select fields from where_ orderBy limit offset) rt w =
  (Return (fields <$> Q.limit limit (Q.offset offset
             (Q.orderBy orderBy (matching where_ (rows from (db w)))))),
   {| db := db w;
      journal := journal w ++
                 [issued (Select fields from where_ orderBy limit offset)];
      dates_read := dates_read w; uuids_drawn := uuids_drawn w |}).
Proof. reflexivity. Qed.

(** ** Listing routines *)

(** C7: for a signed-in caller [listMyRoutines] returns, newest update
    first, exactly the caller's routines that are active (flag unset, the
    default) or all the caller's routines, active or not (flag set); no
    inactive routine is returned when the flag is unset; [total] is the
    number of items returned. *)
Theorem listMyRoutines_items includeInactive context u rt w :
  locals context ≫= user = Some u ->
  exists items w',
    listMyRoutines includeInactive context rt w =
      (Return (DataRoutines items (length items)), w') /\
    db w' = db w /\
    items ≡ₚ filter (fun r => Routine.userId r = user_id u /\
                             (includeInactive = false -> Routine.isActive r = true))
               (routines (db w)) /\
    Sorted newest_first items /\
    (includeInactive = false ->
     forall r, r ∈ items -> Routine.isActive r = true) /\
    (includeInactive = true ->
     forall r, r ∈ routines (db w) -> Routine.userId r = user_id u -> r ∈ items).
Proof.
  intros Hu. unfold listMyRoutines.
  rewrite bind_run, (requireUser_some _ u) by exact Hu.
  rewrite bind_run, issue_select. simpl Q.limit. simpl Q.offset.
  rewrite list_fmap_id.
  eexists _, _. split; [reflexivity|]. split; [reflexivity|].
  set (filters := if negb includeInactive then _ else _).
  assert (Hperm : Q.orderBy [Q.desc Routine.updatedAt]
                    (matching (Q.and filters) (routines (db w)))
                  ≡ₚ filter (fun r => Routine.userId r = user_id u /\
                               (includeInactive = false -> Routine.isActive r = true))
                       (routines (db w))).
  { rewrite orderBy_Permutation. simpl rows.
    erewrite matching_filter; [reflexivity|].
    intros r. subst filters. destruct includeInactive; simpl negb; cbv iota.
    - rewrite holds_and1, holds_eq. intuition congruence.
    - simpl app. rewrite holds_and2, !holds_eq. intuition. }
  simpl rows in *. split; [exact Hperm|]. split; [|split].
  - apply (Sorted_weaken (Q.precedes [Q.desc Routine.updatedAt]));
      [|apply orderBy_Sorted; congruence].
    intros a b. unfold newest_first, Q.precedes. lia.
  - intros Hf r Hin. rewrite Hperm in Hin.
    apply list_elem_of_filter in Hin as [[_ Ha] _]. auto.
  - intros Ht r Hin Hr. rewrite Hperm. apply list_elem_of_filter.
    split; [split; [exact Hr|congruence]|exact Hin].
Qed.

(** ** Updates of the routine table *)

(** An update of [SleepRoutines] never fails: it rewrites the selected rows
    in place and reports how many the condition selected. *)
Lemma issue_update_routines set where_ rt w :
  issue (Update SleepRoutines (SetRoutine set) where_) rt w =
  (Return (length (matching where_ (routines (db w)))),
   {| db := mkDb ((fun r => if Q.holds where_ r then set_routine set r else r)
                    <$> routines (db w))
                 (steps (db w)) (logs (db w)) (foreign_keys (db w));
      journal := journal w ++
                 [issued (Update SleepRoutines (SetRoutine set) where_)];
      dates_read := dates_read w; uuids_drawn := uuids_drawn w |}).
Proof.
  unfold issue, run. simpl set_reference. simpl rows.
  destruct (decide _) as [_|Hno]; [reflexivity|].
  destruct Hno. right. intros _ r [=].
Qed.

Lemma owned_dec_true id uid (r : Routine.t) :
  Routine.id r = id -> Routine.userId r = uid ->
  Q.holds (owned id uid) r = true.
Proof.
  intros Hi Hu. apply Is_true_true. apply holds_owned. auto.
Qed.

Lemma owned_exists_matching id uid (l : list Routine.t) :
  (exists r, r ∈ l /\ Routine.id r = id /\ Routine.userId r = uid) <->
  matching (owned id uid) l <> [].
Proof.
  rewrite matching_nil_iff. split.
  - intros (r & Hin & Hi & Hu) Hno. apply (Hno r Hin). apply holds_owned. auto.
  - intros Hne. destruct (matching (owned id uid) l) as [|r rest] eqn:E.
    + destruct Hne. intros r Hin Hc.
      assert (Hm : r ∈ matching (owned id uid) l)
        by (apply elem_of_matching; auto).
      rewrite E in Hm. inversion Hm.
    + assert (Hm : r ∈ matching (owned id uid) l) by (rewrite E; left).
      apply elem_of_matching in Hm as [Hc Hin]. apply holds_owned in Hc.
      exists r. tauto.
Qed.

Lemma update_none_selected {R} (f : R -> R) (c : Q.Cond R) (l : list R) :
  matching c l = [] ->
  (fun r => if Q.holds c r then f r else r) <$> l = l.
Proof.
  intros Hnil. rewrite matching_nil_iff in Hnil.
  induction l as [|r l IH]; [reflexivity|]. rewrite fmap_cons. f_equal.
  - destruct (Q.holds c r) eqn:E; [|reflexivity].
    destruct (Hnil r); [left|]. rewrite E. exact I.
  - apply IH. intros r' Hin. apply Hnil. right. exact Hin.
Qed.

(** ** Archiving *)

Lemma archiveRoutine_run id context u rt w :
  locals context ≫= user = Some u ->
  let now := Date_at rt (dates_read w) in
  let w' :=
    {| db := mkDb ((fun r => if Q.holds (owned id (user_id u)) r
                             then set_routine (archive_set now) r else r)
                     <$> routines (db w))
                  (steps (db w)) (logs (db w)) (foreign_keys (db w));
       journal := journal w ++
                  [issued (Update SleepRoutines (SetRoutine (archive_set now))
                             (owned id (user_id u)))];
       dates_read := S (dates_read w); uuids_drawn := uuids_drawn w |} in
  archiveRoutine id context rt w =
  (if decide (matching (owned id (user_id u)) (routines (db w)) = [])
   then Throw (not_found "Sleep routine not found.")
   else Return DataNone, w').
Proof.
  intros Hu now w'. unfold archiveRoutine.
  rewrite bind_run, (requireUser_some _ u) by exact Hu.
  rewrite bind_run. unfold new_Date at 1. cbv beta iota.
  rewrite bind_run, issue_update_routines. world.
  fold now. fold (archive_set now).
  destruct (decide _) as [Hnil|Hne].
  - rewrite Hnil. reflexivity.
  - destruct (matching _ _) as [|r rest]; [congruence|]. reflexivity.
Qed.

(** C6: for a signed-in caller, archiving a routine the caller owns
    succeeds, and archiving it again succeeds too: after each call the owned
    row is inactive, its update time is the time of that call and its other
    columns are as before; every other routine, the steps and the logs are
    untouched. When no routine has this id and this owner (no such id, or
    another user's routine) the call throws NOT_FOUND (so never FORBIDDEN)
    and the tables are unchanged. *)
Theorem archiveRoutine_twice id context u rt w :
  locals context ≫= user = Some u ->
  ((exists r, r ∈ routines (db w) /\
              Routine.id r = id /\ Routine.userId r = user_id u) ->
   exists w1 w2,
     archiveRoutine id context rt w = (Return DataNone, w1) /\
     archiveRoutine id context rt w1 = (Return DataNone, w2) /\
     steps (db w1) = steps (db w) /\ logs (db w1) = logs (db w) /\
     steps (db w2) = steps (db w) /\ logs (db w2) = logs (db w) /\
     forall i r, routines (db w) !! i = Some r ->
       exists r1 r2,
         routines (db w1) !! i = Some r1 /\ routines (db w2) !! i = Some r2 /\
         if decide (Routine.id r = id /\ Routine.userId r = user_id u)
         then Routine.isActive r1 = false /\ Routine.isActive r2 = false /\
              Routine.updatedAt r1 = Date_at rt (dates_read w) /\
              Routine.updatedAt r2 = Date_at rt (S (dates_read w)) /\
              same_but_activity r r1 /\ same_but_activity r r2
         else r1 = r /\ r2 = r) /\
  ((forall r, r ∈ routines (db w) ->
              ~ (Routine.id r = id /\ Routine.userId r = user_id u)) ->
   exists w1,
     archiveRoutine id context rt w =
       (Throw (ActionError NOT_FOUND "Sleep routine not found."), w1) /\
     db w1 = db w).
Proof.
  intros Hu. split.
  - intros Hown. apply owned_exists_matching in Hown.
    pose proof (archiveRoutine_run id context u rt w Hu) as H1.
    cbv zeta in H1. destruct (decide _) as [Hnil|_] in H1; [contradiction|].
    match type of H1 with _ = (_, ?x) => set (w1 := x) in * end.
    pose proof (archiveRoutine_run id context u rt w1 Hu) as H2.
    cbv zeta in H2.
    assert (Hkeep : forall f (r : Routine.t),
      Q.holds (owned id (user_id u))
        (if Q.holds (owned id (user_id u)) r then set_routine f r else r)
      = Q.holds (owned id (user_id u)) r).
    { intros f r. destruct (Q.holds (owned id (user_id u)) r) eqn:E;
        [|exact E]. apply Is_true_true. apply Is_true_true_2 in E.
      apply holds_owned in E. apply holds_owned. exact E. }
    destruct (decide _) as [Hnil|_] in H2.
    { exfalso. apply Hown. rewrite matching_nil_iff in Hnil |- *.
      intros r Hin Hc.
      apply (Hnil (set_routine (archive_set (Date_at rt (dates_read w))) r)).
      - subst w1. world. apply list_elem_of_fmap. exists r. split; [|exact Hin].
        rewrite (Is_true_true_1 _ Hc). reflexivity.
      - apply holds_owned in Hc. apply holds_owned. exact Hc. }
    match type of H2 with _ = (_, ?x) => set (w2 := x) in * end.
    exists w1, w2. repeat (split; [first [exact H1|exact H2|reflexivity]|]).
    intros i r Hi. subst w2. subst w1. world.
    rewrite !list_lookup_fmap, Hi. cbn [fmap option_fmap option_map]. rewrite Hkeep.
    eexists _, _. split; [reflexivity|]. split; [reflexivity|].
    destruct (decide _) as [[Hid Huid]|Hno].
    + rewrite (owned_dec_true _ _ _ Hid Huid). unfold same_but_activity.
      simpl. repeat split; reflexivity.
    + destruct (Q.holds (owned id (user_id u)) r) eqn:E; [|auto].
      apply Is_true_true_2, holds_owned in E. contradiction.
  - intros Hno.
    pose proof (archiveRoutine_run id context u rt w Hu) as H1.
    cbv zeta in H1.
    assert (Hnil : matching (owned id (user_id u)) (routines (db w)) = []).
    { apply matching_nil_iff. intros r Hin Hc. apply (Hno r Hin).
      apply holds_owned. exact Hc. }
    destruct (decide _) as [_|Hne] in H1; [|contradiction].
    eexists. split; [exact H1|]. world.
    rewrite (update_none_selected _ _ _ Hnil). destruct (db w); reflexivity.
Qed.

(** ** Step rows *)

Lemma stepValues_from routineId now index steps rt w k :
  uuids_drawn w = (k + index)%nat ->
  stepValues routineId now index steps rt w =
  (Return (imap (fun i => stepRow rt routineId now k (index + i)) steps),
   {| db := db w; journal := journal w; dates_read := dates_read w;
      uuids_drawn := (uuids_drawn w + length steps)%nat |}).
Proof.
  revert index w.
  induction steps as [|step rest IH]; intros index w Hk.
  - simpl. unfold mret, Action_ret. destruct w. simpl. do 2 f_equal. lia.
  - simpl stepValues. rewrite bind_run. unfold randomUUID at 1. cbv beta iota.
    rewrite bind_run, IH by (world; lia). world.
    unfold mret, Action_ret. rewrite imap_cons. f_equal.
    + f_equal. f_equal.
      * unfold stepRow. rewrite Hk. f_equal; do 2 f_equal; lia.
      * apply imap_ext. intros i x _. unfold compose, stepRow.
        f_equal; do 2 f_equal; lia.
    + f_equal. simpl. lia.
Qed.

Lemma stepValues_run routineId now steps rt w :
  stepValues routineId now 0 steps rt w =
  (Return (imap (stepRow rt routineId now (uuids_drawn w)) steps),
   {| db := db w; journal := journal w; dates_read := dates_read w;
      uuids_drawn := (uuids_drawn w + length steps)%nat |}).
Proof.
  rewrite (stepValues_from _ _ 0 _ _ _ (uuids_drawn w)) by lia. reflexivity.
Qed.

Lemma stepRow_orderIndex rt routineId now k i step :
  Step.orderIndex (stepRow rt routineId now k i step) =
  match routineStepInput.orderIndex step with
  | Some supplied => supplied
  | None => Z.of_nat i + 1
  end.
Proof. unfold stepRow. simpl. destruct (routineStepInput.orderIndex step); reflexivity. Qed.

(** ** Writes to the step table *)

Lemma issue_delete_steps where_ rt w :
  issue (Delete SleepRoutineSteps where_) rt w =
  (Return tt,
   {| db := mkDb (routines (db w))
                 (filter (fun s => negb (Q.holds where_ s)) (steps (db w)))
                 (logs (db w)) (foreign_keys (db w));
      journal := journal w ++ [issued (Delete SleepRoutineSteps where_)];
      dates_read := dates_read w; uuids_drawn := uuids_drawn w |}).
Proof. reflexivity. Qed.

Lemma delete_steps_filter id (l : list Step.t) :
  filter (fun s => negb (Q.holds (Q.eq Step.routineId id) s)) l =
  filter (fun s => Step.routineId s <> id) l.
Proof.
  apply list_filter_iff. intros s. rewrite negb_True, holds_eq. reflexivity.
Qed.

(** What an accepted insert of step rows does to the store. *)
Lemma run_insert_steps values d a d' :
  run (Insert SleepRoutineSteps values) d = inr (a, d') ->
  d' = mkDb (routines d) (steps d ++ values) (logs d) (foreign_keys d) /\
  NoDup (Step.id <$> values) /\
  Forall (fun k => k ∉ (Step.id <$> steps d)) (Step.id <$> values).
Proof.
  unfold run. world. cbn [primaryKey].
  destruct (decide _) as [[Hnd Hfresh]|]; [|discriminate].
  destruct (decide _); [|discriminate].
  intros [= _ <-]. auto.
Qed.

Lemma issue_insert_steps values rt w :
  issue (Insert SleepRoutineSteps values) rt w =
  match run (Insert SleepRoutineSteps values) (db w) with
  | inr (_, d) =>
      (Return tt,
       {| db := d;
          journal := journal w ++ [issued (Insert SleepRoutineSteps values)];
          dates_read := dates_read w; uuids_drawn := uuids_drawn w |})
  | inl e =>
      (Throw (StorageError e),
       {| db := db w;
          journal := journal w ++ [issued (Insert SleepRoutineSteps values)];
          dates_read := dates_read w; uuids_drawn := uuids_drawn w |})
  end.
Proof.
  unfold issue. destruct (run _ _) as [e|[[] d]]; reflexivity.
Qed.

(** ** Updating a routine *)

Lemma updateData_has_keys input now :
  (0 <? RoutineSet.keys (routineUpdateData input now))%nat = true.
Proof. apply Nat.ltb_lt. unfold RoutineSet.keys. simpl. lia. Qed.

(** The ways a run of [updateRoutine] by a signed-in caller can end. *)
Lemma updateRoutine_cases input context u rt w o w' :
  locals context ≫= user = Some u ->
  updateRoutine input context rt w = (o, w') ->
  let id := UpdateRoutineInput.id input in
  let now := Date_at rt (dates_read w) in
  let kept := filter (fun s => Step.routineId s <> id) (steps (db w)) in
  (o = Throw (not_found "Sleep routine not found.") /\ db w' = db w) \/
  ((exists r, r ∈ routines (db w) /\
              Routine.id r = id /\ Routine.userId r = user_id u) /\
   routines (db w') =
     (fun r => if Q.holds (owned id (user_id u)) r
               then set_routine (routineUpdateData input now) r else r)
       <$> routines (db w) /\
   logs (db w') = logs (db w) /\
   foreign_keys (db w') = foreign_keys (db w) /\
   match get (UpdateRoutineInput.steps input) with
   | None => o = Return DataNone /\ steps (db w') = steps (db w)
   | Some l =>
       (o = Return DataNone /\
        steps (db w') = kept ++ imap (stepRow rt id now (uuids_drawn w)) l) \/
       ((exists e, o = Throw (StorageError e)) /\ steps (db w') = kept)
   end).
Proof.
  intros Hu Hrun id now kept. unfold updateRoutine in Hrun.
  rewrite bind_run, (requireUser_some _ u) in Hrun by exact Hu.
  rewrite bind_run, issue_select in Hrun. cbn [Q.limit Q.offset] in Hrun.
  rewrite list_fmap_id in Hrun. unfold Q.orderBy in Hrun. world.
  fold id in Hrun.
  destruct (head (matching (owned id (user_id u)) (routines (db w))))
    as [routine|] eqn:Hhead.
  2:{ left. ended Hrun o w'. auto. }
  right.
  assert (Hown : exists r, r ∈ routines (db w) /\
                           Routine.id r = id /\ Routine.userId r = user_id u).
  { apply owned_exists_matching. intros Hnil. rewrite Hnil in Hhead.
    discriminate. }
  split; [exact Hown|].
  rewrite bind_run in Hrun. unfold new_Date at 1 in Hrun. cbv beta iota in Hrun.
  world. fold now in Hrun.
  rewrite updateData_has_keys in Hrun.
  rewrite bind_run, bind_run, issue_update_routines in Hrun. world.
  unfold mret at 1, Action_ret at 1 in Hrun.
  destruct (get (UpdateRoutineInput.steps input)) as [[|step rest]|].
  - rewrite !bind_run, issue_delete_steps in Hrun. world.
    unfold mret, Action_ret in Hrun.
    ended Hrun o w'.
    rewrite delete_steps_filter. cbn [imap]. rewrite app_nil_r. auto 10.
  - rewrite !bind_run, issue_delete_steps in Hrun. world.
    rewrite bind_run, stepValues_run, issue_insert_steps in Hrun. world.
    rewrite delete_steps_filter in Hrun. fold kept in Hrun.
    destruct (run _ _) as [e|[[] d3]] eqn:Hins.
    + ended Hrun o w'.
      repeat (split; [reflexivity|]). right. split; [eexists|]; reflexivity.
    + apply run_insert_steps in Hins as [-> _]. world.
      unfold mret, Action_ret in Hrun.
      ended Hrun o w'. auto 10.
  - rewrite !bind_run in Hrun. unfold mret, Action_ret in Hrun.
    ended Hrun o w'. auto 10.
Qed.

(** What a successful [updateRoutine] has done. *)
Lemma updateRoutine_return input context u rt w d w' :
  locals context ≫= user = Some u ->
  updateRoutine input context rt w = (Return d, w') ->
  let id := UpdateRoutineInput.id input in
  let now := Date_at rt (dates_read w) in
  d = DataNone /\
  (exists r, r ∈ routines (db w) /\
             Routine.id r = id /\ Routine.userId r = user_id u) /\
  routines (db w') =
    (fun r => if Q.holds (owned id (user_id u)) r
              then set_routine (routineUpdateData input now) r else r)
      <$> routines (db w) /\
  logs (db w') = logs (db w) /\
  steps (db w') =
    match get (UpdateRoutineInput.steps input) with
    | None => steps (db w)
    | Some l =>
        filter (fun s => Step.routineId s <> id) (steps (db w)) ++
        imap (stepRow rt id now (uuids_drawn w)) l
    end.
Proof.
  intros Hu Hrun id now.
  destruct (updateRoutine_cases _ _ _ _ _ _ _ Hu Hrun)
    as [[Ho _]|(Hown & Hr & Hl & _ & Hs)]; [discriminate|].
  fold id now in Hr, Hs.
  destruct (get (UpdateRoutineInput.steps input)) as [l|].
  - destruct Hs as [[Ho Hs]|[[e He] _]]; [|discriminate].
    injection Ho as <-. auto.
  - destruct Hs as [Ho Hs]. injection Ho as <-. auto.
Qed.

Lemma copied_absent {A} (f : Field A) : absent_or_undefined f -> copied f = None.
Proof. intros [->| ->]; reflexivity. Qed.

Lemma copied_defined {A} (f : Field A) v : f = Present (Some v) -> copied f = Some v.
Proof. intros ->. reflexivity. Qed.

(** C3: after a successful [updateRoutine], every routine row that is not
    the caller's row of that id is as before, and in the caller's row: the
    id, owner, active flag and creation time are as before; each of the six
    patchable columns whose key is missing from the input, or present with
    the value undefined, is as before (so a patch of [notes] alone leaves
    [name] and the rest alone), and a column whose key is defined takes the
    supplied value; the update time is the date read during this call. *)
Theorem updateRoutine_sparse_patch input context u rt w d w' :
  locals context ≫= user = Some u ->
  updateRoutine input context rt w = (Return d, w') ->
  forall i r, routines (db w) !! i = Some r ->
    exists r', routines (db w') !! i = Some r' /\
      if decide (Routine.id r = UpdateRoutineInput.id input /\
                 Routine.userId r = user_id u)
      then
        Routine.id r' = Routine.id r /\
        Routine.userId r' = Routine.userId r /\
        Routine.isActive r' = Routine.isActive r /\
        Routine.createdAt r' = Routine.createdAt r /\
        Routine.updatedAt r' = Date_at rt (dates_read w) /\
        (absent_or_undefined (UpdateRoutineInput.name input) ->
         Routine.name r' = Routine.name r) /\
        (absent_or_undefined (UpdateRoutineInput.goalDescription input) ->
         Routine.goalDescription r' = Routine.goalDescription r) /\
        (absent_or_undefined (UpdateRoutineInput.targetBedTimeLocal input) ->
         Routine.targetBedTimeLocal r' = Routine.targetBedTimeLocal r) /\
        (absent_or_undefined (UpdateRoutineInput.targetWakeTimeLocal input) ->
         Routine.targetWakeTimeLocal r' = Routine.targetWakeTimeLocal r) /\
        (absent_or_undefined (UpdateRoutineInput.timeZone input) ->
         Routine.timeZone r' = Routine.timeZone r) /\
        (absent_or_undefined (UpdateRoutineInput.notes input) ->
         Routine.notes r' = Routine.notes r) /\
        (forall v, UpdateRoutineInput.name input = Present (Some v) ->
         Routine.name r' = v) /\
        (forall v, UpdateRoutineInput.goalDescription input = Present (Some v) ->
         Routine.goalDescription r' = Some v) /\
        (forall v, UpdateRoutineInput.targetBedTimeLocal input = Present (Some v) ->
         Routine.targetBedTimeLocal r' = Some v) /\
        (forall v, UpdateRoutineInput.targetWakeTimeLocal input = Present (Some v) ->
         Routine.targetWakeTimeLocal r' = Some v) /\
        (forall v, UpdateRoutineInput.timeZone input = Present (Some v) ->
         Routine.timeZone r' = Some v) /\
        (forall v, UpdateRoutineInput.notes input = Present (Some v) ->
         Routine.notes r' = Some v)
      else r' = r.
Proof.
  intros Hu Hrun i r Hi.
  destruct (updateRoutine_return _ _ _ _ _ _ _ Hu Hrun) as (_ & _ & Hr & _).
  rewrite Hr, list_lookup_fmap, Hi. cbn [fmap option_fmap option_map].
  eexists. split; [reflexivity|].
  destruct (decide _) as [[Hid Huid]|Hno].
  - rewrite (owned_dec_true _ _ _ Hid Huid).
    unfold set_routine, routineUpdateData. cbn -[copied].
    repeat split;
      try (intros Habs; rewrite (copied_absent _ Habs); reflexivity);
      try (intros v Hv; rewrite (copied_defined _ _ Hv); reflexivity).
  - destruct (Q.holds _ r) eqn:E; [|reflexivity].
    apply Is_true_true_2, holds_owned in E. contradiction.
Qed.

(** ** Fetching a routine with its steps *)

Lemma getRoutineWithSteps_run id context u rt w :
  locals context ≫= user = Some u ->
  exists w',
    db w' = db w /\
    getRoutineWithSteps id context rt w =
    (match head (matching (owned id (user_id u)) (routines (db w))) with
     | None => Throw (not_found "Sleep routine not found.")
     | Some routine =>
         Return (DataRoutine routine
                   (Q.orderBy [Q.asc Step.orderIndex]
                      (matching (Q.eq Step.routineId id) (steps (db w)))))
     end, w').
Proof.
  intros Hu. unfold getRoutineWithSteps.
  rewrite bind_run, (requireUser_some _ u) by exact Hu.
  rewrite bind_run, issue_select. cbn [Q.limit Q.offset].
  rewrite list_fmap_id. unfold Q.orderBy at 1. world.
  destruct (head _) as [routine|].
  - rewrite bind_run, issue_select. cbn [Q.limit Q.offset].
    rewrite list_fmap_id. world. eexists. split; [|reflexivity]. reflexivity.
  - eexists. split; [|reflexivity]. reflexivity.
Qed.

Lemma owned_after_set id uid set (l : list Routine.t) :
  (exists r, r ∈ l /\ Routine.id r = id /\ Routine.userId r = uid) ->
  exists r, r ∈ ((fun r => if Q.holds (owned id uid) r
                           then set_routine set r else r) <$> l) /\
            Routine.id r = id /\ Routine.userId r = uid.
Proof.
  intros (r & Hin & Hid & Huid). exists (set_routine set r).
  split; [|split; [exact Hid|exact Huid]].
  apply list_elem_of_fmap. exists r. split; [|exact Hin].
  rewrite (owned_dec_true _ _ _ Hid Huid). reflexivity.
Qed.

(** When no step row is to be inserted, [updateRoutine] on an owned routine
    cannot fail. *)
Lemma updateRoutine_no_insert input context u rt w :
  locals context ≫= user = Some u ->
  (exists r, r ∈ routines (db w) /\
             Routine.id r = UpdateRoutineInput.id input /\
             Routine.userId r = user_id u) ->
  get (UpdateRoutineInput.steps input) = None \/
  get (UpdateRoutineInput.steps input) = Some [] ->
  exists w', updateRoutine input context rt w = (Return DataNone, w').
Proof.
  intros Hu Hown Hsteps. unfold updateRoutine.
  rewrite bind_run, (requireUser_some _ u) by exact Hu.
  rewrite bind_run, issue_select. cbn [Q.limit Q.offset].
  rewrite list_fmap_id. unfold Q.orderBy. world.
  apply owned_exists_matching in Hown.
  destruct (matching _ _) as [|routine others]; [congruence|]. cbn [head].
  rewrite bind_run. unfold new_Date at 1. cbv beta iota. world.
  rewrite updateData_has_keys.
  rewrite bind_run, bind_run, issue_update_routines. world.
  unfold mret at 1, Action_ret at 1.
  destruct Hsteps as [-> | ->].
  - rewrite bind_run. unfold mret, Action_ret. eexists. reflexivity.
  - rewrite !bind_run, issue_delete_steps. unfold mret, Action_ret.
    eexists. reflexivity.
Qed.

(** C4: on a routine the caller owns, [updateRoutine] with [steps: []]
    succeeds and removes every step of that routine (the steps of other
    routines stay); [updateRoutine] without [steps] (key missing, or
    undefined) succeeds and leaves the step table as it was; and when the
    routine had a step, the two outcomes differ, as [getRoutineWithSteps]
    shows: no step after the first, at least one after the second. *)
Theorem updateRoutine_empty_steps_vs_omitted input_empty input_omitted id
    context u rt w :
  locals context ≫= user = Some u ->
  UpdateRoutineInput.id input_empty = id ->
  UpdateRoutineInput.id input_omitted = id ->
  UpdateRoutineInput.steps input_empty = Present (Some []) ->
  absent_or_undefined (UpdateRoutineInput.steps input_omitted) ->
  (exists r, r ∈ routines (db w) /\
             Routine.id r = id /\ Routine.userId r = user_id u) ->
  exists w1 w2,
    updateRoutine input_empty context rt w = (Return DataNone, w1) /\
    updateRoutine input_omitted context rt w = (Return DataNone, w2) /\
    steps (db w1) = filter (fun s => Step.routineId s <> id) (steps (db w)) /\
    (forall s, s ∈ steps (db w1) -> Step.routineId s <> id) /\
    steps (db w2) = steps (db w) /\
    ((exists s, s ∈ steps (db w) /\ Step.routineId s = id) ->
     steps (db w1) <> steps (db w2) /\
     exists r1 r2 l w1' w2',
       getRoutineWithSteps id context rt w1 = (Return (DataRoutine r1 []), w1') /\
       getRoutineWithSteps id context rt w2 = (Return (DataRoutine r2 l), w2') /\
       l <> []).
Proof.
  intros Hu Hid1 Hid2 Hempty Homit Hown.
  assert (Hg1 : get (UpdateRoutineInput.steps input_empty) = Some [])
    by (rewrite Hempty; reflexivity).
  assert (Hg2 : get (UpdateRoutineInput.steps input_omitted) = None)
    by (destruct Homit as [-> | ->]; reflexivity).
  destruct (updateRoutine_no_insert input_empty context u rt w Hu) as [w1 H1];
    [rewrite Hid1; exact Hown|right; exact Hg1|].
  destruct (updateRoutine_no_insert input_omitted context u rt w Hu) as [w2 H2];
    [rewrite Hid2; exact Hown|left; exact Hg2|].
  destruct (updateRoutine_return _ _ _ _ _ _ _ Hu H1) as (_ & _ & Hr1 & _ & Hs1).
  destruct (updateRoutine_return _ _ _ _ _ _ _ Hu H2) as (_ & _ & Hr2 & _ & Hs2).
  rewrite Hg1, Hid1 in Hs1. cbn [imap] in Hs1. rewrite app_nil_r in Hs1.
  rewrite Hg2 in Hs2. rewrite Hid1 in Hr1. rewrite Hid2 in Hr2.
  assert (Hgone : forall s, s ∈ steps (db w1) -> Step.routineId s <> id).
  { intros s Hin. rewrite Hs1 in Hin.
    apply list_elem_of_filter in Hin as [Hne _]. exact Hne. }
  exists w1, w2. repeat (split; [assumption|]).
  intros (s & Hin & Hs).
  assert (Hdiff : steps (db w1) <> steps (db w2)).
  { intros Heq. apply (Hgone s); [|exact Hs]. rewrite Heq, Hs2. exact Hin. }
  split; [exact Hdiff|].
  destruct (getRoutineWithSteps_run id context u rt w1 Hu) as (w1' & _ & G1).
  destruct (getRoutineWithSteps_run id context u rt w2 Hu) as (w2' & _ & G2).
  destruct (head (matching (owned id (user_id u)) (routines (db w1))))
    as [r1|] eqn:E1.
  2:{ exfalso. apply head_None in E1. revert E1. apply owned_exists_matching.
      rewrite Hr1. apply owned_after_set. exact Hown. }
  destruct (head (matching (owned id (user_id u)) (routines (db w2))))
    as [r2|] eqn:E2.
  2:{ exfalso. apply head_None in E2. revert E2. apply owned_exists_matching.
      rewrite Hr2. apply owned_after_set. exact Hown. }
  eexists r1, r2, _, w1', w2'. split; [|split; [exact G2|]].
  - rewrite G1. do 3 f_equal.
    assert (Hnil : matching (Q.eq Step.routineId id) (steps (db w1)) = []).
    { apply matching_nil_iff. intros s' Hin' Hc. apply holds_eq in Hc.
      exact (Hgone s' Hin' Hc). }
    rewrite Hnil. reflexivity.
  - intros Hnil.
    assert (Hm : s ∈ Q.orderBy [Q.asc Step.orderIndex]
                       (matching (Q.eq Step.routineId id) (steps (db w2)))).
    { rewrite orderBy_Permutation. apply elem_of_matching.
      split; [apply holds_eq; exact Hs|rewrite Hs2; exact Hin]. }
    rewrite Hnil in Hm. inversion Hm.
Qed.

(** ** Creating a routine *)

Lemma run_insert_routine (r : Routine.t) d a d' :
  run (Insert SleepRoutines [r]) d = inr (a, d') ->
  d' = mkDb (routines d ++ [r]) (steps d) (logs d) (foreign_keys d) /\
  Routine.id r ∉ (Routine.id <$> routines d).
Proof.
  unfold run. world. cbn [primaryKey].
  destruct (decide _) as [[_ Hfresh]|]; [|discriminate].
  destruct (decide _); [|discriminate].
  intros [= _ <-]. split; [reflexivity|].
  apply Forall_cons in Hfresh as [Hfresh _]. exact Hfresh.
Qed.

Lemma issue_insert_routine (r : Routine.t) rt w :
  issue (Insert SleepRoutines [r]) rt w =
  match run (Insert SleepRoutines [r]) (db w) with
  | inr (_, d) =>
      (Return tt,
       {| db := d;
          journal := journal w ++ [issued (Insert SleepRoutines [r])];
          dates_read := dates_read w; uuids_drawn := uuids_drawn w |})
  | inl e =>
      (Throw (StorageError e),
       {| db := db w;
          journal := journal w ++ [issued (Insert SleepRoutines [r])];
          dates_read := dates_read w; uuids_drawn := uuids_drawn w |})
  end.
Proof.
  unfold issue. destruct (run _ _) as [e|[[] d]]; reflexivity.
Qed.

(** The three ways a run of [createRoutine] by a signed-in caller can end:
    the routine row is refused; the routine row is stored and the step rows
    are refused; both are stored and the id is returned. One date is read. *)
Lemma createRoutine_cases input context u rt w o w' :
  locals context ≫= user = Some u ->
  createRoutine input context rt w = (o, w') ->
  let routineId := randomUUID_at rt (uuids_drawn w) in
  let routine := routineRow input u (Date_at rt (dates_read w)) routineId in
  let values := stepRows rt w (CreateRoutineInput.steps input) in
  dates_read w' = S (dates_read w) /\
  (((exists e, o = Throw (StorageError e)) /\ db w' = db w) \/
   ((exists e, o = Throw (StorageError e)) /\
     (routineId ∉ (Routine.id <$> routines (db w))) /\
     db w' = mkDb (routines (db w) ++ [routine]) (steps (db w)) (logs (db w))
               (foreign_keys (db w))) \/
   (o = Return (DataId routineId) /\
     (routineId ∉ (Routine.id <$> routines (db w))) /\
     db w' = mkDb (routines (db w) ++ [routine]) (steps (db w) ++ values)
               (logs (db w)) (foreign_keys (db w)))).
Proof.
  intros Hu Hrun routineId routine values. unfold createRoutine in Hrun.
  rewrite bind_run, (requireUser_some _ u) in Hrun by exact Hu.
  rewrite bind_run in Hrun. unfold new_Date at 1 in Hrun.
  cbv beta iota in Hrun. rewrite bind_run in Hrun.
  unfold randomUUID at 1 in Hrun. cbv beta iota in Hrun. world.
  fold routineId in Hrun. fold (routineRow input u (Date_at rt (dates_read w)) routineId) in Hrun.
  fold routine in Hrun.
  rewrite bind_run, issue_insert_routine in Hrun. world.
  destruct (run _ _) as [e|[[] d1]] eqn:Hins.
  { ended Hrun o w'. split; [reflexivity|].
    left. split; [eexists; reflexivity|reflexivity]. }
  apply run_insert_routine in Hins as [-> Hfresh]. cbn [Routine.id routine routineRow] in Hfresh.
  unfold values, stepRows.
  destruct (CreateRoutineInput.steps input) as [[|step rest]|];
    cbn [default from_option id].
  - rewrite !bind_run in Hrun. unfold mret, Action_ret in Hrun.
    ended Hrun o w'. split; [reflexivity|].
    right. right. cbn [imap]. rewrite app_nil_r. auto.
  - rewrite !bind_run, stepValues_run, issue_insert_steps in Hrun. world.
    destruct (run _ _) as [e|[[] d2]] eqn:Hins2.
    + ended Hrun o w'. split; [reflexivity|].
      right. left. split; [eexists; reflexivity|]. auto.
    + apply run_insert_steps in Hins2 as [-> _]. world.
      unfold mret, Action_ret in Hrun.
      ended Hrun o w'. split; [reflexivity|].
      right. right. auto.
  - rewrite !bind_run in Hrun. unfold mret, Action_ret in Hrun.
    ended Hrun o w'. split; [reflexivity|].
    right. right. cbn [imap]. rewrite app_nil_r. auto.
Qed.

Lemma matching_app {R} (c : Q.Cond R) (l1 l2 : list R) :
  matching c (l1 ++ l2) = matching c l1 ++ matching c l2.
Proof. unfold matching. apply filter_app. Qed.

Lemma matching_all {R} (c : Q.Cond R) (l : list R) :
  (forall r, r ∈ l -> Q.holds c r) -> matching c l = l.
Proof.
  intros Hall. unfold matching. induction l as [|r l IH]; [reflexivity|].
  rewrite filter_cons_True by (apply Hall; left).
  f_equal. apply IH. intros r' Hin. apply Hall. right. exact Hin.
Qed.

Lemma elem_of_stepRows rt routineId now k (supplied : list routineStepInput.t) s :
  s ∈ imap (stepRow rt routineId now k) supplied ->
  exists i step, supplied !! i = Some step /\ s = stepRow rt routineId now k i step.
Proof.
  intros Hin. apply elem_of_lookup_imap in Hin as (i & step & -> & Hi).
  eauto.
Qed.

(** *** What the client hands back *)

Lemma safe_reads_back n : safe_integer n -> reads_back n = true.
Proof.
  intros [Hlo Hhi]. unfold reads_back. apply orb_true_iff. right.
  apply andb_true_iff. split; apply Z.leb_le; assumption.
Qed.

Lemma safe_row_reads_back s : safe_row s -> step_reads_back s = true.
Proof.
  intros [Ho Hm]. unfold step_reads_back. apply andb_true_iff. split.
  - apply safe_reads_back. exact Ho.
  - destruct (Step.minutesBeforeBed s) as [m|]; [|reflexivity].
    apply safe_reads_back. exact Hm.
Qed.

Lemma delivered_safe_rows routine got :
  Forall safe_row got ->
  delivered (Return (DataRoutine routine got)) =
  Handed (Return (DataRoutine routine got)).
Proof.
  intros Hsafe. unfold delivered.
  assert (Hall : forallb step_reads_back got = true).
  { apply forallb_forall. intros s Hin. apply safe_row_reads_back.
    rewrite Forall_forall in Hsafe. apply Hsafe. apply list_elem_of_In.
    exact Hin. }
  rewrite Hall. reflexivity.
Qed.

Lemma stepRow_safe rt id now k i step :
  safe_step step -> Z.of_nat i < 2 ^ 32 ->
  safe_row (stepRow rt id now k i step).
Proof.
  intros [Ho Hm] Hi. split; [|exact Hm]. cbn [stepRow Step.orderIndex].
  destruct (routineStepInput.orderIndex step) as [given|]; [exact Ho|].
  cbn [default from_option]. unfold safe_integer, MAX_SAFE_INTEGER.
  change (2 ^ 32) with 4294967296 in Hi. lia.
Qed.

Lemma stepRows_safe rt id now k supplied :
  Forall safe_step supplied -> Z.of_nat (length supplied) < 2 ^ 32 ->
  Forall safe_row (imap (stepRow rt id now k) supplied).
Proof.
  intros Hsafe Hlen. apply Forall_forall. intros s Hin.
  apply elem_of_stepRows in Hin as (i & step & Hi & ->).
  apply stepRow_safe.
  - rewrite Forall_forall in Hsafe. apply Hsafe.
    eapply list_elem_of_lookup_2. exact Hi.
  - apply lookup_lt_Some in Hi. lia.
Qed.

Lemma safe_rows_orderBy os (l : list Step.t) :
  Forall safe_row l -> Forall safe_row (Q.orderBy os l).
Proof.
  intros Hsafe. apply Forall_forall. intros s Hin.
  rewrite orderBy_Permutation in Hin. rewrite Forall_forall in Hsafe. auto.
Qed.

Lemma safe_rows_matching id (l : list Step.t) :
  (forall s, s ∈ l -> Step.routineId s = id -> safe_row s) ->
  Forall safe_row (matching (Q.eq Step.routineId id) l).
Proof.
  intros Hsafe. apply Forall_forall. intros s Hin.
  apply elem_of_matching in Hin as [Hc Hin]. apply holds_eq in Hc. auto.
Qed.

(** C1, within the numbers the client reads back: when [createRoutine] has
    returned the id of the new routine, for supplied steps whose order
    indexes and minutes are safe integers (the list being a JavaScript
    array, of fewer than [2 ^ 32] elements), [getRoutineWithSteps] of that
    id by the same caller returns the new routine and as many steps as were
    supplied, in ascending order of their order index, and the client hands
    them to the caller; the steps returned are, up to their order, the rows
    built from the supplied list, so that the step supplied at position [i]
    (from 0) comes back with its title, description and minutes and with
    the order index it was given, or [i + 1] when it was given none. *)
Theorem created_steps_are_fetched input supplied context u rt w id w1 :
  locals context ≫= user = Some u ->
  steps_reference_routines (db w) ->
  CreateRoutineInput.steps input = Some supplied ->
  Forall safe_step supplied ->
  Z.of_nat (length supplied) < 2 ^ 32 ->
  createRoutine input context rt w = (Return (DataId id), w1) ->
  exists routine got w2,
    getRoutineWithSteps id context rt w1 =
      (Return (DataRoutine routine got), w2) /\
    delivered (fst (getRoutineWithSteps id context rt w1)) =
      Handed (Return (DataRoutine routine got)) /\
    Routine.id routine = id /\
    Routine.name routine = CreateRoutineInput.name input /\
    length got = length supplied /\
    Sorted by_orderIndex got /\
    got ≡ₚ imap (stepRow rt id (Date_at rt (dates_read w))
                   (S (uuids_drawn w))) supplied /\
    (forall i step, supplied !! i = Some step ->
       exists row, row ∈ got /\
         Step.routineId row = id /\
         Step.title row = routineStepInput.title step /\
         Step.description row = routineStepInput.description step /\
         Step.minutesBeforeBed row = routineStepInput.minutesBeforeBed step /\
         Step.orderIndex row =
           match routineStepInput.orderIndex step with
           | Some given => given
           | None => Z.of_nat i + 1
           end) /\
    (forall row, row ∈ got ->
       exists i step, supplied !! i = Some step /\
         Step.title row = routineStepInput.title step /\
         Step.orderIndex row =
           match routineStepInput.orderIndex step with
           | Some given => given
           | None => Z.of_nat i + 1
           end).
Proof.
  intros Hu Hint Hsteps Hsafe Hlen Hrun.
  destruct (createRoutine_cases _ _ _ _ _ _ _ Hu Hrun)
    as (_ & [[[e He] _]|[[[e He] _]|(Hid & Hfresh & Hdb)]]); try discriminate.
  injection Hid as Hid. unfold stepRows in Hdb. rewrite Hsteps in Hdb.
  change (default [] (Some supplied)) with supplied in Hdb.
  rewrite <- Hid in Hdb, Hfresh.
  set (now := Date_at rt (dates_read w)) in *.
  set (values := imap (stepRow rt id now (S (uuids_drawn w))) supplied) in *.
  destruct (getRoutineWithSteps_run id context u rt w1 Hu) as (w2 & _ & Hget).
  rewrite Hdb in Hget. world.
  assert (Hold : matching (owned id (user_id u)) (routines (db w)) = []).
  { apply matching_nil_iff. intros r Hin Hc. apply holds_owned in Hc as [Hr _].
    apply Hfresh. apply list_elem_of_fmap. exists r. auto. }
  rewrite matching_app, Hold, app_nil_l in Hget.
  rewrite matching_all in Hget.
  2:{ intros r Hin. apply list_elem_of_singleton in Hin as ->.
      apply holds_owned. split; reflexivity. }
  cbn [head] in Hget.
  assert (Hnone : matching (Q.eq Step.routineId id) (steps (db w)) = []).
  { apply matching_nil_iff. intros s Hin Hc. apply holds_eq in Hc.
    apply Hfresh. rewrite <- Hc.
    unfold steps_reference_routines in Hint. rewrite Forall_forall in Hint.
    apply Hint. exact Hin. }
  rewrite matching_app, Hnone, app_nil_l in Hget.
  rewrite matching_all in Hget.
  2:{ intros s Hin. apply holds_eq.
      apply elem_of_stepRows in Hin as (i & step & _ & ->). reflexivity. }
  eexists _, _, w2. split; [exact Hget|].
  pose proof (orderBy_Permutation [Q.asc Step.orderIndex] values) as Hperm.
  split.
  { rewrite Hget. cbn [fst]. apply delivered_safe_rows, safe_rows_orderBy.
    apply stepRows_safe; assumption. }
  split; [reflexivity|]. split; [reflexivity|].
  split; [rewrite Hperm; apply length_imap|].
  split.
  { apply (Sorted_weaken (Q.precedes [Q.asc Step.orderIndex]));
      [|apply orderBy_Sorted; congruence].
    intros a b. unfold by_orderIndex, Q.precedes. lia. }
  split; [exact Hperm|]. split.
  - intros i step Hi. exists (stepRow rt id now (S (uuids_drawn w)) i step).
    split.
    + rewrite Hperm. apply elem_of_lookup_imap. eauto.
    + rewrite stepRow_orderIndex. repeat split; reflexivity.
  - intros row Hin. rewrite Hperm in Hin.
    apply elem_of_stepRows in Hin as (i & step & Hi & ->).
    exists i, step. rewrite stepRow_orderIndex. repeat split; auto.
Qed.

(** C10: a run of [createRoutine] by a signed-in caller reads the date once,
    and the rows it adds carry that one date: the routine row it stores has
    equal creation and update times, and every step row it stores has the
    creation time of the routine. When the call returns the new id, one
    routine row of that id was stored, with one step row of that routine for
    each supplied step. *)
Theorem createRoutine_single_timestamp input context u rt w o w' :
  locals context ≫= user = Some u ->
  createRoutine input context rt w = (o, w') ->
  dates_read w' = S (dates_read w) /\
  exists created values,
    routines (db w') = routines (db w) ++ created /\
    steps (db w') = steps (db w) ++ values /\
    (forall r, r ∈ created ->
       Routine.createdAt r = Routine.updatedAt r /\
       Routine.createdAt r = Date_at rt (dates_read w) /\
       forall s, s ∈ values -> Step.createdAt s = Routine.createdAt r) /\
    (forall id, o = Return (DataId id) ->
       exists r, created = [r] /\ Routine.id r = id /\
         length values = length (default [] (CreateRoutineInput.steps input)) /\
         forall s, s ∈ values -> Step.routineId s = id).
Proof.
  intros Hu Hrun.
  destruct (createRoutine_cases _ _ _ _ _ _ _ Hu Hrun)
    as (Hdates & [[[e He] Hdb]|[[[e He] [_ Hdb]]|(Hid & _ & Hdb)]]);
    (split; [exact Hdates|]); rewrite Hdb; world.
  - exists [], []. rewrite !app_nil_r.
    split; [reflexivity|]. split; [reflexivity|]. split.
    + intros r Hr. inversion Hr.
    + intros id Ho. rewrite He in Ho. discriminate.
  - eexists [_], []. rewrite app_nil_r.
    split; [reflexivity|]. split; [reflexivity|]. split.
    + intros r Hr. apply list_elem_of_singleton in Hr as ->.
      split; [reflexivity|]. split; [reflexivity|].
      intros s Hs. inversion Hs.
    + intros id Ho. rewrite He in Ho. discriminate.
  - eexists [_], _.
    split; [reflexivity|]. split; [reflexivity|]. split.
    + intros r Hr. apply list_elem_of_singleton in Hr as ->.
      split; [reflexivity|]. split; [reflexivity|].
      intros s Hs. apply elem_of_stepRows in Hs as (i & step & _ & ->).
      reflexivity.
    + intros id Ho. rewrite Hid in Ho. injection Ho as <-.
      eexists. split; [reflexivity|]. split; [reflexivity|].
      split; [apply length_imap|].
      intros s Hs. apply elem_of_stepRows in Hs as (i & step & _ & ->).
      reflexivity.
Qed.

(** ** Sleep logs: the routine reference *)

Lemma truthy_Some routineId rid :
  truthy routineId = Some rid <-> routineId = Some rid /\ rid <> ""%string.
Proof.
  unfold truthy. destruct routineId as [s|]; [|split; [discriminate|intros [[=] _]]].
  destruct (bool_decide_reflect (s = ""%string)) as [->|Hne].
  - split; [discriminate|]. intros [[= <-] Hne]. congruence.
  - split; [intros [= <-]; auto|intros [[= <-] _]; reflexivity].
Qed.

Lemma truthy_None routineId :
  truthy routineId = None <-> routineId = None \/ routineId = Some ""%string.
Proof.
  unfold truthy. destruct routineId as [s|]; [|split; auto].
  destruct (bool_decide_reflect (s = ""%string)) as [->|Hne].
  - split; auto.
  - split; [discriminate|]. intros [[=]|[= ->]]. congruence.
Qed.

(** The check, in closed form: nothing is read for a falsy reference;
    otherwise the caller's routine of that id is looked up, and the check
    throws FORBIDDEN when there is none. *)
Lemma checkRoutine_run routineId u rt w :
  checkRoutine routineId u rt w =
  match truthy routineId with
  | None => (Return tt, w)
  | Some rid =>
      (if decide (matching (owned rid (user_id u)) (routines (db w)) = [])
       then Throw (ActionError FORBIDDEN "You cannot log sleep for this routine.")
       else Return tt,
       {| db := db w;
          journal := journal w ++
            [issued (Select Routine.id SleepRoutines (owned rid (user_id u))
                       [] None None)];
          dates_read := dates_read w; uuids_drawn := uuids_drawn w |})
  end.
Proof.
  unfold checkRoutine. destruct (truthy routineId) as [rid|]; [|reflexivity].
  rewrite bind_run, issue_select. cbn [Q.limit Q.offset]. unfold Q.orderBy.
  world. destruct (decide _) as [Hnil|Hne].
  - rewrite Hnil. reflexivity.
  - destruct (matching _ _) as [|r rest]; [congruence|]. reflexivity.
Qed.

Lemma issue_insert {R} (into : Table R) (values : list R) rt w :
  issue (Insert into values) rt w =
  match run (Insert into values) (db w) with
  | inr (_, d) =>
      (Return tt,
       {| db := d; journal := journal w ++ [issued (Insert into values)];
          dates_read := dates_read w; uuids_drawn := uuids_drawn w |})
  | inl e =>
      (Throw (StorageError e),
       {| db := db w; journal := journal w ++ [issued (Insert into values)];
          dates_read := dates_read w; uuids_drawn := uuids_drawn w |})
  end.
Proof.
  unfold issue. destruct (run _ _) as [e|[[] d]]; reflexivity.
Qed.

Lemma run_insert_log (l : Log.t) d a d' :
  run (Insert SleepLogs [l]) d = inr (a, d') ->
  d' = mkDb (routines d) (steps d) (logs d ++ [l]) (foreign_keys d).
Proof.
  unfold run. world. cbn [primaryKey].
  destruct (decide _); [|discriminate].
  destruct (decide _); [|discriminate].
  intros [= _ <-]. reflexivity.
Qed.

(** The ways a run of [createSleepLog] by a signed-in caller can end, with
    the statements it has issued. *)
Lemma createSleepLog_cases input context u rt w o w' :
  locals context ≫= user = Some u ->
  createSleepLog input context rt w = (o, w') ->
  let row := logRow input u (Date_at rt (dates_read w))
               (randomUUID_at rt (uuids_drawn w)) in
  let check rid := issued (Select Routine.id SleepRoutines
                             (owned rid (user_id u)) [] None None) in
  let write := issued (Insert SleepLogs [row]) in
  let stored := mkDb (routines (db w)) (steps (db w)) (logs (db w) ++ [row])
                  (foreign_keys (db w)) in
  match truthy (CreateSleepLogInput.routineId input) with
  | Some rid =>
      if decide (matching (owned rid (user_id u)) (routines (db w)) = [])
      then o = Throw (ActionError FORBIDDEN "You cannot log sleep for this routine.")
           /\ journal w' = journal w ++ [check rid] /\ db w' = db w
      else journal w' = journal w ++ [check rid; write] /\
           ((exists e, o = Throw (StorageError e)) /\ db w' = db w \/
            o = Return (DataId (Log.id row)) /\ db w' = stored)
  | None =>
      journal w' = journal w ++ [write] /\
      ((exists e, o = Throw (StorageError e)) /\ db w' = db w \/
       o = Return (DataId (Log.id row)) /\ db w' = stored)
  end.
Proof.
  intros Hu Hrun row check write stored. unfold createSleepLog in Hrun.
  rewrite bind_run, (requireUser_some _ u) in Hrun by exact Hu.
  rewrite bind_run in Hrun. unfold new_Date at 1 in Hrun.
  cbv beta iota in Hrun. rewrite bind_run, checkRoutine_run in Hrun. world.
  assert (Hwrite : forall v o w',
    db v = db w -> uuids_drawn v = uuids_drawn w ->
    (logId ← randomUUID;
     issue (Insert SleepLogs
              [logRow input u (Date_at rt (dates_read w)) logId]);;
     mret (DataId logId)) rt v = (o, w') ->
    journal w' = journal v ++ [write] /\
    ((exists e, o = Throw (StorageError e)) /\ db w' = db w \/
     o = Return (DataId (Log.id row)) /\ db w' = stored)).
  { clear Hrun. intros v o1 w1 Hdb Huuid Hrun. rewrite bind_run in Hrun.
    unfold randomUUID at 1 in Hrun. cbv beta iota in Hrun.
    rewrite bind_run, issue_insert in Hrun. world. rewrite Huuid, Hdb in Hrun.
    fold row in Hrun. fold write in Hrun.
    destruct (run _ _) as [e|[[] d]] eqn:Hins.
    - ended Hrun o1 w1.
      split; [reflexivity|]. left. split; [eexists; reflexivity|reflexivity].
    - apply run_insert_log in Hins as ->. unfold mret, Action_ret in Hrun.
      ended Hrun o1 w1.
      split; [reflexivity|]. right. split; reflexivity. }
  destruct (truthy _) as [rid|].
  - destruct (decide _) as [Hnil|Hne].
    + ended Hrun o w'. auto.
    + apply Hwrite in Hrun; [|reflexivity|reflexivity]. world.
      rewrite <- app_assoc in Hrun. exact Hrun.
  - apply Hwrite in Hrun; [|reflexivity|reflexivity]. exact Hrun.
Qed.

Lemma issue_update_logs set where_ rt w :
  issue (Update SleepLogs (SetLog set) where_) rt w =
  (if decide (matching where_ (logs (db w)) = [] \/
              reference_ok (db w) (LogSet.routineId set))
   then Return (length (matching where_ (logs (db w))))
   else Throw (StorageError ForeignKeyConstraint),
   {| db := if decide (matching where_ (logs (db w)) = [] \/
                       reference_ok (db w) (LogSet.routineId set))
            then mkDb (routines (db w)) (steps (db w))
                   ((fun l => if Q.holds where_ l then set_log set l else l)
                      <$> logs (db w))
                   (foreign_keys (db w))
            else db w;
      journal := journal w ++ [issued (Update SleepLogs (SetLog set) where_)];
      dates_read := dates_read w; uuids_drawn := uuids_drawn w |}).
Proof.
  unfold issue, run. world. cbn [set_reference].
  destruct (decide _); reflexivity.
Qed.

Lemma updateSleepLog_cases input context u rt w o w' :
  locals context ≫= user = Some u ->
  updateSleepLog input context rt w = (o, w') ->
  let mine := own_log (UpdateSleepLogInput.id input) (user_id u) in
  let find := issued (Select (fun l : Log.t => l) SleepLogs mine [] None None) in
  let check rid := issued (Select Routine.id SleepRoutines
                             (owned rid (user_id u)) [] None None) in
  if decide (matching mine (logs (db w)) = [])
  then o = Throw (not_found "Sleep log not found.") /\
       journal w' = journal w ++ [find] /\ db w' = db w
  else
    match truthy (get (UpdateSleepLogInput.routineId input)) with
    | Some rid =>
        if decide (matching (owned rid (user_id u)) (routines (db w)) = [])
        then o = Throw (ActionError FORBIDDEN
                          "You cannot log sleep for this routine.") /\
             journal w' = journal w ++ [find; check rid] /\ db w' = db w
        else exists js, journal w' = journal w ++ [find; check rid] ++ js /\
                        log_written input u w o w' js
    | None => exists js, journal w' = journal w ++ [find] ++ js /\
                         log_written input u w o w' js
    end.
Proof.
  intros Hu Hrun mine find check. unfold updateSleepLog in Hrun.
  rewrite bind_run, (requireUser_some _ u) in Hrun by exact Hu.
  rewrite bind_run, issue_select in Hrun. cbn [Q.limit Q.offset] in Hrun.
  rewrite list_fmap_id in Hrun. unfold Q.orderBy in Hrun. world.
  fold mine in Hrun. fold find in Hrun.
  destruct (decide _) as [Hnil|Hne].
  { rewrite Hnil in Hrun. cbn [head] in Hrun.
    ended Hrun o w'. auto. }
  destruct (matching mine (logs (db w))) as [|log others] eqn:Hm; [congruence|].
  cbn [head] in Hrun.
  assert (Hwrite : forall v o w',
    db v = db w ->
    ((if (0 <? LogSet.keys (logUpdateData input))%nat
      then issue (Update SleepLogs (SetLog (logUpdateData input)) mine);;
           mret tt
      else mret tt);; mret DataNone) rt v = (o, w') ->
    exists js, journal w' = journal v ++ js /\ log_written input u w o w' js).
  { clear Hrun. intros v o1 w1 Hdb Hrun. rewrite bind_run in Hrun.
    unfold log_written. fold mine.
    destruct (0 <? LogSet.keys (logUpdateData input))%nat eqn:Hkeys.
    - apply Nat.ltb_lt in Hkeys.
      rewrite bind_run, issue_update_logs in Hrun. rewrite Hdb, Hm in Hrun.
      eexists. split; [|right; split; [exact Hkeys|split; [reflexivity|]]].
      + destruct (decide _) in Hrun;
          pose proof (f_equal snd Hrun) as Hw; cbn [fst snd] in Hw;
          subst w1; reflexivity.
      + destruct (decide _) as [Hok|Hbad] in Hrun;
          ended Hrun o1 w1.
        * right. split; reflexivity.
        * left. split; [eexists; reflexivity|reflexivity].
    - apply Nat.ltb_ge in Hkeys. unfold mret, Action_ret in Hrun.
      pose proof (f_equal fst Hrun) as Ho. pose proof (f_equal snd Hrun) as Hw.
      cbn [fst snd] in Ho, Hw. subst o1 w1.
      exists []. rewrite app_nil_r. split; [reflexivity|].
      left. repeat split; [lia|exact Hdb]. }
  rewrite bind_run, checkRoutine_run in Hrun. world.
  destruct (truthy _) as [rid|].
  - destruct (decide _) as [Hnil|Hne'].
    + ended Hrun o w'.
      rewrite <- app_assoc. auto.
    + apply Hwrite in Hrun as (js & Hj & Hw); [|reflexivity]. world.
      exists js. split; [|exact Hw]. rewrite Hj, <- !app_assoc. reflexivity.
  - apply Hwrite in Hrun as (js & Hj & Hw); [|reflexivity]. world.
    exists js. split; [|exact Hw]. rewrite Hj, <- !app_assoc. reflexivity.
Qed.

Lemma owned_none_iff rid uid (l : list Routine.t) :
  matching (owned rid uid) l = [] <->
  ~ exists r, r ∈ l /\ Routine.id r = rid /\ Routine.userId r = uid.
Proof.
  split.
  - intros Hnil Hex. apply owned_exists_matching in Hex. contradiction.
  - intros Hno. destruct (decide (matching (owned rid uid) l = [])) as [H|H];
      [exact H|]. apply owned_exists_matching in H. contradiction.
Qed.

(** C2, as the handler has it: for a signed-in caller and a routine
    reference that is a non-empty string, [createSleepLog] fails with
    FORBIDDEN exactly when the caller owns no routine of that id; with no
    routine reference it never fails with FORBIDDEN. *)
Theorem createSleepLog_forbidden input context u rt w o w' :
  locals context ≫= user = Some u ->
  createSleepLog input context rt w = (o, w') ->
  (forall rid, CreateSleepLogInput.routineId input = Some rid ->
     rid <> ""%string ->
     (failed_with FORBIDDEN o <->
      ~ exists r, r ∈ routines (db w) /\
                  Routine.id r = rid /\ Routine.userId r = user_id u)) /\
  (CreateSleepLogInput.routineId input = None -> ~ failed_with FORBIDDEN o).
Proof.
  intros Hu Hrun. pose proof (createSleepLog_cases _ _ _ _ _ _ _ Hu Hrun) as H.
  cbv zeta in H. split.
  - intros rid Hrid Hne.
    assert (Ht : truthy (CreateSleepLogInput.routineId input) = Some rid)
      by (apply truthy_Some; auto).
    rewrite Ht in H. rewrite <- owned_none_iff.
    destruct (decide _) as [Hnil|Hsome].
    + destruct H as (-> & _). split; [auto|]. intros _. eexists. reflexivity.
    + split; [|contradiction].
      intros [msg ->]. destruct H as (_ & [[[e He] _]|[He _]]); discriminate.
  - intros Hnone. rewrite Hnone in H. cbn [truthy] in H.
    intros [msg ->]. destruct H as (_ & [[[e He] _]|[He _]]); discriminate.
Qed.



(** ** Listing sleep logs *)

Lemma safe_offset_fits page pageSize :
  1 <= page -> 1 <= pageSize -> safe_offset page pageSize ->
  fits_int64 ((page - 1) * pageSize) = true.
Proof.
  unfold safe_offset, MAX_SAFE_INTEGER, fits_int64. intros Hpage Hsize Hsafe.
  apply andb_true_iff. split; apply Z.ltb_lt; nia.
Qed.

(** C8, as the handler has it and within the limits of the store: for a
    signed-in caller whose logs have sleep dates of plain years, and a
    valid page request whose offset is a safe integer (so one that the
    engine takes), [listSleepLogs] returns the input's [page] and
    [pageSize], the number of returned items as [total], and as items the
    slice of at most [pageSize] logs that follows the first
    [(page - 1) * pageSize] logs of the selection in order; the selection
    is the caller's logs, restricted to the given routine when the given
    [routineId] is a non-empty string, ordered by sleep date, later first,
    and for equal sleep dates by creation time, later first. *)
Theorem listSleepLogs_page input context u rt w :
  locals context ≫= user = Some u ->
  valid_page input ->
  safe_offset (ListSleepLogsInput.page input)
    (ListSleepLogsInput.pageSize input) ->
  plain_sleep_dates (user_id u) (db w) ->
  let page := ListSleepLogsInput.page input in
  let pageSize := ListSleepLogsInput.pageSize input in
  exists items all w',
    listSleepLogs input context rt w =
      (Return (DataLogs items page pageSize (length items)), w') /\
    db w' = db w /\
    fits_int64 ((page - 1) * pageSize) = true /\
    all ≡ₚ filter (selected (user_id u)
                     (truthy (ListSleepLogsInput.routineId input)))
             (logs (db w)) /\
    Sorted latest_first all /\
    items = take (Z.to_nat pageSize)
              (drop (Z.to_nat ((page - 1) * pageSize)) all) /\
    Z.of_nat (length items) <= pageSize /\
    Sorted latest_first items /\
    (forall l, l ∈ items ->
       l ∈ logs (db w) /\ Log.userId l = user_id u /\
       plain_year (Log.sleepDate l)) /\
    (forall rid, ListSleepLogsInput.routineId input = Some rid ->
       rid <> ""%string ->
       forall l, l ∈ items -> Log.routineId l = Some rid).
Proof.
  intros Hu [Hpage Hsize] Hoffset Hplain page pageSize. unfold listSleepLogs.
  rewrite bind_run, (requireUser_some _ u) by exact Hu.
  rewrite bind_run, issue_select. rewrite list_fmap_id. world.
  fold page. fold pageSize. unfold Q.limit, Q.offset.
  destruct (Z.ltb_spec pageSize 0) as [Hneg|_]; [unfold pageSize in Hneg; lia|].
  set (filters := match truthy _ with Some _ => _ | None => _ end).
  set (order := [Q.desc Log.sleepDate; Q.desc Log.createdAt]).
  set (all := Q.orderBy order (matching (Q.and filters) (logs (db w)))).
  assert (Hperm : all ≡ₚ filter (selected (user_id u)
                                   (truthy (ListSleepLogsInput.routineId input)))
                           (logs (db w))).
  { unfold all. rewrite orderBy_Permutation.
    erewrite matching_filter; [reflexivity|].
    intros l. subst filters. unfold selected.
    destruct (truthy _) as [rid|].
    - cbn [app]. rewrite holds_and2, !holds_eq. reflexivity.
    - rewrite holds_and1, holds_eq. intuition. }
  assert (Hsorted : Sorted latest_first all).
  { apply (Sorted_weaken (Q.precedes order));
      [|apply orderBy_Sorted; discriminate].
    intros a b. unfold latest_first, order, Q.precedes. lia. }
  set (items := take (Z.to_nat pageSize)
                  (drop (Z.to_nat ((page - 1) * pageSize)) all)).
  assert (Hsub : forall l, l ∈ items ->
            selected (user_id u) (truthy (ListSleepLogsInput.routineId input)) l
            /\ l ∈ logs (db w)).
  { intros l Hin. apply (list_elem_of_filter (selected _ _)). rewrite <- Hperm.
    unfold items in Hin. apply elem_of_take in Hin as (i & Hi & _).
    rewrite lookup_drop in Hi. eapply list_elem_of_lookup_2. exact Hi. }
  exists items, all. eexists. split; [reflexivity|].
  split; [reflexivity|].
  split; [apply safe_offset_fits; [exact Hpage|lia|exact Hoffset]|].
  split; [exact Hperm|]. split; [exact Hsorted|].
  split; [reflexivity|]. split; [|split; [|split]].
  - unfold items. rewrite length_take. lia.
  - apply Sorted_take, Sorted_drop, Hsorted.
  - intros l Hin. destruct (Hsub l Hin) as [[Hmine _] Hl].
    split; [exact Hl|]. split; [exact Hmine|]. exact (Hplain l Hl Hmine).
  - intros rid Hrid Hne l Hin. destruct (Hsub l Hin) as [[_ Hr] _].
    assert (Ht : truthy (ListSleepLogsInput.routineId input) = Some rid)
      by (apply truthy_Some; auto).
    rewrite Ht in Hr. exact Hr.
Qed.

(** ** Referential integrity of the step table is kept *)

Lemma integrity_same d d' :
  routines d' = routines d -> steps d' = steps d ->
  steps_reference_routines d -> steps_reference_routines d'.
Proof. unfold steps_reference_routines. intros -> ->. auto. Qed.

Lemma set_keeps_ids (c : Q.Cond Routine.t) set (l : list Routine.t) :
  Routine.id <$> ((fun r => if Q.holds c r then set_routine set r else r) <$> l)
  = Routine.id <$> l.
Proof.
  rewrite <- list_fmap_compose. apply list_fmap_ext. intros i r _.
  unfold compose. destruct (Q.holds c r); reflexivity.
Qed.

Lemma integrity_cases d d' id :
  steps_reference_routines d ->
  (Routine.id <$> routines d') = (Routine.id <$> routines d) \/
  (Routine.id <$> routines d') = (Routine.id <$> routines d) ++ [id] ->
  (forall s, s ∈ steps d' ->
     s ∈ steps d \/ (Step.routineId s = id /\ id ∈ (Routine.id <$> routines d'))) ->
  steps_reference_routines d'.
Proof.
  unfold steps_reference_routines. rewrite !Forall_forall.
  intros Hinv Hids Hsteps s Hin.
  destruct (Hsteps s Hin) as [Hold|[-> Hnew]]; [|exact Hnew].
  specialize (Hinv s Hold).
  destruct Hids as [-> | ->]; [exact Hinv|].
  apply elem_of_app. left. exact Hinv.
Qed.

Lemma createRoutine_keeps_integrity input context rt w o w' :
  steps_reference_routines (db w) ->
  createRoutine input context rt w = (o, w') ->
  steps_reference_routines (db w').
Proof.
  intros Hinv Hrun.
  destruct (locals context ≫= user) as [u|] eqn:Hu.
  2:{ unfold createRoutine in Hrun.
      rewrite bind_run, requireUser_none in Hrun by exact Hu.
      pose proof (f_equal snd Hrun) as Hw. cbn [snd] in Hw. subst w'.
      exact Hinv. }
  destruct (createRoutine_cases _ _ _ _ _ _ _ Hu Hrun)
    as (_ & [[_ Hdb]|[(_ & _ & Hdb)|(_ & _ & Hdb)]]); rewrite Hdb.
  - exact Hinv.
  - apply (integrity_cases (db w) _ (randomUUID_at rt (uuids_drawn w)) Hinv);
      world.
    + right. rewrite fmap_app. reflexivity.
    + intros s Hin. left. exact Hin.
  - apply (integrity_cases (db w) _ (randomUUID_at rt (uuids_drawn w)) Hinv);
      world.
    + right. rewrite fmap_app. reflexivity.
    + intros s Hin. apply elem_of_app in Hin as [Hin|Hin]; [left; exact Hin|].
      right. apply elem_of_stepRows in Hin as (i & step & _ & ->).
      split; [reflexivity|]. rewrite fmap_app. apply elem_of_app. right.
      left.
Qed.

Lemma updateRoutine_keeps_integrity input context rt w o w' :
  steps_reference_routines (db w) ->
  updateRoutine input context rt w = (o, w') ->
  steps_reference_routines (db w').
Proof.
  intros Hinv Hrun.
  destruct (locals context ≫= user) as [u|] eqn:Hu.
  2:{ unfold updateRoutine in Hrun.
      rewrite bind_run, requireUser_none in Hrun by exact Hu.
      pose proof (f_equal snd Hrun) as Hw. cbn [snd] in Hw. subst w'.
      exact Hinv. }
  destruct (updateRoutine_cases _ _ _ _ _ _ _ Hu Hrun)
    as [[_ ->]|((r & Hin & Hid & _) & Hr & _ & _ & Hs)]; [exact Hinv|].
  assert (Hids : Routine.id <$> routines (db w') = Routine.id <$> routines (db w))
    by (rewrite Hr; apply set_keeps_ids).
  apply (integrity_cases (db w) _ (UpdateRoutineInput.id input) Hinv);
    [left; exact Hids|].
  assert (Hhere : UpdateRoutineInput.id input ∈ (Routine.id <$> routines (db w')))
    by (rewrite Hids; apply list_elem_of_fmap; eauto).
  intros s Hs'.
  destruct (get (UpdateRoutineInput.steps input)) as [l|].
  - assert (Hsub : s ∈ filter (fun s => Step.routineId s <> UpdateRoutineInput.id input)
                         (steps (db w)) ++
                       imap (stepRow rt (UpdateRoutineInput.id input)
                               (Date_at rt (dates_read w)) (uuids_drawn w)) l).
    { destruct Hs as [[_ Hs]|[_ Hs]]; rewrite Hs in Hs'; [exact Hs'|].
      apply elem_of_app. left. exact Hs'. }
    apply elem_of_app in Hsub as [Hold|Hnew].
    + left. apply list_elem_of_filter in Hold as [_ Hold]. exact Hold.
    + right. apply elem_of_stepRows in Hnew as (i & step & _ & ->).
      split; [reflexivity|exact Hhere].
  - destruct Hs as [_ Hs]. rewrite Hs in Hs'. left. exact Hs'.
Qed.

Lemma archiveRoutine_keeps_integrity id context rt w o w' :
  steps_reference_routines (db w) ->
  archiveRoutine id context rt w = (o, w') ->
  steps_reference_routines (db w').
Proof.
  intros Hinv Hrun.
  destruct (locals context ≫= user) as [u|] eqn:Hu.
  2:{ unfold archiveRoutine in Hrun.
      rewrite bind_run, requireUser_none in Hrun by exact Hu.
      pose proof (f_equal snd Hrun) as Hw. cbn [snd] in Hw. subst w'.
      exact Hinv. }
  rewrite (archiveRoutine_run id context u rt w Hu) in Hrun.
  pose proof (f_equal snd Hrun) as Hw. cbn [snd] in Hw. subst w'. world.
  apply (integrity_cases (db w) _ id Hinv); world.
  - left. apply set_keeps_ids.
  - intros s Hin. left. exact Hin.
Qed.

Lemma listMyRoutines_reads includeInactive context rt w o w' :
  listMyRoutines includeInactive context rt w = (o, w') -> db w' = db w.
Proof.
  intros Hrun. unfold listMyRoutines in Hrun.
  destruct (locals context ≫= user) as [u|] eqn:Hu.
  - rewrite bind_run, (requireUser_some _ u) in Hrun by exact Hu.
    rewrite bind_run, issue_select in Hrun.
    pose proof (f_equal snd Hrun) as Hw. cbn [snd] in Hw. subst w'. reflexivity.
  - rewrite bind_run, requireUser_none in Hrun by exact Hu.
    pose proof (f_equal snd Hrun) as Hw. cbn [snd] in Hw. subst w'. reflexivity.
Qed.

Lemma listSleepLogs_reads input context rt w o w' :
  listSleepLogs input context rt w = (o, w') -> db w' = db w.
Proof.
  intros Hrun. unfold listSleepLogs in Hrun.
  destruct (locals context ≫= user) as [u|] eqn:Hu.
  - rewrite bind_run, (requireUser_some _ u) in Hrun by exact Hu.
    rewrite bind_run, issue_select in Hrun.
    pose proof (f_equal snd Hrun) as Hw. cbn [snd] in Hw. subst w'. reflexivity.
  - rewrite bind_run, requireUser_none in Hrun by exact Hu.
    pose proof (f_equal snd Hrun) as Hw. cbn [snd] in Hw. subst w'. reflexivity.
Qed.

Lemma getRoutineWithSteps_reads id context rt w o w' :
  getRoutineWithSteps id context rt w = (o, w') -> db w' = db w.
Proof.
  intros Hrun.
  destruct (locals context ≫= user) as [u|] eqn:Hu.
  - destruct (getRoutineWithSteps_run id context u rt w Hu) as (w2 & Hdb & Hget).
    rewrite Hget in Hrun.
    pose proof (f_equal snd Hrun) as Hw. cbn [snd] in Hw. subst w'. exact Hdb.
  - unfold getRoutineWithSteps in Hrun.
    rewrite bind_run, requireUser_none in Hrun by exact Hu.
    pose proof (f_equal snd Hrun) as Hw. cbn [snd] in Hw. subst w'. reflexivity.
Qed.

Lemma createSleepLog_keeps_routines input context rt w o w' :
  createSleepLog input context rt w = (o, w') ->
  routines (db w') = routines (db w) /\ steps (db w') = steps (db w).
Proof.
  intros Hrun.
  destruct (locals context ≫= user) as [u|] eqn:Hu.
  2:{ unfold createSleepLog in Hrun.
      rewrite bind_run, requireUser_none in Hrun by exact Hu.
      pose proof (f_equal snd Hrun) as Hw. cbn [snd] in Hw. subst w'. auto. }
  pose proof (createSleepLog_cases _ _ _ _ _ _ _ Hu Hrun) as H. cbv zeta in H.
  destruct (truthy _) as [rid|].
  - destruct (decide _).
    + destruct H as (_ & _ & ->). auto.
    + destruct H as (_ & [[_ ->]|[_ ->]]); auto.
  - destruct H as (_ & [[_ ->]|[_ ->]]); auto.
Qed.

Lemma updateSleepLog_keeps_routines input context rt w o w' :
  updateSleepLog input context rt w = (o, w') ->
  routines (db w') = routines (db w) /\ steps (db w') = steps (db w).
Proof.
  intros Hrun.
  destruct (locals context ≫= user) as [u|] eqn:Hu.
  2:{ unfold updateSleepLog in Hrun.
      rewrite bind_run, requireUser_none in Hrun by exact Hu.
      pose proof (f_equal snd Hrun) as Hw. cbn [snd] in Hw. subst w'. auto. }
  pose proof (updateSleepLog_cases _ _ _ _ _ _ _ Hu Hrun) as H. cbv zeta in H.
  assert (Hwritten : forall js, log_written input u w o w' js ->
            routines (db w') = routines (db w) /\ steps (db w') = steps (db w)).
  { intros js [(_ & _ & _ & ->)|(_ & _ & [[_ ->]|[_ ->]])]; auto. }
  destruct (decide _); [destruct H as (_ & _ & ->); auto|].
  destruct (truthy _) as [rid|].
  - destruct (decide _); [destruct H as (_ & _ & ->); auto|].
    destruct H as (js & _ & Hw). eauto.
  - destruct H as (js & _ & Hw). eauto.
Qed.

(** Every action keeps the referential integrity of the step table, so the
    stores the handlers can reach from an empty one all have it. *)
Lemma server_keeps_integrity request context rt w o w' :
  steps_reference_routines (db w) ->
  server request context rt w = (o, w') ->
  steps_reference_routines (db w').
Proof.
  intros Hinv Hrun. destruct request; cbn [server] in Hrun.
  - eapply createRoutine_keeps_integrity; eauto.
  - eapply updateRoutine_keeps_integrity; eauto.
  - eapply archiveRoutine_keeps_integrity; eauto.
  - apply getRoutineWithSteps_reads in Hrun. rewrite Hrun. exact Hinv.
  - apply listMyRoutines_reads in Hrun. rewrite Hrun. exact Hinv.
  - apply createSleepLog_keeps_routines in Hrun as [Hr Hs].
    exact (integrity_same _ _ Hr Hs Hinv).
  - apply updateSleepLog_keeps_routines in Hrun as [Hr Hs].
    exact (integrity_same _ _ Hr Hs Hinv).
  - apply listSleepLogs_reads in Hrun. rewrite Hrun. exact Hinv.
Qed.

Lemma reachable_integrity rt w :
  reachable rt w -> steps_reference_routines (db w).
Proof.
  induction 1 as [fk|w request context o w' _ IH Hrun].
  - constructor.
  - exact (server_keeps_integrity _ _ _ _ _ _ IH Hrun).
Qed.

(** * Instances on the sample data *)

Lemma nobody_owns_the_empty_id fk :
  ~ exists r, r ∈ routines (db (home fk)) /\
              Routine.id r = ""%string /\ Routine.userId r = user_id alice_user.
Proof.
  intros (r & Hin & Hid & _). cbn in Hin.
  repeat (apply elem_of_cons in Hin as [->|Hin]; [discriminate Hid|]).
  inversion Hin.
Qed.

(** C2 fails as stated at the empty string: alice owns no routine whose id
    is the empty string, yet [createSleepLog] with [routineId: ""] is not
    refused as FORBIDDEN: the log is stored (store without foreign keys) or
    the store refuses the row (store with foreign keys). *)
Lemma createSleepLog_empty_reference_not_forbidden :
  CreateSleepLogInput.routineId (log_of (Some ""%string)) = Some ""%string /\
  (~ exists r, r ∈ routines (db (home false)) /\
               Routine.id r = ""%string /\ Routine.userId r = user_id alice_user) /\
  fst (createSleepLog (log_of (Some ""%string)) alice clock (home false))
    = Return (DataId "A") /\
  fst (createSleepLog (log_of (Some ""%string)) alice clock (home true))
    = Throw (StorageError ForeignKeyConstraint) /\
  ~ failed_with FORBIDDEN
      (fst (createSleepLog (log_of (Some ""%string)) alice clock (home false))) /\
  ~ failed_with FORBIDDEN
      (fst (createSleepLog (log_of (Some ""%string)) alice clock (home true))).
Proof.
  split; [reflexivity|]. split; [apply nobody_owns_the_empty_id|].
  split; [vm_compute; reflexivity|]. split; [vm_compute; reflexivity|].
  split; intros [message H]; vm_compute in H; discriminate H.
Qed.

(** C8 fails as stated at the empty string: asked for the logs of the
    routine [""], [listSleepLogs] returns alice's two logs, neither of
    which has that [routineId]. *)
Lemma listSleepLogs_empty_filter_not_applied :
  ListSleepLogsInput.routineId (first_page (Some ""%string)) = Some ""%string /\
  fst (listSleepLogs (first_page (Some ""%string)) alice clock (home false))
    = Return (DataLogs [tuesday; monday] 1 20 2) /\
  Log.routineId tuesday <> Some ""%string /\
  Log.routineId monday <> Some ""%string.
Proof.
  split; [reflexivity|]. split; [vm_compute; reflexivity|].
  split; discriminate.
Qed.

(** C1 fails as stated at the order index [2 ^ 53]: [createRoutine] with
    one step of that order index returns the id of the new routine and
    stores the step, and [getRoutineWithSteps] of that id by the same
    caller returns no step to the caller: the store selects the row, and
    the client throws a RangeError in place of handing it back. *)
Lemma created_step_beyond_safe_integers_is_not_fetched :
  let w1 := snd (createRoutine far_step alice clock (home true)) in
  (length <$> CreateRoutineInput.steps far_step) = Some 1%nat /\
  fst (createRoutine far_step alice clock (home true)) = Return (DataId "A") /\
  steps (db w1) =
    steps (db (home true)) ++
    [Step.mk "B" "A" 9007199254740992 "Dim lights" None None 1700000000000] /\
  delivered (fst (getRoutineWithSteps "A" alice clock w1)) = RangeError /\
  ~ exists routine got,
      delivered (fst (getRoutineWithSteps "A" alice clock w1)) =
        Handed (Return (DataRoutine routine got)) /\
      length got = 1%nat.
Proof.
  intros w1. split; [reflexivity|]. split; [vm_compute; reflexivity|].
  split; [vm_compute; reflexivity|].
  assert (Hthrown : delivered (fst (getRoutineWithSteps "A" alice clock w1))
                    = RangeError) by (vm_compute; reflexivity).
  split; [exact Hthrown|].
  intros (routine & got & Hgot & _). rewrite Hthrown in Hgot. discriminate.
Qed.

Lemma created_steps_are_fetched_witness :
  let w1 := snd (createRoutine two_steps alice clock (home true)) in
  locals alice ≫= user = Some alice_user /\
  steps_reference_routines (db (home true)) /\
  Forall safe_step (default [] (CreateRoutineInput.steps two_steps)) /\
  createRoutine two_steps alice clock (home true) = (Return (DataId "A"), w1) /\
  exists routine got w2,
    getRoutineWithSteps "A" alice clock w1 = (Return (DataRoutine routine got), w2) /\
    delivered (fst (getRoutineWithSteps "A" alice clock w1)) =
      Handed (Return (DataRoutine routine got)) /\
    length got = 2%nat /\ Sorted by_orderIndex got.
Proof.
  intros w1.
  assert (H1 : locals alice ≫= user = Some alice_user) by reflexivity.
  assert (H2 : steps_reference_routines (db (home true)))
    by (apply (bool_decide_unpack _); vm_compute; exact I).
  assert (H3 : createRoutine two_steps alice clock (home true)
               = (Return (DataId "A"), w1)) by (vm_compute; reflexivity).
  assert (H4 : Forall safe_step (default [] (CreateRoutineInput.steps two_steps)))
    by (repeat constructor).
  assert (H5 : Z.of_nat
                 (length (default [] (CreateRoutineInput.steps two_steps)))
               < 2 ^ 32) by reflexivity.
  split; [exact H1|]. split; [exact H2|]. split; [exact H4|].
  split; [exact H3|].
  destruct (created_steps_are_fetched two_steps _ alice alice_user clock
              (home true) "A" w1 H1 H2 eq_refl H4 H5 H3)
    as (routine & got & w2 & Hget & Hhanded & _ & _ & Hlen & Hsorted & _).
  exists routine, got, w2. auto.
Defined.

Lemma createSleepLog_forbidden_witness :
  let run := createSleepLog (log_of (Some "r3"%string)) alice clock (home true) in
  locals alice ≫= user = Some alice_user /\
  run = (fst run, snd run) /\
  (failed_with FORBIDDEN (fst run) <->
   ~ exists r, r ∈ routines (db (home true)) /\
               Routine.id r = "r3"%string /\ Routine.userId r = user_id alice_user).
Proof.
  intros run.
  assert (H1 : locals alice ≫= user = Some alice_user) by reflexivity.
  assert (H2 : run = (fst run, snd run)) by (vm_compute; reflexivity).
  split; [exact H1|]. split; [exact H2|].
  apply (createSleepLog_forbidden _ alice alice_user clock (home true) _ _ H1 H2);
    [reflexivity|discriminate].
Defined.

Lemma updateRoutine_sparse_patch_witness :
  let run := updateRoutine only_notes alice clock (home true) in
  locals alice ≫= user = Some alice_user /\
  run = (Return DataNone, snd run) /\
  routines (db (home true)) !! 0%nat = Some weekday /\
  exists r', routines (db (snd run)) !! 0%nat = Some r' /\
    Routine.name r' = "Weekday"%string /\ Routine.isActive r' = true /\
    Routine.userId r' = "alice"%string /\ Routine.createdAt r' = 100 /\
    Routine.notes r' = Some "no coffee"%string /\
    Routine.updatedAt r' = 1700000000000.
Proof.
  intros run.
  assert (H1 : locals alice ≫= user = Some alice_user) by reflexivity.
  assert (H2 : run = (Return DataNone, snd run)) by (vm_compute; reflexivity).
  assert (H3 : routines (db (home true)) !! 0%nat = Some weekday) by reflexivity.
  split; [exact H1|]. split; [exact H2|]. split; [exact H3|].
  destruct (updateRoutine_sparse_patch only_notes alice alice_user clock
              (home true) DataNone (snd run) H1 H2 0%nat weekday H3)
    as (r' & Hr' & Hrow).
  exists r'. split; [exact Hr'|].
  destruct (decide _) as [_|Hno] in Hrow; [|destruct Hno; split; reflexivity].
  destruct Hrow as (_ & Hu & Ha & Hc & Hup & Hn & _ & _ & _ & _ & _ & _ & _ & _
                    & _ & _ & Hnotes).
  rewrite Hn by (left; reflexivity). rewrite Ha, Hu, Hc, Hup.
  rewrite (Hnotes "no coffee"%string) by reflexivity.
  repeat split; reflexivity.
Defined.

Lemma updateRoutine_empty_steps_vs_omitted_witness :
  locals alice ≫= user = Some alice_user /\
  (exists r, r ∈ routines (db (home true)) /\
             Routine.id r = "r1"%string /\ Routine.userId r = user_id alice_user) /\
  exists w1 w2,
    updateRoutine no_steps alice clock (home true) = (Return DataNone, w1) /\
    updateRoutine only_notes alice clock (home true) = (Return DataNone, w2) /\
    steps (db w1) <> steps (db w2).
Proof.
  assert (H1 : locals alice ≫= user = Some alice_user) by reflexivity.
  assert (H2 : exists r, r ∈ routines (db (home true)) /\
             Routine.id r = "r1"%string /\ Routine.userId r = user_id alice_user).
  { exists weekday. split; [left|split; reflexivity]. }
  split; [exact H1|]. split; [exact H2|].
  destruct (updateRoutine_empty_steps_vs_omitted no_steps only_notes "r1"
              alice alice_user clock (home true) H1 eq_refl eq_refl eq_refl
              (or_introl eq_refl) H2)
    as (w1 & w2 & Ha & Hb & _ & _ & _ & Hdiff).
  exists w1, w2. split; [exact Ha|]. split; [exact Hb|].
  apply Hdiff. exists dim_lights. split; [left|reflexivity].
Defined.

Lemma unauthorized_witness :
  locals anonymous ≫= user = None /\
  server (ArchiveRoutine "r1") anonymous clock (home true) =
  (Throw (ActionError UNAUTHORIZED
            "You must be signed in to perform this action."), home true).
Proof.
  split; [reflexivity|].
  apply unauthorized_before_any_storage_access. reflexivity.
Defined.

Lemma archiveRoutine_twice_witness :
  locals alice ≫= user = Some alice_user /\
  (exists r, r ∈ routines (db (home true)) /\
             Routine.id r = "r1"%string /\ Routine.userId r = user_id alice_user) /\
  (forall r, r ∈ routines (db (home true)) ->
             ~ (Routine.id r = "r3"%string /\ Routine.userId r = user_id alice_user)) /\
  (exists w1 w2,
     archiveRoutine "r1" alice clock (home true) = (Return DataNone, w1) /\
     archiveRoutine "r1" alice clock w1 = (Return DataNone, w2)) /\
  (exists w1,
     archiveRoutine "r3" alice clock (home true) =
       (Throw (ActionError NOT_FOUND "Sleep routine not found."), w1)).
Proof.
  assert (H1 : locals alice ≫= user = Some alice_user) by reflexivity.
  assert (H2 : exists r, r ∈ routines (db (home true)) /\
             Routine.id r = "r1"%string /\ Routine.userId r = user_id alice_user).
  { exists weekday. split; [left|split; reflexivity]. }
  assert (H3 : forall r, r ∈ routines (db (home true)) ->
             ~ (Routine.id r = "r3"%string /\ Routine.userId r = user_id alice_user)).
  { intros r Hin [Hid Hu]. cbn in Hin.
    repeat (apply elem_of_cons in Hin as [->|Hin];
            [first [discriminate Hid|discriminate Hu]|]).
    inversion Hin. }
  split; [exact H1|]. split; [exact H2|]. split; [exact H3|]. split.
  - destruct (archiveRoutine_twice "r1" alice alice_user clock (home true) H1)
      as [Hown _].
    destruct (Hown H2) as (w1 & w2 & Ha & Hb & _). exists w1, w2. auto.
  - destruct (archiveRoutine_twice "r3" alice alice_user clock (home true) H1)
      as [_ Hnone].
    destruct (Hnone H3) as (w1 & Ha & _). exists w1. exact Ha.
Defined.

Lemma listMyRoutines_items_witness :
  locals alice ≫= user = Some alice_user /\
  exists items w',
    listMyRoutines false alice clock (home true) =
      (Return (DataRoutines items (length items)), w') /\
    Sorted newest_first items /\
    forall r, r ∈ items -> Routine.isActive r = true.
Proof.
  assert (H1 : locals alice ≫= user = Some alice_user) by reflexivity.
  split; [exact H1|].
  destruct (listMyRoutines_items false alice alice_user clock (home true) H1)
    as (items & w' & Hrun & _ & _ & Hsorted & Hactive & _).
  exists items, w'. auto.
Defined.

Lemma home_sleep_dates_are_plain fk uid :
  plain_sleep_dates uid (db (home fk)).
Proof.
  intros l Hin _. cbn in Hin. unfold plain_year.
  repeat (apply elem_of_cons in Hin as [->|Hin]; [cbn; lia|]).
  inversion Hin.
Qed.

Lemma listSleepLogs_page_witness :
  locals alice ≫= user = Some alice_user /\
  valid_page (first_page (Some "r1"%string)) /\
  safe_offset 1 20 /\
  plain_sleep_dates "alice" (db (home true)) /\
  exists items w',
    listSleepLogs (first_page (Some "r1"%string)) alice clock (home true) =
      (Return (DataLogs items 1 20 (length items)), w') /\
    Z.of_nat (length items) <= 20 /\
    forall l, l ∈ items -> Log.routineId l = Some "r1"%string.
Proof.
  assert (H1 : locals alice ≫= user = Some alice_user) by reflexivity.
  assert (H2 : valid_page (first_page (Some "r1"%string)))
    by (unfold valid_page; simpl; lia).
  assert (H3 : safe_offset 1 20) by (unfold safe_offset, MAX_SAFE_INTEGER; lia).
  assert (H4 : plain_sleep_dates "alice" (db (home true)))
    by apply home_sleep_dates_are_plain.
  split; [exact H1|]. split; [exact H2|]. split; [exact H3|].
  split; [exact H4|].
  destruct (listSleepLogs_page (first_page (Some "r1"%string)) alice alice_user
              clock (home true) H1 H2 H3 H4)
    as (items & all & w' & Hrun & _ & _ & _ & _ & _ & Hlen & _ & _ & Hfilter).
  exists items, w'. split; [exact Hrun|]. split; [exact Hlen|].
  apply (Hfilter "r1"%string); [reflexivity|discriminate].
Defined.


Lemma createRoutine_single_timestamp_witness :
  let run := createRoutine two_steps alice clock (home true) in
  locals alice ≫= user = Some alice_user /\
  run = (fst run, snd run) /\
  dates_read (snd run) = 1%nat.
Proof.
  intros run.
  assert (H1 : locals alice ≫= user = Some alice_user) by reflexivity.
  assert (H2 : run = (fst run, snd run)) by (vm_compute; reflexivity).
  split; [exact H1|]. split; [exact H2|].
  destruct (createRoutine_single_timestamp two_steps alice alice_user clock
              (home true) _ _ H1 H2) as [Hdates _].
  exact Hdates.
Defined.

(** The scenario of the specification: a routine created with the steps
    "Dim lights" and "Read" is fetched with the order indices 1 and 2, in
    that order. *)
Example weekday_scenario :
  match fst (getRoutineWithSteps "A" alice clock
               (snd (createRoutine two_steps alice clock (home true)))) with
  | Return (DataRoutine routine got) =>
      Routine.name routine = "Weekday"%string /\
      (fun s => (Step.title s, Step.orderIndex s)) <$> got =
      [("Dim lights"%string, 1); ("Read"%string, 2)]
  | _ => False
  end.
Proof. vm_compute. split; reflexivity. Qed.

(** [total] counts the page, not the selection: with one log per page, the
    first page of alice's two logs has [total] 1. *)
Example total_is_the_page_length :
  fst (listSleepLogs (ListSleepLogsInput.mk 1 1 None) alice clock (home true))
  = Return (DataLogs [tuesday] 1 1 1).
Proof. vm_compute. reflexivity. Qed.

(** Archiving another user's routine is NOT_FOUND, and the routine stays
    active. *)
Example archive_foreign_routine :
  let run := archiveRoutine "r1" bob clock (home true) in
  fst run = Throw (ActionError NOT_FOUND "Sleep routine not found.") /\
  routines (db (snd run)) = routines (db (home true)).
Proof. vm_compute. split; reflexivity. Qed.

(** * Further properties of the handlers *)

(** ** Fetching and updating a routine *)

Lemma head_owned id uid (l : list Routine.t) routine :
  head (matching (owned id uid) l) = Some routine ->
  routine ∈ l /\ Routine.id routine = id /\ Routine.userId routine = uid.
Proof.
  intros Hhead.
  assert (Hin : routine ∈ matching (owned id uid) l).
  { destruct (matching _ _) as [|r rest]; [discriminate|].
    injection Hhead as ->. left. }
  apply elem_of_matching in Hin as [Hc Hin]. apply holds_owned in Hc.
  tauto.
Qed.

(** X1: for a signed-in caller, [getRoutineWithSteps] throws NOT_FOUND when
    the caller owns no routine of the id (there is none, or it is another
    user's); otherwise, when the numbers of the stored steps of that id are
    safe integers, it returns a stored routine of that id owned by the
    caller, with exactly the step rows of that id, in ascending order of
    their order index, and the client hands them to the caller. In both
    cases the store is unchanged. *)
Theorem getRoutineWithSteps_owner_only id context u rt w :
  locals context ≫= user = Some u ->
  ((forall r, r ∈ routines (db w) ->
              ~ (Routine.id r = id /\ Routine.userId r = user_id u)) ->
   exists w',
     getRoutineWithSteps id context rt w =
       (Throw (ActionError NOT_FOUND "Sleep routine not found."), w') /\
     db w' = db w) /\
  ((exists r, r ∈ routines (db w) /\
              Routine.id r = id /\ Routine.userId r = user_id u) ->
   (forall s, s ∈ steps (db w) -> Step.routineId s = id -> safe_row s) ->
   exists routine got w',
     getRoutineWithSteps id context rt w =
       (Return (DataRoutine routine got), w') /\
     delivered (fst (getRoutineWithSteps id context rt w)) =
       Handed (Return (DataRoutine routine got)) /\
     db w' = db w /\
     routine ∈ routines (db w) /\
     Routine.id routine = id /\ Routine.userId routine = user_id u /\
     got ≡ₚ filter (fun s => Step.routineId s = id) (steps (db w)) /\
     Sorted by_orderIndex got).
Proof.
  intros Hu.
  destruct (getRoutineWithSteps_run id context u rt w Hu) as (w' & Hdb & Hget).
  split.
  - intros Hnone. exists w'. split; [|exact Hdb]. rewrite Hget.
    assert (Hnil : matching (owned id (user_id u)) (routines (db w)) = []).
    { apply matching_nil_iff. intros r Hin Hc. apply (Hnone r Hin).
      apply holds_owned. exact Hc. }
    rewrite Hnil. reflexivity.
  - intros Hown Hsafe. apply owned_exists_matching in Hown.
    destruct (head (matching (owned id (user_id u)) (routines (db w))))
      as [routine|] eqn:Hhead.
    2:{ apply head_None in Hhead. contradiction. }
    destruct (head_owned _ _ _ _ Hhead) as (Hin & Hid & Hme).
    eexists routine, _, w'. split; [exact Hget|].
    split.
    { rewrite Hget. cbn [fst].
      apply delivered_safe_rows, safe_rows_orderBy, safe_rows_matching.
      exact Hsafe. }
    split; [exact Hdb|]. split; [exact Hin|]. split; [exact Hid|].
    split; [exact Hme|]. split.
    + rewrite orderBy_Permutation.
      erewrite matching_filter; [reflexivity|]. intros s. apply holds_eq.
    + apply (Sorted_weaken (Q.precedes [Q.asc Step.orderIndex]));
        [|apply orderBy_Sorted; congruence].
      intros a b. unfold by_orderIndex, Q.precedes. lia.
Qed.

(** X2: for a signed-in caller who owns no routine of the id,
    [updateRoutine] throws NOT_FOUND whatever the patch and the step list:
    it has issued its one lookup and nothing else, read no date, drawn no
    identifier, and the store is as it was. *)
Theorem updateRoutine_not_found input context u rt w :
  locals context ≫= user = Some u ->
  (forall r, r ∈ routines (db w) ->
             ~ (Routine.id r = UpdateRoutineInput.id input /\
                Routine.userId r = user_id u)) ->
  updateRoutine input context rt w =
  (Throw (ActionError NOT_FOUND "Sleep routine not found."),
   {| db := db w;
      journal := journal w ++
        [issued (Select (fun r : Routine.t => r) SleepRoutines
                   (owned (UpdateRoutineInput.id input) (user_id u))
                   [] None None)];
      dates_read := dates_read w; uuids_drawn := uuids_drawn w |}).
Proof.
  intros Hu Hnone. unfold updateRoutine.
  rewrite bind_run, (requireUser_some _ u) by exact Hu.
  rewrite bind_run, issue_select. cbn [Q.limit Q.offset].
  rewrite list_fmap_id. unfold Q.orderBy. world.
  assert (Hnil : matching (owned (UpdateRoutineInput.id input) (user_id u))
                   (routines (db w)) = []).
  { apply matching_nil_iff. intros r Hin Hc. apply (Hnone r Hin).
    apply holds_owned. exact Hc. }
  rewrite Hnil. reflexivity.
Qed.

(** X3: after a successful [updateRoutine] with a step list, the step table
    holds the steps of the other routines as before, followed by one new row
    of this routine for each supplied step, created at the routine's new
    update time, with the order index it was given or its 1-based position;
    and when the supplied order indexes and minutes are safe integers (the
    list being a JavaScript array, of fewer than [2 ^ 32] elements),
    [getRoutineWithSteps] then returns exactly these new rows, in ascending
    order of their order index, and the client hands them to the caller. *)
Theorem updateRoutine_replaces_steps input supplied context u rt w d w' :
  locals context ≫= user = Some u ->
  UpdateRoutineInput.steps input = Present (Some supplied) ->
  updateRoutine input context rt w = (Return d, w') ->
  let id := UpdateRoutineInput.id input in
  let now := Date_at rt (dates_read w) in
  exists fresh,
    steps (db w') =
      filter (fun s => Step.routineId s <> id) (steps (db w)) ++ fresh /\
    length fresh = length supplied /\
    (forall i step, supplied !! i = Some step ->
       exists row, fresh !! i = Some row /\
         Step.routineId row = id /\
         Step.createdAt row = now /\
         Step.title row = routineStepInput.title step /\
         Step.description row = routineStepInput.description step /\
         Step.minutesBeforeBed row = routineStepInput.minutesBeforeBed step /\
         Step.orderIndex row =
           match routineStepInput.orderIndex step with
           | Some given => given
           | None => Z.of_nat i + 1
           end) /\
    (Forall safe_step supplied -> Z.of_nat (length supplied) < 2 ^ 32 ->
     exists routine got w2,
       getRoutineWithSteps id context rt w' =
         (Return (DataRoutine routine got), w2) /\
       delivered (fst (getRoutineWithSteps id context rt w')) =
         Handed (Return (DataRoutine routine got)) /\
       Routine.updatedAt routine = now /\
       got ≡ₚ fresh /\ Sorted by_orderIndex got).
Proof.
  intros Hu Hsteps Hrun id now.
  destruct (updateRoutine_return _ _ _ _ _ _ _ Hu Hrun)
    as (_ & Hown & Hr & _ & Hs).
  fold id now in Hown, Hr, Hs. rewrite Hsteps in Hs. cbn [get] in Hs.
  set (fresh := imap (stepRow rt id now (uuids_drawn w)) supplied) in *.
  exists fresh. split; [exact Hs|]. split; [apply length_imap|]. split.
  { intros i step Hi. exists (stepRow rt id now (uuids_drawn w) i step).
    split; [unfold fresh; rewrite list_lookup_imap, Hi; reflexivity|].
    rewrite stepRow_orderIndex. repeat split; reflexivity. }
  intros Hsafe Hlen.
  destruct (getRoutineWithSteps_run id context u rt w' Hu) as (w2 & _ & Hget).
  destruct (head (matching (owned id (user_id u)) (routines (db w'))))
    as [routine|] eqn:Hhead.
  2:{ exfalso. apply head_None in Hhead. revert Hhead.
      apply owned_exists_matching. rewrite Hr. apply owned_after_set.
      exact Hown. }
  assert (Hsel : matching (Q.eq Step.routineId id) (steps (db w')) = fresh).
  { rewrite Hs, matching_app.
    assert (Hnil : matching (Q.eq Step.routineId id)
              (filter (fun s => Step.routineId s <> id) (steps (db w))) = []).
    { apply matching_nil_iff. intros s Hin Hc. apply holds_eq in Hc.
      apply list_elem_of_filter in Hin as [Hne _]. contradiction. }
    rewrite Hnil, app_nil_l. apply matching_all. intros s Hin. apply holds_eq.
    apply elem_of_stepRows in Hin as (i & step & _ & ->). reflexivity. }
  rewrite Hsel in Hget.
  exists routine, (Q.orderBy [Q.asc Step.orderIndex] fresh), w2.
  split; [exact Hget|]. split; [|split; [|split]].
  - rewrite Hget. cbn [fst]. apply delivered_safe_rows, safe_rows_orderBy.
    apply stepRows_safe; assumption.
  - destruct (head_owned _ _ _ _ Hhead) as (Hin & Hid & Hme).
    rewrite Hr in Hin. apply list_elem_of_fmap in Hin as (r0 & -> & _).
    destruct (Q.holds (owned id (user_id u)) r0) eqn:E.
    + reflexivity.
    + exfalso. rewrite <- Is_true_false in E. apply E. apply holds_owned.
      split; [exact Hid|exact Hme].
  - apply orderBy_Permutation.
  - apply (Sorted_weaken (Q.precedes [Q.asc Step.orderIndex]));
      [|apply orderBy_Sorted; congruence].
    intros a b. unfold by_orderIndex, Q.precedes. lia.
Qed.

(** X4: [updateRoutine] is not one transaction. When the store refuses the
    insert of the new step rows, the call throws the storage error after
    the caller's routine row has been patched and all the former steps of
    the routine have been deleted: the routine is left without steps. *)
Theorem updateRoutine_refused_insert_loses_steps input context u rt w e w' :
  locals context ≫= user = Some u ->
  updateRoutine input context rt w = (Throw (StorageError e), w') ->
  let id := UpdateRoutineInput.id input in
  (exists supplied,
     get (UpdateRoutineInput.steps input) = Some supplied /\ supplied <> []) /\
  steps (db w') = filter (fun s => Step.routineId s <> id) (steps (db w)) /\
  (forall s, s ∈ steps (db w') -> Step.routineId s <> id) /\
  (forall i r, routines (db w) !! i = Some r ->
     Routine.id r = id -> Routine.userId r = user_id u ->
     exists r', routines (db w') !! i = Some r' /\
                Routine.updatedAt r' = Date_at rt (dates_read w)).
Proof.
  intros Hu Hrun id.
  destruct (updateRoutine_cases _ _ _ _ _ _ _ Hu Hrun)
    as [[Ho _]|(_ & Hr & _ & _ & Hs)]; [discriminate|].
  fold id in Hr, Hs.
  destruct (get (UpdateRoutineInput.steps input)) as [supplied|] eqn:Hget.
  2:{ destruct Hs as [Ho _]. discriminate. }
  destruct Hs as [[Ho _]|[_ Hs]]; [discriminate|].
  split; [|split; [exact Hs|split]].
  - exists supplied. split; [reflexivity|]. intros ->.
    destruct (updateRoutine_no_insert input context u rt w Hu) as [w2 H2].
    + destruct (updateRoutine_cases _ _ _ _ _ _ _ Hu Hrun)
        as [[Ho _]|(Hown & _)]; [discriminate|exact Hown].
    + right. exact Hget.
    + rewrite H2 in Hrun. discriminate.
  - intros s Hin. rewrite Hs in Hin.
    apply list_elem_of_filter in Hin as [Hne _]. exact Hne.
  - intros i r Hi Hid Hme. rewrite Hr, list_lookup_fmap, Hi.
    cbn [fmap option_fmap option_map]. eexists. split; [reflexivity|].
    rewrite (owned_dec_true _ _ _ Hid Hme). reflexivity.
Qed.

(** ** What every action keeps *)

Lemma server_requires_user request context rt w :
  locals context ≫= user = None ->
  server request context rt w =
  (Throw (ActionError UNAUTHORIZED
            "You must be signed in to perform this action."), w).
Proof.
  intros Hnone.
  destruct request; cbn [server];
    unfold createRoutine, updateRoutine, archiveRoutine, getRoutineWithSteps,
      listMyRoutines, createSleepLog, updateSleepLog, listSleepLogs;
    rewrite bind_run, requireUser_none by exact Hnone; reflexivity.
Qed.

Lemma db_eta (d : Db) :
  mkDb (routines d) (steps d) (logs d) (foreign_keys d) = d.
Proof. destruct d. reflexivity. Qed.

Lemma effect_nothing request u w o w' :
  db w' = db w ->
  (forall code message, o = Throw (ActionError code message) ->
     throws request code = true /\ code <> UNAUTHORIZED) ->
  effect request u w o w'.
Proof.
  intros Hdb Ho. unfold effect. rewrite Hdb.
  do 4 (split; [auto|]). intros code message H.
  split; [reflexivity|]. eauto.
Qed.

Lemma createRoutine_effect input context u rt w o w' :
  locals context ≫= user = Some u ->
  createRoutine input context rt w = (o, w') ->
  effect (CreateRoutine input) u w o w'.
Proof.
  intros Hu Hrun.
  destruct (createRoutine_cases _ _ _ _ _ _ _ Hu Hrun)
    as (_ & [[[e He] Hdb]|[([e He] & Hfresh & Hdb)|(Ho & Hfresh & Hdb)]]).
  - apply effect_nothing; [exact Hdb|]. intros code message H.
    rewrite He in H. discriminate.
  - unfold effect. rewrite Hdb. world.
    split; [right; left; eexists; split; [reflexivity|split; [reflexivity|exact Hfresh]]|].
    do 3 (split; [auto|]). intros code message H. rewrite He in H.
    discriminate.
  - unfold effect. rewrite Hdb. world.
    split; [right; left; eexists; split; [reflexivity|split; [reflexivity|exact Hfresh]]|].
    split; [auto|]. split.
    + right. eexists _, _. split; [|left; split; [exact Hfresh|reflexivity]].
      intros s Hs. unfold stepRows in Hs.
      apply elem_of_stepRows in Hs as (i & step & _ & ->). reflexivity.
    + split; [reflexivity|]. intros code message H. rewrite Ho in H.
      discriminate.
Qed.

Lemma updateRoutine_effect input context u rt w o w' :
  locals context ≫= user = Some u ->
  updateRoutine input context rt w = (o, w') ->
  effect (UpdateRoutine input) u w o w'.
Proof.
  intros Hu Hrun.
  destruct (updateRoutine_cases _ _ _ _ _ _ _ Hu Hrun)
    as [[Ho Hdb]|(Hown & Hr & Hl & Hfk & Hs)].
  - apply effect_nothing; [exact Hdb|]. intros code message H.
    rewrite Ho in H. injection H as H _; subst code. split; [reflexivity|discriminate].
  - unfold effect. split; [right; right; eauto|]. split; [auto|].
    split; [|split; [exact Hfk|]].
    + destruct (get (UpdateRoutineInput.steps input)) as [l|].
      * right. destruct Hs as [[_ Hs]|[_ Hs]].
        -- eexists _, _. split; [|right; split; [exact Hown|exact Hs]].
           intros s Hin. apply elem_of_stepRows in Hin as (i & step & _ & ->).
           reflexivity.
        -- exists (UpdateRoutineInput.id input), [].
           split; [intros s Hin; inversion Hin|].
           right. split; [exact Hown|]. rewrite app_nil_r. exact Hs.
      * left. destruct Hs as [_ Hs]. exact Hs.
    + intros code message H.
      destruct (get (UpdateRoutineInput.steps input)) as [l|].
      * destruct Hs as [[Ho _]|[[e He] _]]; rewrite ?Ho, ?He in H; discriminate.
      * destruct Hs as [Ho _]. rewrite Ho in H. discriminate.
Qed.

Lemma archiveRoutine_effect id context u rt w o w' :
  locals context ≫= user = Some u ->
  archiveRoutine id context rt w = (o, w') ->
  effect (ArchiveRoutine id) u w o w'.
Proof.
  intros Hu Hrun. rewrite (archiveRoutine_run id context u rt w Hu) in Hrun.
  destruct (decide _) as [Hnil|Hsome] in Hrun.
  - ended Hrun o w'. apply effect_nothing; world.
    + rewrite (update_none_selected _ _ _ Hnil). apply db_eta.
    + intros code message H. injection H as H _; subst code.
      split; [reflexivity|discriminate].
  - ended Hrun o w'. unfold effect. world.
    split; [right; right; eauto|]. do 3 (split; [auto|]).
    intros code message H. discriminate.
Qed.

Lemma createSleepLog_effect input context u rt w o w' :
  locals context ≫= user = Some u ->
  createSleepLog input context rt w = (o, w') ->
  effect (CreateSleepLog input) u w o w'.
Proof.
  intros Hu Hrun.
  pose proof (createSleepLog_cases _ _ _ _ _ _ _ Hu Hrun) as H. cbv zeta in H.
  assert (Hwrite :
    ((exists e, o = Throw (StorageError e)) /\ db w' = db w \/
     o = Return (DataId (randomUUID_at rt (uuids_drawn w))) /\
     db w' = mkDb (routines (db w)) (steps (db w))
               (logs (db w) ++
                  [logRow input u (Date_at rt (dates_read w))
                     (randomUUID_at rt (uuids_drawn w))])
               (foreign_keys (db w))) ->
    effect (CreateSleepLog input) u w o w').
  { intros [[[e He] Hdb]|[Ho Hdb]].
    - apply effect_nothing; [exact Hdb|]. intros code message Hc.
      rewrite He in Hc. discriminate.
    - unfold effect. rewrite Hdb. world. split; [auto|].
      split; [right; left; eexists; split; reflexivity|].
      do 2 (split; [auto|]). intros code message Hc. rewrite Ho in Hc.
      discriminate. }
  destruct (truthy _) as [rid|].
  - destruct (decide _).
    + destruct H as (Ho & _ & Hdb). apply effect_nothing; [exact Hdb|].
      intros code message Hc. rewrite Ho in Hc. injection Hc as Hc _; subst code.
      split; [reflexivity|discriminate].
    + destruct H as (_ & H). apply Hwrite. exact H.
  - destruct H as (_ & H). apply Hwrite. exact H.
Qed.

Lemma updateSleepLog_effect input context u rt w o w' :
  locals context ≫= user = Some u ->
  updateSleepLog input context rt w = (o, w') ->
  effect (UpdateSleepLog input) u w o w'.
Proof.
  intros Hu Hrun.
  pose proof (updateSleepLog_cases _ _ _ _ _ _ _ Hu Hrun) as H. cbv zeta in H.
  assert (Hwrite : forall js, log_written input u w o w' js ->
            effect (UpdateSleepLog input) u w o w').
  { intros js [(_ & _ & Ho & Hdb)|(_ & _ & [[[e He] Hdb]|[Ho Hdb]])].
    - apply effect_nothing; [exact Hdb|]. intros code message Hc.
      rewrite Ho in Hc. discriminate.
    - apply effect_nothing; [exact Hdb|]. intros code message Hc.
      rewrite He in Hc. discriminate.
    - unfold effect. rewrite Hdb. world. split; [auto|].
      split; [right; right; eauto|]. do 2 (split; [auto|]).
      intros code message Hc. rewrite Ho in Hc. discriminate. }
  destruct (decide _).
  { destruct H as (Ho & _ & Hdb). apply effect_nothing; [exact Hdb|].
    intros code message Hc. rewrite Ho in Hc. injection Hc as Hc _; subst code.
    split; [reflexivity|discriminate]. }
  destruct (truthy _) as [rid|].
  - destruct (decide _).
    + destruct H as (Ho & _ & Hdb). apply effect_nothing; [exact Hdb|].
      intros code message Hc. rewrite Ho in Hc. injection Hc as Hc _; subst code.
      split; [reflexivity|discriminate].
    + destruct H as (js & _ & Hw). eauto.
  - destruct H as (js & _ & Hw). eauto.
Qed.

(** The world after an action that only reads. *)
Lemma read_action_world request context u rt w o w' :
  locals context ≫= user = Some u ->
  reads_only request = true ->
  server request context rt w = (o, w') ->
  exists js,
    w' = {| db := db w; journal := journal w ++ js;
            dates_read := dates_read w; uuids_drawn := uuids_drawn w |} /\
    forallb is_select js = true /\ js <> [] /\
    (forall code message, o = Throw (ActionError code message) ->
       throws request code = true /\ code <> UNAUTHORIZED).
Proof.
  intros Hu Hreads Hrun. destruct request; try discriminate Hreads;
    cbn [server] in Hrun.
  - unfold getRoutineWithSteps in Hrun.
    rewrite bind_run, (requireUser_some _ u) in Hrun by exact Hu.
    rewrite bind_run, issue_select in Hrun.
    destruct (head _) as [routine|].
    + rewrite bind_run, issue_select in Hrun. ended Hrun o w'.
      eexists. rewrite <- app_assoc. split; [reflexivity|].
      split; [reflexivity|]. split; [discriminate|]. intros code message H.
      discriminate.
    + ended Hrun o w'. eexists. split; [reflexivity|].
      split; [reflexivity|]. split; [discriminate|]. intros code message H.
      injection H as H _; subst code. split; [reflexivity|discriminate].
  - unfold listMyRoutines in Hrun.
    rewrite bind_run, (requireUser_some _ u) in Hrun by exact Hu.
    rewrite bind_run, issue_select in Hrun. ended Hrun o w'.
    eexists. split; [reflexivity|]. split; [reflexivity|].
    split; [discriminate|]. intros code message H. discriminate.
  - unfold listSleepLogs in Hrun.
    rewrite bind_run, (requireUser_some _ u) in Hrun by exact Hu.
    rewrite bind_run, issue_select in Hrun. ended Hrun o w'.
    eexists. split; [reflexivity|]. split; [reflexivity|].
    split; [discriminate|]. intros code message H. discriminate.
Qed.

Lemma server_effect request context u rt w o w' :
  locals context ≫= user = Some u ->
  server request context rt w = (o, w') ->
  effect request u w o w'.
Proof.
  intros Hu Hrun.
  destruct (reads_only request) eqn:Hreads.
  { destruct (read_action_world _ _ _ _ _ _ _ Hu Hreads Hrun)
      as (js & -> & _ & _ & Hcodes).
    apply effect_nothing; [reflexivity|exact Hcodes]. }
  destruct request; try discriminate Hreads; cbn [server] in Hrun.
  - eapply createRoutine_effect; eauto.
  - eapply updateRoutine_effect; eauto.
  - eapply archiveRoutine_effect; eauto.
  - eapply createSleepLog_effect; eauto.
  - eapply updateSleepLog_effect; eauto.
Qed.

(** X5: whatever the action, the caller and the outcome, every routine row
    stays where it is in the table with its id, its owner and its creation
    time (no action deletes a routine or hands it to another user), and a
    routine that is not the caller's is left exactly as it was. *)
Theorem actions_keep_routine_rows request context rt w o w' i r :
  server request context rt w = (o, w') ->
  routines (db w) !! i = Some r ->
  exists r', routines (db w') !! i = Some r' /\
    Routine.id r' = Routine.id r /\
    Routine.userId r' = Routine.userId r /\
    Routine.createdAt r' = Routine.createdAt r /\
    ((forall u, locals context ≫= user = Some u ->
                user_id u <> Routine.userId r) -> r' = r).
Proof.
  intros Hrun Hi.
  destruct (locals context ≫= user) as [u|] eqn:Hu.
  2:{ rewrite (server_requires_user _ _ _ _ Hu) in Hrun.
      ended Hrun o w'. exists r. auto. }
  destruct (server_effect _ _ _ _ _ _ _ Hu Hrun)
    as ([->|[(r0 & -> & _)|(id & set & ->)]] & _).
  - exists r. auto.
  - exists r. split; [apply lookup_app_l_Some; exact Hi|]. auto.
  - rewrite list_lookup_fmap, Hi. cbn [fmap option_fmap option_map].
    eexists. split; [reflexivity|].
    destruct (Q.holds (owned id (user_id u)) r) eqn:E; [|auto].
    do 3 (split; [reflexivity|]). intros Hother. exfalso.
    apply Is_true_true_2, holds_owned in E as [_ E].
    apply (Hother u eq_refl). symmetry. exact E.
Qed.


(** X6: whatever the action, the caller and the outcome, every sleep log
    stays where it is in the table with its id, its owner and its creation
    time (no action deletes a log), and a log that is not the caller's is
    left exactly as it was. *)
Theorem actions_keep_log_rows request context rt w o w' i l :
  server request context rt w = (o, w') ->
  logs (db w) !! i = Some l ->
  exists l', logs (db w') !! i = Some l' /\
    Log.id l' = Log.id l /\
    Log.userId l' = Log.userId l /\
    Log.createdAt l' = Log.createdAt l /\
    ((forall u, locals context ≫= user = Some u ->
                user_id u <> Log.userId l) -> l' = l).
Proof.
  intros Hrun Hi.
  destruct (locals context ≫= user) as [u|] eqn:Hu.
  2:{ rewrite (server_requires_user _ _ _ _ Hu) in Hrun.
      ended Hrun o w'. exists l. auto. }
  destruct (server_effect _ _ _ _ _ _ _ Hu Hrun)
    as (_ & [->|[(l0 & -> & _)|(id & set & ->)]] & _).
  - exists l. auto.
  - exists l. split; [apply lookup_app_l_Some; exact Hi|]. auto.
  - rewrite list_lookup_fmap, Hi. cbn [fmap option_fmap option_map].
    eexists. split; [reflexivity|].
    destruct (Q.holds (own_log id (user_id u)) l) eqn:E; [|auto].
    do 3 (split; [reflexivity|]). intros Hother. exfalso.
    apply Is_true_true_2, holds_own_log in E as [_ E].
    apply (Hother u eq_refl). symmetry. exact E.
Qed.


(** X7: no action removes a step of a routine that is not the caller's: a
    step row whose routine id is not the id of a routine owned by the
    caller is still in the step table afterwards, whatever the outcome. *)
Theorem actions_keep_foreign_steps request context rt w o w' s :
  server request context rt w = (o, w') ->
  s ∈ steps (db w) ->
  (forall u r, locals context ≫= user = Some u ->
               r ∈ routines (db w) -> Routine.id r = Step.routineId s ->
               Routine.userId r <> user_id u) ->
  s ∈ steps (db w').
Proof.
  intros Hrun Hin Hforeign.
  destruct (locals context ≫= user) as [u|] eqn:Hu.
  2:{ rewrite (server_requires_user _ _ _ _ Hu) in Hrun.
      ended Hrun o w'. exact Hin. }
  destruct (server_effect _ _ _ _ _ _ _ Hu Hrun)
    as (_ & _ & [->|(id & fresh & _ & [[_ ->]|[(r & Hr & Hid & Hme) ->]])] & _).
  - exact Hin.
  - apply elem_of_app. left. exact Hin.
  - apply elem_of_app. left. apply list_elem_of_filter. split; [|exact Hin].
    intros Heq. apply (Hforeign u r eq_refl Hr); [congruence|exact Hme].
Qed.

(** X8: an action that fails with a classified error (UNAUTHORIZED,
    NOT_FOUND or FORBIDDEN) has written nothing: the three tables are as
    they were. Only a refused storage statement can leave a partial write. *)
Theorem classified_failure_writes_nothing request context rt w code message w' :
  server request context rt w = (Throw (ActionError code message), w') ->
  db w' = db w.
Proof.
  intros Hrun.
  destruct (locals context ≫= user) as [u|] eqn:Hu.
  - destruct (server_effect _ _ _ _ _ _ _ Hu Hrun) as (_ & _ & _ & _ & H).
    destruct (H code message eq_refl) as [Hdb _]. exact Hdb.
  - rewrite (server_requires_user _ _ _ _ Hu) in Hrun.
    pose proof (f_equal snd Hrun) as Hw. cbn [snd] in Hw. subst w'.
    reflexivity.
Qed.

(** X9: which action can fail with which code: UNAUTHORIZED is thrown
    exactly when the context carries no user; NOT_FOUND only by
    updateRoutine, archiveRoutine, getRoutineWithSteps and updateSleepLog;
    FORBIDDEN only by createSleepLog and updateSleepLog. *)
Theorem error_codes_by_action request context rt w code message w' :
  server request context rt w = (Throw (ActionError code message), w') ->
  throws request code = true /\
  (code = UNAUTHORIZED <-> locals context ≫= user = None).
Proof.
  intros Hrun.
  destruct (locals context ≫= user) as [u|] eqn:Hu.
  - destruct (server_effect _ _ _ _ _ _ _ Hu Hrun) as (_ & _ & _ & _ & H).
    destruct (H code message eq_refl) as (_ & Ht & Hne).
    split; [exact Ht|]. split; [contradiction|discriminate].
  - rewrite (server_requires_user _ _ _ _ Hu) in Hrun.
    pose proof (f_equal fst Hrun) as Ho. cbn [fst] in Ho.
    injection Ho as <- _. split; [reflexivity|]. split; reflexivity.
Qed.

(** X10: getRoutineWithSteps, listMyRoutines and listSleepLogs only read:
    whatever the caller and the outcome, the store is unchanged, no date is
    read and no identifier drawn, and every statement they issue is a
    select. *)
Theorem read_actions_only_read request context rt w o w' :
  reads_only request = true ->
  server request context rt w = (o, w') ->
  db w' = db w /\
  dates_read w' = dates_read w /\ uuids_drawn w' = uuids_drawn w /\
  exists js, journal w' = journal w ++ js /\ forallb is_select js = true.
Proof.
  intros Hreads Hrun.
  destruct (locals context ≫= user) as [u|] eqn:Hu.
  - destruct (read_action_world _ _ _ _ _ _ _ Hu Hreads Hrun)
      as (js & -> & Hsel & _). world. do 3 (split; [reflexivity|]).
    exists js. auto.
  - rewrite (server_requires_user _ _ _ _ Hu) in Hrun.
    pose proof (f_equal snd Hrun) as Hw. cbn [snd] in Hw. subst w'.
    do 3 (split; [reflexivity|]). exists []. rewrite app_nil_r. auto.
Qed.

(** ** Writing sleep logs *)

Lemma own_log_exists_matching id uid (l : list Log.t) :
  (exists x, x ∈ l /\ Log.id x = id /\ Log.userId x = uid) <->
  matching (own_log id uid) l <> [].
Proof.
  rewrite matching_nil_iff. split.
  - intros (x & Hin & Hi & Hu) Hno. apply (Hno x Hin). apply holds_own_log. auto.
  - intros Hne. destruct (matching (own_log id uid) l) as [|x rest] eqn:E.
    + destruct Hne. intros x Hin Hc.
      assert (Hm : x ∈ matching (own_log id uid) l)
        by (apply elem_of_matching; auto).
      rewrite E in Hm. inversion Hm.
    + assert (Hm : x ∈ matching (own_log id uid) l) by (rewrite E; left).
      apply elem_of_matching in Hm as [Hc Hin]. apply holds_own_log in Hc.
      exists x. tauto.
Qed.

Lemma set_log_no_keys (s : LogSet.t) (l : Log.t) :
  LogSet.keys s = 0%nat -> set_log s l = l.
Proof.
  destruct s as [[?|] [?|] [?|] [?|] [?|] [?|]]; cbn; try lia.
  intros _. destruct l. reflexivity.
Qed.

(** What a successful [updateSleepLog] has done. *)
Lemma updateSleepLog_return input context u rt w d w' :
  locals context ≫= user = Some u ->
  updateSleepLog input context rt w = (Return d, w') ->
  let mine := own_log (UpdateSleepLogInput.id input) (user_id u) in
  d = DataNone /\
  matching mine (logs (db w)) <> [] /\
  routines (db w') = routines (db w) /\ steps (db w') = steps (db w) /\
  logs (db w') =
    (fun l => if Q.holds mine l then set_log (logUpdateData input) l else l)
      <$> logs (db w) /\
  (forall rid, get (UpdateSleepLogInput.routineId input) = Some rid ->
     rid <> ""%string ->
     exists r, r ∈ routines (db w) /\
               Routine.id r = rid /\ Routine.userId r = user_id u).
Proof.
  intros Hu Hrun mine.
  pose proof (updateSleepLog_cases _ _ _ _ _ _ _ Hu Hrun) as H. cbv zeta in H.
  fold mine in H.
  destruct (decide _) as [Hnil|Hsome] in H; [destruct H as (Ho & _); discriminate|].
  assert (Hwritten : forall js, log_written input u w (Return d) w' js ->
    d = DataNone /\
    routines (db w') = routines (db w) /\ steps (db w') = steps (db w) /\
    logs (db w') =
      (fun l => if Q.holds mine l then set_log (logUpdateData input) l else l)
        <$> logs (db w)).
  { intros js [(Hkeys & _ & Ho & ->)|(_ & _ & [[[e He] _]|[Ho ->]])];
      try discriminate; injection Ho as <-; world.
    - do 3 (split; [reflexivity|]). symmetry.
      rewrite <- (list_fmap_id (logs (db w))) at 2.
      apply list_fmap_ext. intros i l _.
      destruct (Q.holds mine l); [apply set_log_no_keys; exact Hkeys|reflexivity].
    - auto. }
  destruct (truthy (get (UpdateSleepLogInput.routineId input))) as [rid|] eqn:Ht.
  - apply truthy_Some in Ht as [Hrid Hne].
    destruct (decide _) as [Hnil|Hown] in H;
      [destruct H as (Ho & _); discriminate|].
    destruct H as (js & _ & Hw).
    destruct (Hwritten js Hw) as (Hd & Hr & Hs & Hl).
    do 5 (split; [assumption|]). intros rid' Hrid' _.
    rewrite Hrid in Hrid'. injection Hrid' as <-.
    apply owned_exists_matching. exact Hown.
  - apply truthy_None in Ht. destruct H as (js & _ & Hw).
    destruct (Hwritten js Hw) as (Hd & Hr & Hs & Hl).
    do 5 (split; [assumption|]). intros rid Hrid Hne.
    destruct Ht as [Ht|Ht]; rewrite Ht in Hrid; congruence.
Qed.

Lemma updateSleepLog_counters input context rt w o w' :
  updateSleepLog input context rt w = (o, w') ->
  dates_read w' = dates_read w /\ uuids_drawn w' = uuids_drawn w.
Proof.
  intros Hrun. unfold updateSleepLog in Hrun.
  destruct (locals context ≫= user) as [u|] eqn:Hu.
  2:{ rewrite bind_run, requireUser_none in Hrun by exact Hu.
      ended Hrun o w'. auto. }
  rewrite bind_run, (requireUser_some _ u) in Hrun by exact Hu.
  rewrite bind_run, issue_select in Hrun.
  destruct (head _) as [log|]; [|ended Hrun o w'; auto].
  rewrite bind_run, checkRoutine_run in Hrun.
  assert (Hwrite : forall v o w',
    ((if (0 <? LogSet.keys (logUpdateData input))%nat
      then issue (Update SleepLogs (SetLog (logUpdateData input))
                    (own_log (UpdateSleepLogInput.id input) (user_id u)));;
           mret tt
      else mret tt);; mret DataNone) rt v = (o, w') ->
    dates_read w' = dates_read v /\ uuids_drawn w' = uuids_drawn v).
  { clear. intros v o w' Hrun. rewrite bind_run in Hrun.
    destruct (0 <? _)%nat.
    - rewrite bind_run, issue_update_logs in Hrun.
      destruct (decide _) in Hrun; ended Hrun o w'; auto.
    - ended Hrun o w'. auto. }
  destruct (truthy _) as [rid|].
  - destruct (decide _).
    + ended Hrun o w'. auto.
    + apply Hwrite in Hrun. world. exact Hrun.
  - apply Hwrite in Hrun. world. exact Hrun.
Qed.

(** X11: for a signed-in caller who has no log of the id (there is none,
    or it is another user's), [updateSleepLog] throws NOT_FOUND after its
    one lookup of the log: the routine reference of the input is not even
    checked, and the store is as it was. *)
Theorem updateSleepLog_not_found input context u rt w o w' :
  locals context ≫= user = Some u ->
  (forall l, l ∈ logs (db w) ->
             ~ (Log.id l = UpdateSleepLogInput.id input /\
                Log.userId l = user_id u)) ->
  updateSleepLog input context rt w = (o, w') ->
  o = Throw (ActionError NOT_FOUND "Sleep log not found.") /\
  db w' = db w /\
  journal w' = journal w ++
    [issued (Select (fun l : Log.t => l) SleepLogs
               (own_log (UpdateSleepLogInput.id input) (user_id u))
               [] None None)].
Proof.
  intros Hu Hnone Hrun.
  pose proof (updateSleepLog_cases _ _ _ _ _ _ _ Hu Hrun) as H. cbv zeta in H.
  destruct (decide _) as [_|Hsome] in H.
  - destruct H as (Ho & Hj & Hdb). auto.
  - exfalso. apply Hsome. apply matching_nil_iff. intros l Hin Hc.
    apply (Hnone l Hin). apply holds_own_log. exact Hc.
Qed.

(** X12: for a signed-in caller who has a log of the id, [updateSleepLog]
    with a routine reference that is a non-empty string fails with FORBIDDEN
    exactly when the caller owns no routine of that id, and then the log is
    not changed. *)
Theorem updateSleepLog_forbidden input rid context u rt w o w' :
  locals context ≫= user = Some u ->
  (exists l, l ∈ logs (db w) /\ Log.id l = UpdateSleepLogInput.id input /\
             Log.userId l = user_id u) ->
  get (UpdateSleepLogInput.routineId input) = Some rid ->
  rid <> ""%string ->
  updateSleepLog input context rt w = (o, w') ->
  (failed_with FORBIDDEN o <->
   ~ exists r, r ∈ routines (db w) /\
               Routine.id r = rid /\ Routine.userId r = user_id u) /\
  (failed_with FORBIDDEN o -> db w' = db w).
Proof.
  intros Hu Hlog Hrid Hne Hrun.
  pose proof (updateSleepLog_cases _ _ _ _ _ _ _ Hu Hrun) as H. cbv zeta in H.
  apply own_log_exists_matching in Hlog.
  destruct (decide _) as [Hnil|_] in H; [contradiction|].
  assert (Ht : truthy (get (UpdateSleepLogInput.routineId input)) = Some rid)
    by (apply truthy_Some; auto).
  rewrite Ht in H. rewrite <- owned_none_iff.
  destruct (decide _) as [Hnil|Hsome] in H.
  - destruct H as (-> & _ & Hdb). split; [|auto].
    split; [auto|]. intros _. eexists. reflexivity.
  - assert (Hnot : ~ failed_with FORBIDDEN o).
    { intros [message ->]. destruct H as (js & _ & Hw). unfold log_written in Hw.
      destruct Hw as [(_ & _ & Ho & _)|(_ & _ & [[[e He] _]|[Ho _]])];
        discriminate. }
    split; [split; [intros Hf|intros Hn]; contradiction|].
    intros Hf. contradiction.
Qed.

(** X13: after a successful [updateSleepLog], every log that is not the
    caller's log of that id is as before, and in the caller's log the id,
    the owner and the creation time are as before, each of the six
    patchable columns whose key is missing or undefined is as before, and a
    column whose key is defined takes the supplied value. Unlike
    [updateRoutine], the handler reads no date: a log carries no update
    time. *)
Theorem updateSleepLog_sparse_patch input context u rt w d w' :
  locals context ≫= user = Some u ->
  updateSleepLog input context rt w = (Return d, w') ->
  dates_read w' = dates_read w /\
  forall i l, logs (db w) !! i = Some l ->
    exists l', logs (db w') !! i = Some l' /\
      if decide (Log.id l = UpdateSleepLogInput.id input /\
                 Log.userId l = user_id u)
      then
        Log.id l' = Log.id l /\ Log.userId l' = Log.userId l /\
        Log.createdAt l' = Log.createdAt l /\
        (absent_or_undefined (UpdateSleepLogInput.routineId input) ->
         Log.routineId l' = Log.routineId l) /\
        (absent_or_undefined (UpdateSleepLogInput.sleepDate input) ->
         Log.sleepDate l' = Log.sleepDate l) /\
        (absent_or_undefined (UpdateSleepLogInput.bedTime input) ->
         Log.bedTime l' = Log.bedTime l) /\
        (absent_or_undefined (UpdateSleepLogInput.wakeTime input) ->
         Log.wakeTime l' = Log.wakeTime l) /\
        (absent_or_undefined (UpdateSleepLogInput.sleepQualityScore input) ->
         Log.sleepQualityScore l' = Log.sleepQualityScore l) /\
        (absent_or_undefined (UpdateSleepLogInput.notes input) ->
         Log.notes l' = Log.notes l) /\
        (forall v, UpdateSleepLogInput.routineId input = Present (Some v) ->
         Log.routineId l' = Some v) /\
        (forall v, UpdateSleepLogInput.sleepDate input = Present (Some v) ->
         Log.sleepDate l' = v) /\
        (forall v, UpdateSleepLogInput.bedTime input = Present (Some v) ->
         Log.bedTime l' = Some v) /\
        (forall v, UpdateSleepLogInput.wakeTime input = Present (Some v) ->
         Log.wakeTime l' = Some v) /\
        (forall v, UpdateSleepLogInput.sleepQualityScore input = Present (Some v) ->
         Log.sleepQualityScore l' = Some v) /\
        (forall v, UpdateSleepLogInput.notes input = Present (Some v) ->
         Log.notes l' = Some v)
      else l' = l.
Proof.
  intros Hu Hrun.
  split; [apply (updateSleepLog_counters _ _ _ _ _ _ Hrun)|].
  intros i l Hi.
  destruct (updateSleepLog_return _ _ _ _ _ _ _ Hu Hrun) as (_ & _ & _ & _ & Hl & _).
  rewrite Hl, list_lookup_fmap, Hi. cbn [fmap option_fmap option_map].
  eexists. split; [reflexivity|].
  destruct (decide _) as [[Hid Hme]|Hno].
  - assert (Hmine : Q.holds (own_log (UpdateSleepLogInput.id input) (user_id u)) l
                    = true)
      by (apply Is_true_true; apply holds_own_log; auto).
    rewrite Hmine. unfold set_log, logUpdateData. cbn -[copied].
    do 3 (split; [reflexivity|]).
    repeat match goal with
    | |- (absent_or_undefined _ -> _) /\ _ =>
        split; [intros Habs; rewrite (copied_absent _ Habs); reflexivity|]
    | |- (forall v, _ = Present (Some v) -> _) /\ _ =>
        split; [intros v Hv; rewrite (copied_defined _ _ Hv); reflexivity|]
    end.
    intros v Hv. rewrite (copied_defined _ _ Hv). reflexivity.
  - destruct (Q.holds _ l) eqn:E; [|reflexivity].
    apply Is_true_true_2, holds_own_log in E. contradiction.
Qed.

(** X14: [updateSleepLog] with a patch that defines no key (every key
    missing or undefined) issues no update: for a caller who has the log it
    succeeds after the one lookup, and the store is as it was. *)
Theorem updateSleepLog_empty_patch input context u rt w o w' :
  locals context ≫= user = Some u ->
  (exists l, l ∈ logs (db w) /\ Log.id l = UpdateSleepLogInput.id input /\
             Log.userId l = user_id u) ->
  absent_or_undefined (UpdateSleepLogInput.routineId input) ->
  absent_or_undefined (UpdateSleepLogInput.sleepDate input) ->
  absent_or_undefined (UpdateSleepLogInput.bedTime input) ->
  absent_or_undefined (UpdateSleepLogInput.wakeTime input) ->
  absent_or_undefined (UpdateSleepLogInput.sleepQualityScore input) ->
  absent_or_undefined (UpdateSleepLogInput.notes input) ->
  updateSleepLog input context rt w = (o, w') ->
  o = Return DataNone /\ db w' = db w /\
  journal w' = journal w ++
    [issued (Select (fun l : Log.t => l) SleepLogs
               (own_log (UpdateSleepLogInput.id input) (user_id u))
               [] None None)].
Proof.
  intros Hu Hlog H1 H2 H3 H4 H5 H6 Hrun.
  pose proof (updateSleepLog_cases _ _ _ _ _ _ _ Hu Hrun) as H. cbv zeta in H.
  apply own_log_exists_matching in Hlog.
  destruct (decide _) as [Hnil|_] in H; [contradiction|].
  assert (Hget : get (UpdateSleepLogInput.routineId input) = None)
    by (destruct H1 as [-> | ->]; reflexivity).
  rewrite Hget in H. cbn [truthy] in H.
  assert (Hkeys : LogSet.keys (logUpdateData input) = 0%nat).
  { unfold LogSet.keys, logUpdateData. cbn -[copied].
    rewrite !copied_absent by assumption. reflexivity. }
  destruct H as (js & Hj & Hw). unfold log_written in Hw.
  destruct Hw as [(_ & -> & Ho & Hdb)|(Hpos & _)]; [|lia].
  rewrite app_nil_r in Hj. auto.
Qed.

(** X15: when [createSleepLog] returns an id, exactly one log row has been
    added: it has that id, the caller as owner, the fields of the input,
    the date read by the call as creation time, and as sleep date the
    supplied one or else that same date; routines and steps are untouched;
    and a routine reference that is a non-empty string is the id of a
    routine the caller owns. *)
Theorem createSleepLog_stores input context u rt w id w' :
  locals context ≫= user = Some u ->
  createSleepLog input context rt w = (Return (DataId id), w') ->
  exists row,
    logs (db w') = logs (db w) ++ [row] /\
    routines (db w') = routines (db w) /\ steps (db w') = steps (db w) /\
    Log.id row = id /\ Log.userId row = user_id u /\
    Log.createdAt row = Date_at rt (dates_read w) /\
    Log.sleepDate row =
      match CreateSleepLogInput.sleepDate input with
      | Some date => date
      | None => Log.createdAt row
      end /\
    Log.routineId row = CreateSleepLogInput.routineId input /\
    Log.bedTime row = CreateSleepLogInput.bedTime input /\
    Log.wakeTime row = CreateSleepLogInput.wakeTime input /\
    Log.sleepQualityScore row = CreateSleepLogInput.sleepQualityScore input /\
    Log.notes row = CreateSleepLogInput.notes input /\
    (forall rid, CreateSleepLogInput.routineId input = Some rid ->
       rid <> ""%string ->
       exists r, r ∈ routines (db w) /\
                 Routine.id r = rid /\ Routine.userId r = user_id u).
Proof.
  intros Hu Hrun.
  pose proof (createSleepLog_cases _ _ _ _ _ _ _ Hu Hrun) as H. cbv zeta in H.
  set (row := logRow input u (Date_at rt (dates_read w))
                (randomUUID_at rt (uuids_drawn w))) in *.
  assert (Hrow : forall P : Prop,
    ((exists e, Return (DataId id) = Throw (StorageError e)) /\ db w' = db w \/
     Return (DataId id) = Return (DataId (Log.id row)) /\
     db w' = mkDb (routines (db w)) (steps (db w)) (logs (db w) ++ [row])
               (foreign_keys (db w))) ->
    P ->
    exists row,
      logs (db w') = logs (db w) ++ [row] /\
      routines (db w') = routines (db w) /\ steps (db w') = steps (db w) /\
      Log.id row = id /\ Log.userId row = user_id u /\
      Log.createdAt row = Date_at rt (dates_read w) /\
      Log.sleepDate row =
        match CreateSleepLogInput.sleepDate input with
        | Some date => date
        | None => Log.createdAt row
        end /\
      Log.routineId row = CreateSleepLogInput.routineId input /\
      Log.bedTime row = CreateSleepLogInput.bedTime input /\
      Log.wakeTime row = CreateSleepLogInput.wakeTime input /\
      Log.sleepQualityScore row = CreateSleepLogInput.sleepQualityScore input /\
      Log.notes row = CreateSleepLogInput.notes input /\ P).
  { intros P [[[e He] _]|[Ho ->]] HP; [discriminate|]. injection Ho as ->.
    exists row. world. do 6 (split; [reflexivity|]).
    split; [unfold row, logRow; cbn;
            destruct (CreateSleepLogInput.sleepDate input); reflexivity|].
    do 5 (split; [reflexivity|]). exact HP. }
  destruct (truthy (CreateSleepLogInput.routineId input)) as [rid|] eqn:Ht.
  - apply truthy_Some in Ht as [Hrid Hne].
    destruct (decide _) as [Hnil|Hown] in H;
      [destruct H as (Ho & _); discriminate|].
    destruct H as (_ & H). apply (Hrow _ H).
    intros rid' Hrid' _. rewrite Hrid in Hrid'. injection Hrid' as <-.
    apply owned_exists_matching. exact Hown.
  - apply truthy_None in Ht. destruct H as (_ & H). apply (Hrow _ H).
    intros rid Hrid Hne. destruct Ht as [Ht|Ht]; rewrite Ht in Hrid; congruence.
Qed.


(** ** Creating a routine: the steps are optional, the write is not atomic *)

(** X16: [createRoutine] without steps, be it with no [steps] key or with
    [steps: []], issues the insert of the routine row and nothing else,
    draws one identifier and leaves the step table as it is. *)
Theorem createRoutine_without_steps input context u rt w o w' :
  locals context ≫= user = Some u ->
  CreateRoutineInput.steps input = None \/
  CreateRoutineInput.steps input = Some [] ->
  createRoutine input context rt w = (o, w') ->
  steps (db w') = steps (db w) /\
  uuids_drawn w' = S (uuids_drawn w) /\
  journal w' = journal w ++
    [issued (Insert SleepRoutines
               [routineRow input u (Date_at rt (dates_read w))
                  (randomUUID_at rt (uuids_drawn w))])] /\
  ((exists e, o = Throw (StorageError e)) /\ routines (db w') = routines (db w) \/
   o = Return (DataId (randomUUID_at rt (uuids_drawn w))) /\
   routines (db w') = routines (db w) ++
     [routineRow input u (Date_at rt (dates_read w))
        (randomUUID_at rt (uuids_drawn w))]).
Proof.
  intros Hu Hsteps Hrun. unfold createRoutine in Hrun.
  rewrite bind_run, (requireUser_some _ u) in Hrun by exact Hu.
  rewrite bind_run in Hrun. unfold new_Date at 1 in Hrun.
  cbv beta iota in Hrun. rewrite bind_run in Hrun.
  unfold randomUUID at 1 in Hrun. cbv beta iota in Hrun. world.
  fold (routineRow input u (Date_at rt (dates_read w))
          (randomUUID_at rt (uuids_drawn w))) in Hrun.
  rewrite bind_run, issue_insert_routine in Hrun. world.
  destruct (run _ _) as [e|[[] d1]] eqn:Hins.
  { ended Hrun o w'. do 3 (split; [reflexivity|]). left.
    split; [eexists|]; reflexivity. }
  apply run_insert_routine in Hins as [-> _].
  assert (Hskip : match CreateRoutineInput.steps input with
                  | Some ((_ :: _) as l) => False
                  | _ => True
                  end) by (destruct Hsteps as [-> | ->]; exact I).
  destruct (CreateRoutineInput.steps input) as [[|step rest]|];
    try contradiction;
    rewrite !bind_run in Hrun; unfold mret, Action_ret in Hrun;
    ended Hrun o w'; do 3 (split; [reflexivity|]); right; split; reflexivity.
Qed.


Lemma createRoutine_no_steps_no_partial input context u rt w e w' :
  locals context ≫= user = Some u ->
  CreateRoutineInput.steps input = None \/
  CreateRoutineInput.steps input = Some [] ->
  createRoutine input context rt w = (Throw e, w') ->
  routines (db w') = routines (db w).
Proof.
  intros Hu Hsteps Hrun. unfold createRoutine in Hrun.
  rewrite bind_run, (requireUser_some _ u) in Hrun by exact Hu.
  rewrite bind_run in Hrun. unfold new_Date at 1 in Hrun.
  cbv beta iota in Hrun. rewrite bind_run in Hrun.
  unfold randomUUID at 1 in Hrun. cbv beta iota in Hrun. world.
  rewrite bind_run, issue_insert_routine in Hrun. world.
  destruct (run _ _) as [se|[[] d1]].
  { pose proof (f_equal snd Hrun) as Hw. cbn [snd] in Hw. subst w'.
    reflexivity. }
  destruct Hsteps as [Hs|Hs]; rewrite Hs in Hrun;
    rewrite !bind_run in Hrun; unfold mret, Action_ret in Hrun;
    pose proof (f_equal fst Hrun) as Ho; discriminate Ho.
Qed.

(** X17: [createRoutine] is not one transaction. When it throws, the error
    is that of a refused storage statement and no step row has been stored;
    either nothing was stored at all, or the step list was not empty and the
    routine row has been stored without its steps. *)
Theorem createRoutine_failure_is_partial input context u rt w e w' :
  locals context ≫= user = Some u ->
  createRoutine input context rt w = (Throw e, w') ->
  (exists refused, e = StorageError refused) /\
  steps (db w') = steps (db w) /\ logs (db w') = logs (db w) /\
  (routines (db w') = routines (db w) \/
   ((exists step rest, CreateRoutineInput.steps input = Some (step :: rest)) /\
    routines (db w') = routines (db w) ++
      [routineRow input u (Date_at rt (dates_read w))
         (randomUUID_at rt (uuids_drawn w))])).
Proof.
  intros Hu Hrun.
  destruct (createRoutine_cases _ _ _ _ _ _ _ Hu Hrun)
    as (_ & [[[se He] Hdb]|[([se He] & _ & Hdb)|(Ho & _)]]);
    [| |discriminate]; injection He as ->; rewrite Hdb; world.
  - split; [eauto|]. auto.
  - split; [eauto|]. do 2 (split; [reflexivity|]). right.
    split; [|reflexivity].
    destruct (CreateRoutineInput.steps input) as [[|step rest]|] eqn:Hsteps;
      [| eauto |].
    + pose proof (createRoutine_no_steps_no_partial input context u rt w _ _
                    Hu (or_intror Hsteps) Hrun) as Hok.
      apply (f_equal (@length _)) in Hok. rewrite Hdb in Hok. world.
      rewrite length_app in Hok. cbn in Hok. lia.
    + pose proof (createRoutine_no_steps_no_partial input context u rt w _ _
                    Hu (or_introl Hsteps) Hrun) as Hok.
      apply (f_equal (@length _)) in Hok. rewrite Hdb in Hok. world.
      rewrite length_app in Hok. cbn in Hok. lia.
Qed.

(** ** Listings after a write *)

Lemma listMyRoutines_run includeInactive context u rt w :
  locals context ≫= user = Some u ->
  exists items w',
    listMyRoutines includeInactive context rt w =
      (Return (DataRoutines items (length items)), w') /\
    db w' = db w /\
    items ≡ₚ filter (fun r => Routine.userId r = user_id u /\
                             (includeInactive = false -> Routine.isActive r = true))
               (routines (db w)).
Proof.
  intros Hu. unfold listMyRoutines.
  rewrite bind_run, (requireUser_some _ u) by exact Hu.
  rewrite bind_run, issue_select. cbn [Q.limit Q.offset].
  rewrite list_fmap_id.
  eexists _, _. split; [reflexivity|]. split; [reflexivity|].
  rewrite orderBy_Permutation. world.
  erewrite matching_filter; [reflexivity|].
  intros r. destruct includeInactive; cbn [negb].
  - rewrite holds_and1, holds_eq. intuition congruence.
  - cbn [app]. rewrite holds_and2, !holds_eq. intuition.
Qed.

(** X18: a routine that [createRoutine] has created is listed: in the world
    after the call, [listMyRoutines] of the same caller, with either flag,
    returns what it returned before together with the new routine, which
    is active and has the returned id and the name of the input; [total]
    has grown by one. *)
Theorem created_routine_is_listed input includeInactive context u rt w id w1 :
  locals context ≫= user = Some u ->
  createRoutine input context rt w = (Return (DataId id), w1) ->
  exists before after row w2 w3,
    listMyRoutines includeInactive context rt w =
      (Return (DataRoutines before (length before)), w2) /\
    listMyRoutines includeInactive context rt w1 =
      (Return (DataRoutines after (S (length before))), w3) /\
    after ≡ₚ row :: before /\
    Routine.id row = id /\ Routine.userId row = user_id u /\
    Routine.isActive row = true /\
    Routine.name row = CreateRoutineInput.name input.
Proof.
  intros Hu Hrun.
  destruct (createRoutine_cases _ _ _ _ _ _ _ Hu Hrun)
    as (_ & [[[e He] _]|[[[e He] _]|(Hid & _ & Hdb)]]); try discriminate.
  injection Hid as Hid.
  destruct (listMyRoutines_run includeInactive context u rt w Hu)
    as (before & w2 & Hb & _ & Pb).
  destruct (listMyRoutines_run includeInactive context u rt w1 Hu)
    as (after & w3 & Ha & _ & Pa).
  set (row := routineRow input u (Date_at rt (dates_read w))
                (randomUUID_at rt (uuids_drawn w))) in *.
  assert (Hperm : after ≡ₚ row :: before).
  { rewrite Pa, Pb, Hdb. world. rewrite filter_app.
    rewrite filter_cons_True by (split; [reflexivity|intros _; reflexivity]).
    rewrite filter_nil. rewrite <- Permutation_cons_append. reflexivity. }
  exists before, after, row, w2, w3. split; [exact Hb|].
  split; [|split; [exact Hperm|]].
  - rewrite Ha. rewrite (Permutation_length Hperm). reflexivity.
  - rewrite Hid. repeat split; reflexivity.
Qed.

(** X19: an archived routine is hidden, not gone. After a successful
    [archiveRoutine], [listMyRoutines] without the flag returns no routine of
    that id, [listMyRoutines] with the flag returns one, inactive, and,
    when the numbers of its stored steps are safe integers,
    [getRoutineWithSteps] still returns it, inactive, with the steps it had
    (archiving deletes no step), and the client hands them to the caller. *)
Theorem archived_routine_is_hidden_not_gone id context u rt w d w1 :
  locals context ≫= user = Some u ->
  archiveRoutine id context rt w = (Return d, w1) ->
  (exists items w2,
     listMyRoutines false context rt w1 =
       (Return (DataRoutines items (length items)), w2) /\
     forall r, r ∈ items -> Routine.id r <> id) /\
  (exists items w2 r,
     listMyRoutines true context rt w1 =
       (Return (DataRoutines items (length items)), w2) /\
     r ∈ items /\ Routine.id r = id /\ Routine.isActive r = false) /\
  ((forall s, s ∈ steps (db w) -> Step.routineId s = id -> safe_row s) ->
   exists routine got w2,
     getRoutineWithSteps id context rt w1 =
       (Return (DataRoutine routine got), w2) /\
     delivered (fst (getRoutineWithSteps id context rt w1)) =
       Handed (Return (DataRoutine routine got)) /\
     Routine.id routine = id /\ Routine.isActive routine = false /\
     got ≡ₚ filter (fun s => Step.routineId s = id) (steps (db w))).
Proof.
  intros Hu Hrun. rewrite (archiveRoutine_run id context u rt w Hu) in Hrun.
  destruct (decide _) as [Hnil|Hsome] in Hrun.
  { pose proof (f_equal fst Hrun) as Ho. discriminate Ho. }
  pose proof (f_equal snd Hrun) as Hw. cbn [snd] in Hw. clear Hrun.
  set (now := Date_at rt (dates_read w)) in *.
  assert (Hr : routines (db w1) =
               (fun r => if Q.holds (owned id (user_id u)) r
                         then set_routine (archive_set now) r else r)
                 <$> routines (db w)) by (rewrite <- Hw; reflexivity).
  assert (Hs : steps (db w1) = steps (db w)) by (rewrite <- Hw; reflexivity).
  clear Hw.
  assert (Hrow : forall r, r ∈ routines (db w1) ->
            Routine.id r = id -> Routine.userId r = user_id u ->
            Routine.isActive r = false).
  { intros r Hin Hid Hme. rewrite Hr in Hin.
    apply list_elem_of_fmap in Hin as (r0 & -> & _).
    destruct (Q.holds (owned id (user_id u)) r0) eqn:E; [reflexivity|].
    exfalso. rewrite <- Is_true_false in E. apply E. apply holds_owned. auto. }
  assert (Hown : exists r, r ∈ routines (db w1) /\
                           Routine.id r = id /\ Routine.userId r = user_id u).
  { rewrite Hr. apply owned_after_set. apply owned_exists_matching.
    exact Hsome. }
  split; [|split].
  - destruct (listMyRoutines_run false context u rt w1 Hu)
      as (items & w2 & Hl & _ & Pl).
    exists items, w2. split; [exact Hl|]. intros r Hin Hid.
    rewrite Pl in Hin. apply list_elem_of_filter in Hin as [[Hme Hact] Hin].
    rewrite (Hrow r Hin Hid Hme) in Hact. specialize (Hact eq_refl).
    discriminate.
  - destruct (listMyRoutines_run true context u rt w1 Hu)
      as (items & w2 & Hl & _ & Pl).
    destruct Hown as (r & Hin & Hid & Hme).
    exists items, w2, r. split; [exact Hl|]. split; [|split; [exact Hid|]].
    + rewrite Pl. apply list_elem_of_filter.
      split; [split; [exact Hme|discriminate]|exact Hin].
    + exact (Hrow r Hin Hid Hme).
  - intros Hsafe.
    destruct (getRoutineWithSteps_run id context u rt w1 Hu) as (w2 & _ & Hget).
    destruct (head (matching (owned id (user_id u)) (routines (db w1))))
      as [routine|] eqn:Hhead.
    2:{ apply head_None in Hhead. apply owned_exists_matching in Hown.
        contradiction. }
    destruct (head_owned _ _ _ _ Hhead) as (Hin & Hid & Hme).
    eexists routine, _, w2. split; [exact Hget|].
    split.
    { rewrite Hget. cbn [fst].
      apply delivered_safe_rows, safe_rows_orderBy, safe_rows_matching.
      rewrite Hs. exact Hsafe. }
    split; [exact Hid|].
    split; [exact (Hrow routine Hin Hid Hme)|].
    rewrite orderBy_Permutation, Hs.
    erewrite matching_filter; [reflexivity|]. intros s. apply holds_eq.
Qed.

Lemma listSleepLogs_run input context u rt w :
  locals context ≫= user = Some u ->
  0 <= ListSleepLogsInput.pageSize input ->
  let page := ListSleepLogsInput.page input in
  let pageSize := ListSleepLogsInput.pageSize input in
  let all := Q.orderBy [Q.desc Log.sleepDate; Q.desc Log.createdAt]
               (filter (selected (user_id u)
                          (truthy (ListSleepLogsInput.routineId input)))
                  (logs (db w))) in
  let items := take (Z.to_nat pageSize)
                 (drop (Z.to_nat ((page - 1) * pageSize)) all) in
  exists w',
    listSleepLogs input context rt w =
      (Return (DataLogs items page pageSize (length items)), w') /\
    db w' = db w.
Proof.
  intros Hu Hsize page pageSize all items. unfold listSleepLogs.
  rewrite bind_run, (requireUser_some _ u) by exact Hu.
  rewrite bind_run, issue_select. rewrite list_fmap_id. world.
  fold page. fold pageSize. unfold Q.limit, Q.offset.
  destruct (Z.ltb_spec pageSize 0) as [Hneg|_]; [unfold pageSize in Hneg; lia|].
  assert (Hsel : matching
            (Q.and match truthy (ListSleepLogsInput.routineId input) with
                   | Some routineId =>
                       [Q.eq Log.userId (user_id u)] ++
                       [Q.eq Log.routineId (Some routineId)]
                   | None => [Q.eq Log.userId (user_id u)]
                   end) (logs (db w)) =
          filter (selected (user_id u)
                    (truthy (ListSleepLogsInput.routineId input)))
            (logs (db w))).
  { apply matching_filter. intros l. unfold selected.
    destruct (truthy _) as [rid|].
    - cbn [app]. rewrite holds_and2, !holds_eq. reflexivity.
    - rewrite holds_and1, holds_eq. intuition. }
  rewrite Hsel. eexists. split; reflexivity.
Qed.

(** X20: consecutive pages of [listSleepLogs] are consecutive slices of one
    ordered selection, within the limits of the store: for a caller whose
    logs have sleep dates of plain years, a valid request and the request of
    the next page (same page size and routine filter) whose offset is a safe
    integer, the two item lists joined are the [2 * pageSize] logs that
    follow the first [(page - 1) * pageSize] of the selection, in order; and
    when a page has fewer than [pageSize] items the next page is empty. *)
Theorem listSleepLogs_next_page input next context u rt w :
  locals context ≫= user = Some u ->
  valid_page input ->
  ListSleepLogsInput.page next = ListSleepLogsInput.page input + 1 ->
  ListSleepLogsInput.pageSize next = ListSleepLogsInput.pageSize input ->
  ListSleepLogsInput.routineId next = ListSleepLogsInput.routineId input ->
  safe_offset (ListSleepLogsInput.page next)
    (ListSleepLogsInput.pageSize next) ->
  plain_sleep_dates (user_id u) (db w) ->
  let page := ListSleepLogsInput.page input in
  let pageSize := ListSleepLogsInput.pageSize input in
  exists all items items' w1 w2,
    listSleepLogs input context rt w =
      (Return (DataLogs items page pageSize (length items)), w1) /\
    listSleepLogs next context rt w1 =
      (Return (DataLogs items' (page + 1) pageSize (length items')), w2) /\
    fits_int64 ((page - 1) * pageSize) = true /\
    fits_int64 (page * pageSize) = true /\
    all ≡ₚ filter (selected (user_id u)
                     (truthy (ListSleepLogsInput.routineId input)))
             (logs (db w)) /\
    Sorted latest_first all /\
    items ++ items' =
      take (Z.to_nat (2 * pageSize))
        (drop (Z.to_nat ((page - 1) * pageSize)) all) /\
    Sorted latest_first (items ++ items') /\
    (forall l, l ∈ items ++ items' -> plain_year (Log.sleepDate l)) /\
    (Z.of_nat (length items) < pageSize -> items' = []).
Proof.
  intros Hu [Hpage Hsize] Hnext Hsame Hfilter Hoffset Hplain page pageSize.
  rewrite Hnext, Hsame in Hoffset.
  replace (ListSleepLogsInput.page input + 1) with (page + 1) in Hoffset
    by reflexivity. fold pageSize in Hoffset.
  destruct (listSleepLogs_run input context u rt w Hu) as (w1 & H1 & Hdb1);
    [lia|]. cbv zeta in H1. fold page pageSize in H1.
  destruct (listSleepLogs_run next context u rt w1 Hu) as (w2 & H2 & _);
    [lia|]. cbv zeta in H2.
  rewrite Hnext, Hsame, Hfilter, Hdb1 in H2. fold page pageSize in H2.
  set (all := Q.orderBy [Q.desc Log.sleepDate; Q.desc Log.createdAt]
                (filter (selected (user_id u)
                           (truthy (ListSleepLogsInput.routineId input)))
                   (logs (db w)))) in *.
  assert (Hsorted : Sorted latest_first all).
  { apply (Sorted_weaken
             (Q.precedes [Q.desc Log.sleepDate; Q.desc Log.createdAt]));
      [|apply orderBy_Sorted; discriminate].
    intros a b. unfold latest_first, Q.precedes. lia. }
  set (n := Z.to_nat pageSize) in *.
  set (k := Z.to_nat ((page - 1) * pageSize)) in *.
  assert (Hk : Z.to_nat ((page + 1 - 1) * pageSize) = (k + n)%nat).
  { unfold k, n. rewrite <- Z2Nat.inj_add by (unfold page, pageSize; nia).
    f_equal. lia. }
  rewrite Hk in H2.
  assert (Hjoin : take n (drop k all) ++ take n (drop (k + n) all) =
                  take (Z.to_nat (2 * pageSize)) (drop k all)).
  { replace (Z.to_nat (2 * pageSize)) with (n + n)%nat by (unfold n; lia).
    rewrite <- drop_drop. apply take_take_drop. }
  exists all, (take n (drop k all)), (take n (drop (k + n) all)), w1, w2.
  split; [exact H1|]. split; [exact H2|].
  split.
  { apply safe_offset_fits; [exact Hpage|lia|].
    unfold safe_offset in *. fold page pageSize in Hpage, Hsize. nia. }
  split.
  { replace (page * pageSize) with ((page + 1 - 1) * pageSize) by lia.
    apply safe_offset_fits; [unfold page; lia|lia|exact Hoffset]. }
  split; [apply orderBy_Permutation|]. split; [exact Hsorted|].
  split; [exact Hjoin|]. split; [|split].
  - rewrite Hjoin. apply Sorted_take, Sorted_drop, Hsorted.
  - intros l Hin. rewrite Hjoin in Hin.
    apply elem_of_take in Hin as (i & Hi & _). rewrite lookup_drop in Hi.
    apply list_elem_of_lookup_2 in Hi. unfold all in Hi.
    rewrite orderBy_Permutation in Hi.
    apply (list_elem_of_filter (selected _ _)) in Hi as [[Hmine _] Hl].
    exact (Hplain l Hl Hmine).
  - intros Hshort. rewrite length_take, length_drop in Hshort.
    rewrite <- drop_drop. rewrite drop_ge; [apply take_nil|].
    rewrite length_drop. unfold n in *. lia.
Qed.

(** ** Invariants of the store *)

(** X21: every action keeps the referential integrity of the step table:
    if each step row references a stored routine before the action, so it
    does afterwards, whatever the outcome (a step is only inserted for a
    routine that was just inserted or looked up, and no routine is ever
    deleted). *)
Theorem actions_keep_step_references request context rt w o w' :
  steps_reference_routines (db w) ->
  server request context rt w = (o, w') ->
  steps_reference_routines (db w').
Proof.
  intros Hinv Hrun. destruct request; cbn [server] in Hrun.
  - exact (createRoutine_keeps_integrity _ _ _ _ _ _ Hinv Hrun).
  - exact (updateRoutine_keeps_integrity _ _ _ _ _ _ Hinv Hrun).
  - exact (archiveRoutine_keeps_integrity _ _ _ _ _ _ Hinv Hrun).
  - apply getRoutineWithSteps_reads in Hrun. rewrite Hrun. exact Hinv.
  - apply listMyRoutines_reads in Hrun. rewrite Hrun. exact Hinv.
  - apply createSleepLog_keeps_routines in Hrun as [Hr Hs].
    exact (integrity_same _ _ Hr Hs Hinv).
  - apply updateSleepLog_keeps_routines in Hrun as [Hr Hs].
    exact (integrity_same _ _ Hr Hs Hinv).
  - apply listSleepLogs_reads in Hrun. rewrite Hrun. exact Hinv.
Qed.

Lemma copied_get {A} (f : Field A) : copied f = get f.
Proof. destruct f; reflexivity. Qed.

Lemma routine_stays request context rt w o w' id uid :
  server request context rt w = (o, w') ->
  (exists r, r ∈ routines (db w) /\ Routine.id r = id /\ Routine.userId r = uid) ->
  exists r, r ∈ routines (db w') /\ Routine.id r = id /\ Routine.userId r = uid.
Proof.
  intros Hrun (r & Hin & Hid & Hme).
  destruct (locals context ≫= user) as [u|] eqn:Hu.
  2:{ rewrite (server_requires_user _ _ _ _ Hu) in Hrun.
      ended Hrun o w'. eauto. }
  destruct (server_effect _ _ _ _ _ _ _ Hu Hrun)
    as ([->|[(r0 & -> & _)|(id0 & set & ->)]] & _).
  - eauto.
  - exists r. split; [apply elem_of_app; left; exact Hin|auto].
  - exists (if Q.holds (owned id0 (user_id u)) r then set_routine set r else r).
    split; [apply list_elem_of_fmap; eauto|].
    destruct (Q.holds (owned id0 (user_id u)) r); auto.
Qed.

(** Where the logs of the store after an action come from. *)
Lemma server_logs_origin request context rt w o w' l :
  server request context rt w = (o, w') ->
  l ∈ logs (db w') ->
  l ∈ logs (db w) \/
  (forall rid, Log.routineId l = Some rid -> rid <> ""%string ->
     (exists r, r ∈ routines (db w) /\
                Routine.id r = rid /\ Routine.userId r = Log.userId l) \/
     (exists l0, l0 ∈ logs (db w) /\ Log.userId l0 = Log.userId l /\
                 Log.routineId l0 = Some rid)).
Proof.
  intros Hrun Hin.
  destruct (locals context ≫= user) as [u|] eqn:Hu.
  2:{ rewrite (server_requires_user _ _ _ _ Hu) in Hrun.
      ended Hrun o w'. left. exact Hin. }
  destruct request; cbn [server] in Hrun.
  - destruct (createRoutine_cases _ _ _ _ _ _ _ Hu Hrun)
      as (_ & [[_ Hdb]|[(_ & _ & Hdb)|(_ & _ & Hdb)]]);
      rewrite Hdb in Hin; left; exact Hin.
  - destruct (updateRoutine_cases _ _ _ _ _ _ _ Hu Hrun)
      as [[_ Hdb]|(_ & _ & Hl & _)]; left; [rewrite <- Hdb|rewrite <- Hl];
      exact Hin.
  - rewrite (archiveRoutine_run id context u rt w Hu) in Hrun.
    pose proof (f_equal snd Hrun) as Hw. cbn [snd] in Hw. subst w'.
    left. exact Hin.
  - apply getRoutineWithSteps_reads in Hrun. rewrite Hrun in Hin. auto.
  - apply listMyRoutines_reads in Hrun. rewrite Hrun in Hin. auto.
  - pose proof (createSleepLog_cases _ _ _ _ _ _ _ Hu Hrun) as H.
    cbv zeta in H.
    assert (Hnew : forall (P : Prop),
      ((exists e, o = Throw (StorageError e)) /\ db w' = db w \/
       o = Return (DataId (randomUUID_at rt (uuids_drawn w))) /\
       db w' = mkDb (routines (db w)) (steps (db w))
                 (logs (db w) ++
                    [logRow input u (Date_at rt (dates_read w))
                       (randomUUID_at rt (uuids_drawn w))])
                 (foreign_keys (db w))) ->
      (l = logRow input u (Date_at rt (dates_read w))
             (randomUUID_at rt (uuids_drawn w)) -> P) ->
      l ∈ logs (db w) \/ P).
    { intros P [[_ Hdb]|[_ Hdb]] HP; rewrite Hdb in Hin; [left; exact Hin|].
      world. apply elem_of_app in Hin as [Hin|Hin]; [left; exact Hin|].
      right. apply HP. apply list_elem_of_singleton in Hin. exact Hin. }
    destruct (truthy (CreateSleepLogInput.routineId input)) as [rid|] eqn:Ht.
    + apply truthy_Some in Ht as [Hrid _].
      destruct (decide _) as [Hnil|Hown] in H.
      * destruct H as (_ & _ & Hdb). rewrite Hdb in Hin. left. exact Hin.
      * destruct H as (_ & H). apply (Hnew _ H). intros -> rid' Hrid' _.
        left. cbn in Hrid'. rewrite Hrid in Hrid'. injection Hrid' as <-.
        apply owned_exists_matching. exact Hown.
    + apply truthy_None in Ht. destruct H as (_ & H). apply (Hnew _ H).
      intros -> rid Hrid Hne. cbn in Hrid.
      destruct Ht as [Ht|Ht]; rewrite Ht in Hrid; congruence.
  - pose proof (updateSleepLog_cases _ _ _ _ _ _ _ Hu Hrun) as H.
    cbv zeta in H.
    set (mine := own_log (UpdateSleepLogInput.id input) (user_id u)) in *.
    assert (Hwritten : forall js,
      (forall rid, get (UpdateSleepLogInput.routineId input) = Some rid ->
         rid <> ""%string ->
         exists r, r ∈ routines (db w) /\
                   Routine.id r = rid /\ Routine.userId r = user_id u) ->
      log_written input u w o w' js ->
      l ∈ logs (db w) \/
      (forall rid, Log.routineId l = Some rid -> rid <> ""%string ->
         (exists r, r ∈ routines (db w) /\
                    Routine.id r = rid /\ Routine.userId r = Log.userId l) \/
         (exists l0, l0 ∈ logs (db w) /\ Log.userId l0 = Log.userId l /\
                     Log.routineId l0 = Some rid))).
    { intros js Hchecked [(_ & _ & _ & Hdb)|(_ & _ & [[_ Hdb]|[_ Hdb]])];
        rewrite Hdb in Hin; try (left; exact Hin). world.
      fold mine in Hin. apply list_elem_of_fmap in Hin as (l0 & -> & Hin0).
      destruct (Q.holds mine l0) eqn:E; [|left; exact Hin0].
      apply Is_true_true_2, holds_own_log in E as [_ Hme].
      right. intros rid Hrid Hne. unfold set_log, logUpdateData in Hrid.
      cbn -[copied] in Hrid. rewrite copied_get in Hrid. cbn.
      destruct (get (UpdateSleepLogInput.routineId input)) as [v|] eqn:Hget;
        cbn in Hrid.
      - injection Hrid as ->. left. rewrite Hme. apply Hchecked; auto.
      - right. exists l0. auto. }
    destruct (decide _) as [Hnil|_] in H.
    { destruct H as (_ & _ & Hdb). rewrite Hdb in Hin. left. exact Hin. }
    destruct (truthy (get (UpdateSleepLogInput.routineId input)))
      as [rid|] eqn:Ht.
    + apply truthy_Some in Ht as [Hrid _].
      destruct (decide _) as [Hnil|Hown] in H.
      * destruct H as (_ & _ & Hdb). rewrite Hdb in Hin. left. exact Hin.
      * destruct H as (js & _ & Hw). apply (Hwritten js); [|exact Hw].
        intros rid' Hrid' _. rewrite Hrid in Hrid'. injection Hrid' as <-.
        apply owned_exists_matching. exact Hown.
    + apply truthy_None in Ht. destruct H as (js & _ & Hw).
      apply (Hwritten js); [|exact Hw]. intros rid Hrid Hne.
      destruct Ht as [Ht|Ht]; rewrite Ht in Hrid; congruence.
  - apply listSleepLogs_reads in Hrun. rewrite Hrun in Hin. auto.
Qed.

(** X22: every action keeps this invariant of the store, whatever the
    outcome: a log whose routine reference is a non-empty string references
    a routine owned by the owner of the log. (Both log writers check the
    reference against the caller's routines before they write, and no
    action deletes a routine or changes its id or owner.) *)
Theorem actions_keep_log_references request context rt w o w' :
  logs_reference_own_routines (db w) ->
  server request context rt w = (o, w') ->
  logs_reference_own_routines (db w').
Proof.
  intros Hinv Hrun l rid Hin Hrid Hne.
  apply (routine_stays _ _ _ _ _ _ _ _ Hrun).
  destruct (server_logs_origin _ _ _ _ _ _ _ Hrun Hin) as [Hold|Hnew].
  - exact (Hinv l rid Hold Hrid Hne).
  - destruct (Hnew rid Hrid Hne) as [Hr|(l0 & Hin0 & Hme & Hrid0)];
      [exact Hr|].
    rewrite <- Hme. exact (Hinv l0 rid Hin0 Hrid0 Hne).
Qed.

(** ** Properties of the store that each statement keeps *)

Section StatementInvariant.
Variable I : Db -> Prop.

Hypothesis insert_keeps : forall R (into : Table R) values d d',
  I d -> run (Insert into values) d = inr (tt, d') -> I d'.
Hypothesis update_routines_keeps : forall set where_ d n d',
  I d -> run (Update SleepRoutines (SetRoutine set) where_) d = inr (n, d') ->
  I d'.
Hypothesis update_logs_keeps : forall set where_ d n d',
  I d -> run (Update SleepLogs (SetLog set) where_) d = inr (n, d') -> I d'.
Hypothesis delete_steps_keeps : forall where_ d d',
  I d -> run (Delete SleepRoutineSteps where_) d = inr (tt, d') -> I d'.

Lemma keeps_ret {A} (a : A) : keeps I (mret a).
Proof. intros rt w o w' Hi [= _ <-]. exact Hi. Qed.

Lemma keeps_throw {A} e : keeps I (@throw A e).
Proof. intros rt w o w' Hi [= _ <-]. exact Hi. Qed.

Lemma keeps_bind {A B} (m : Action A) (k : A -> Action B) :
  keeps I m -> (forall a, keeps I (k a)) -> keeps I (m ≫= k).
Proof.
  intros Hm Hk rt w o w' Hi Hrun. rewrite bind_run in Hrun.
  destruct (m rt w) as [[a|e] w1] eqn:E.
  - exact (Hk a rt w1 o w' (Hm rt w _ w1 Hi E) Hrun).
  - injection Hrun as _ <-. exact (Hm rt w _ w1 Hi E).
Qed.

Lemma keeps_new_Date : keeps I new_Date.
Proof. intros rt w o w' Hi [= _ <-]. exact Hi. Qed.

Lemma keeps_randomUUID : keeps I randomUUID.
Proof. intros rt w o w' Hi [= _ <-]. exact Hi. Qed.

Lemma keeps_requireUser context : keeps I (requireUser context).
Proof.
  unfold requireUser. destruct (locals context ≫= user);
    [apply keeps_ret|apply keeps_throw].
Qed.

Lemma keeps_select {R B} (fields : R -> B) from where_ orderBy limit offset :
  keeps I (issue (Select fields from where_ orderBy limit offset)).
Proof.
  intros rt w o w' Hi Hrun. rewrite issue_select in Hrun.
  injection Hrun as _ <-. exact Hi.
Qed.

Lemma keeps_issue {A} (s : Stmt A) :
  (forall d a d', I d -> run s d = inr (a, d') -> I d') ->
  keeps I (issue s).
Proof.
  intros Hs rt w o w' Hi Hrun. unfold issue in Hrun.
  destruct (run s (db w)) as [e|[a d]] eqn:E;
    injection Hrun as _ <-; world; [exact Hi|].
  exact (Hs _ _ _ Hi E).
Qed.

Lemma keeps_insert {R} (into : Table R) values :
  keeps I (issue (Insert into values)).
Proof.
  apply keeps_issue. intros d [] d' Hi Hrun.
  exact (insert_keeps _ _ _ _ _ Hi Hrun).
Qed.

Lemma keeps_stepValues routineId now index steps :
  keeps I (stepValues routineId now index steps).
Proof.
  revert index. induction steps as [|step rest IH]; intros index;
    cbn [stepValues].
  - apply keeps_ret.
  - apply keeps_bind; [apply keeps_randomUUID|]. intros id.
    apply keeps_bind; [apply IH|]. intros values. apply keeps_ret.
Qed.

Lemma keeps_checkRoutine routineId u : keeps I (checkRoutine routineId u).
Proof.
  unfold checkRoutine. destruct (truthy routineId); [|apply keeps_ret].
  apply keeps_bind; [apply keeps_select|]. intros routine.
  destruct (head routine); [apply keeps_ret|apply keeps_throw].
Qed.

(** A property of the store that the inserts, the two updates and the
    delete of steps keep is kept by every action. *)
Lemma server_keeps request context : keeps I (server request context).
Proof.
  destruct request; cbn [server].
  - unfold createRoutine.
    apply keeps_bind; [apply keeps_requireUser|]. intros u.
    apply keeps_bind; [apply keeps_new_Date|]. intros now.
    apply keeps_bind; [apply keeps_randomUUID|]. intros routineId.
    apply keeps_bind; [apply keeps_insert|]. intros _.
    apply keeps_bind; [|intros; apply keeps_ret].
    destruct (CreateRoutineInput.steps input) as [[|step rest]|];
      try apply keeps_ret.
    apply keeps_bind; [apply keeps_stepValues|]. intros values.
    apply keeps_insert.
  - unfold updateRoutine.
    apply keeps_bind; [apply keeps_requireUser|]. intros u.
    apply keeps_bind; [apply keeps_select|]. intros existing.
    destruct (head existing); [|apply keeps_throw].
    apply keeps_bind; [apply keeps_new_Date|]. intros now.
    apply keeps_bind.
    { destruct (0 <? _)%nat; [|apply keeps_ret].
      apply keeps_bind; [|intros; apply keeps_ret].
      apply keeps_issue. intros d n d'. apply update_routines_keeps. }
    intros _. apply keeps_bind; [|intros; apply keeps_ret].
    destruct (get (UpdateRoutineInput.steps input)) as [steps|];
      [|apply keeps_ret].
    apply keeps_bind.
    { apply keeps_issue. intros d [] d'. apply delete_steps_keeps. }
    intros _. destruct steps as [|step rest]; [apply keeps_ret|].
    apply keeps_bind; [apply keeps_stepValues|]. intros values.
    apply keeps_insert.
  - unfold archiveRoutine.
    apply keeps_bind; [apply keeps_requireUser|]. intros u.
    apply keeps_bind; [apply keeps_new_Date|]. intros now.
    apply keeps_bind.
    { apply keeps_issue. intros d n d'. apply update_routines_keeps. }
    intros n. destruct (n =? 0)%nat; [apply keeps_throw|apply keeps_ret].
  - unfold getRoutineWithSteps.
    apply keeps_bind; [apply keeps_requireUser|]. intros u.
    apply keeps_bind; [apply keeps_select|]. intros found.
    destruct (head found); [|apply keeps_throw].
    apply keeps_bind; [apply keeps_select|]. intros; apply keeps_ret.
  - unfold listMyRoutines.
    apply keeps_bind; [apply keeps_requireUser|]. intros u.
    apply keeps_bind; [apply keeps_select|]. intros; apply keeps_ret.
  - unfold createSleepLog.
    apply keeps_bind; [apply keeps_requireUser|]. intros u.
    apply keeps_bind; [apply keeps_new_Date|]. intros now.
    apply keeps_bind; [apply keeps_checkRoutine|]. intros _.
    apply keeps_bind; [apply keeps_randomUUID|]. intros logId.
    apply keeps_bind; [apply keeps_insert|]. intros; apply keeps_ret.
  - unfold updateSleepLog.
    apply keeps_bind; [apply keeps_requireUser|]. intros u.
    apply keeps_bind; [apply keeps_select|]. intros found.
    destruct (head found); [|apply keeps_throw].
    apply keeps_bind; [apply keeps_checkRoutine|]. intros _.
    apply keeps_bind; [|intros; apply keeps_ret].
    destruct (0 <? _)%nat; [|apply keeps_ret].
    apply keeps_bind; [|intros; apply keeps_ret].
    apply keeps_issue. intros d n d'. apply update_logs_keeps.
  - unfold listSleepLogs.
    apply keeps_bind; [apply keeps_requireUser|]. intros u.
    apply keeps_bind; [apply keeps_select|]. intros; apply keeps_ret.
Qed.
End StatementInvariant.

Lemma insert_keeps_keys R (into : Table R) values d d' :
  primary_keys_unique d -> run (Insert into values) d = inr (tt, d') ->
  primary_keys_unique d'.
Proof.
  intros (Hr & Hs & Hl) Hrun. unfold run in Hrun.
  destruct (decide _) as [[Hnd Hfresh]|]; [|discriminate].
  destruct (decide _); [|discriminate]. injection Hrun as <-.
  assert (Hjoin : NoDup ((primaryKey into <$> rows into d) ++
                         (primaryKey into <$> values))).
  { apply NoDup_app. split; [|split; [|exact Hnd]].
    - destruct into; assumption.
    - intros k Hold Hnew. rewrite Forall_forall in Hfresh.
      exact (Hfresh k Hnew Hold). }
  rewrite <- fmap_app in Hjoin.
  destruct into; unfold primary_keys_unique; world; cbn [primaryKey] in Hjoin;
    auto.
Qed.

Lemma set_log_keeps_ids (c : Q.Cond Log.t) set (l : list Log.t) :
  Log.id <$> ((fun x => if Q.holds c x then set_log set x else x) <$> l)
  = Log.id <$> l.
Proof.
  rewrite <- list_fmap_compose. apply list_fmap_ext. intros i x _.
  unfold compose. destruct (Q.holds c x); reflexivity.
Qed.

Lemma update_routines_keeps_keys set where_ d n d' :
  primary_keys_unique d ->
  run (Update SleepRoutines (SetRoutine set) where_) d = inr (n, d') ->
  primary_keys_unique d'.
Proof.
  intros (Hr & Hs & Hl) Hrun. unfold run in Hrun.
  destruct (decide _); [|discriminate]. injection Hrun as _ <-.
  unfold primary_keys_unique. world. cbn [apply_set].
  rewrite set_keeps_ids. auto.
Qed.

Lemma update_logs_keeps_keys set where_ d n d' :
  primary_keys_unique d ->
  run (Update SleepLogs (SetLog set) where_) d = inr (n, d') ->
  primary_keys_unique d'.
Proof.
  intros (Hr & Hs & Hl) Hrun. unfold run in Hrun.
  destruct (decide _); [|discriminate]. injection Hrun as _ <-.
  unfold primary_keys_unique. world. cbn [apply_set].
  rewrite set_log_keeps_ids. auto.
Qed.

Lemma delete_steps_keeps_keys where_ d d' :
  primary_keys_unique d ->
  run (Delete SleepRoutineSteps where_) d = inr (tt, d') ->
  primary_keys_unique d'.
Proof.
  intros (Hr & Hs & Hl) Hrun. unfold run in Hrun. injection Hrun as <-.
  unfold primary_keys_unique. world. split; [exact Hr|]. split; [|exact Hl].
  eapply sublist_NoDup; [exact Hs|]. apply fmap_sublist, sublist_filter.
Qed.

(** X23: every action keeps the ids of each table pairwise distinct,
    whatever the outcome: a row is only added by an insert, which the store
    refuses for an id already in the table (or repeated in the batch), and
    no update writes an id. So the one row a handler takes from a lookup by
    id ([existing[0]]) is the only one. *)
Theorem actions_keep_primary_keys request context rt w o w' :
  primary_keys_unique (db w) ->
  server request context rt w = (o, w') ->
  primary_keys_unique (db w').
Proof.
  intros Hkeys Hrun.
  refine (server_keeps primary_keys_unique _ _ _ _ request context
            rt w o w' Hkeys Hrun).
  - exact insert_keeps_keys.
  - exact update_routines_keeps_keys.
  - exact update_logs_keeps_keys.
  - exact delete_steps_keeps_keys.
Qed.

(** * Instances of the further properties on the sample data *)

Lemma alice_does_not_own_r3 r :
  r ∈ routines (db (home true)) ->
  ~ (Routine.id r = "r3"%string /\ Routine.userId r = user_id alice_user).
Proof.
  intros Hin [Hid Hme]. cbn in Hin.
  repeat (apply elem_of_cons in Hin as [->|Hin];
          [first [discriminate Hid|discriminate Hme]|]).
  inversion Hin.
Qed.

Lemma bob_does_not_own_r1 r :
  r ∈ routines (db (home true)) ->
  ~ (Routine.id r = "r1"%string /\ Routine.userId r = user_id bob_user).
Proof.
  intros Hin [Hid Hme]. cbn in Hin.
  repeat (apply elem_of_cons in Hin as [->|Hin];
          [first [discriminate Hid|discriminate Hme]|]).
  inversion Hin.
Qed.

Lemma alice_owns_r1 :
  exists r, r ∈ routines (db (home true)) /\
            Routine.id r = "r1"%string /\ Routine.userId r = user_id alice_user.
Proof. exists weekday. split; [left|split; reflexivity]. Qed.

Lemma alice_has_l1 :
  exists l, l ∈ logs (db (home true)) /\ Log.id l = "l1"%string /\
            Log.userId l = user_id alice_user.
Proof. exists monday. split; [left|split; reflexivity]. Qed.

Lemma home_steps_are_safe fk id s :
  s ∈ steps (db (home fk)) -> Step.routineId s = id -> safe_row s.
Proof.
  intros Hin _. cbn in Hin.
  repeat (apply elem_of_cons in Hin as [->|Hin];
          [split; cbn; unfold safe_integer, MAX_SAFE_INTEGER; try lia; exact I|]).
  inversion Hin.
Qed.

Lemma getRoutineWithSteps_owner_only_witness :
  locals alice ≫= user = Some alice_user /\
  (exists w', getRoutineWithSteps "r3" alice clock (home true) =
     (Throw (ActionError NOT_FOUND "Sleep routine not found."), w')) /\
  (forall s, s ∈ steps (db (home true)) -> Step.routineId s = "r1"%string ->
             safe_row s) /\
  (exists routine got w', getRoutineWithSteps "r1" alice clock (home true) =
     (Return (DataRoutine routine got), w') /\
     delivered (fst (getRoutineWithSteps "r1" alice clock (home true))) =
       Handed (Return (DataRoutine routine got)) /\
     Sorted by_orderIndex got).
Proof.
  assert (H1 : locals alice ≫= user = Some alice_user) by reflexivity.
  assert (H2 : forall s, s ∈ steps (db (home true)) ->
                 Step.routineId s = "r1"%string -> safe_row s)
    by (intros s; apply home_steps_are_safe).
  split; [exact H1|]. split; [|split; [exact H2|]].
  - destruct (getRoutineWithSteps_owner_only "r3" alice alice_user clock
                (home true) H1) as [Hnone _].
    destruct (Hnone alice_does_not_own_r3) as (w' & Hget & _). eauto.
  - destruct (getRoutineWithSteps_owner_only "r1" alice alice_user clock
                (home true) H1) as [_ Hown].
    destruct (Hown alice_owns_r1 H2)
      as (routine & got & w' & Hget & Hhanded & _ & _ & _ & _ & _ & Hsorted).
    exists routine, got, w'. split; [exact Hget|].
    split; [exact Hhanded|exact Hsorted].
Defined.

Lemma updateRoutine_not_found_witness :
  locals bob ≫= user = Some bob_user /\
  fst (updateRoutine only_notes bob clock (home true)) =
    Throw (ActionError NOT_FOUND "Sleep routine not found.").
Proof.
  assert (H1 : locals bob ≫= user = Some bob_user) by reflexivity.
  split; [exact H1|].
  rewrite (updateRoutine_not_found only_notes bob bob_user clock (home true)
             H1 bob_does_not_own_r1).
  reflexivity.
Defined.

Lemma updateRoutine_replaces_steps_witness :
  let run := updateRoutine new_steps alice clock (home true) in
  locals alice ≫= user = Some alice_user /\
  run = (Return DataNone, snd run) /\
  Forall safe_step (default [] (get (UpdateRoutineInput.steps new_steps))) /\
  exists fresh,
    steps (db (snd run)) = [ear_plugs] ++ fresh /\ length fresh = 2%nat /\
    exists routine got,
      delivered (fst (getRoutineWithSteps "r1" alice clock (snd run))) =
        Handed (Return (DataRoutine routine got)) /\
      got ≡ₚ fresh.
Proof.
  intros run.
  assert (H1 : locals alice ≫= user = Some alice_user) by reflexivity.
  assert (H2 : run = (Return DataNone, snd run)) by (vm_compute; reflexivity).
  assert (H3 : Forall safe_step
                 (default [] (get (UpdateRoutineInput.steps new_steps)))).
  { repeat constructor; cbn; unfold safe_integer, MAX_SAFE_INTEGER; lia. }
  assert (H4 : Z.of_nat
                 (length (default [] (get (UpdateRoutineInput.steps new_steps))))
               < 2 ^ 32) by reflexivity.
  split; [exact H1|]. split; [exact H2|]. split; [exact H3|].
  destruct (updateRoutine_replaces_steps new_steps _ alice alice_user clock
              (home true) DataNone (snd run) H1 eq_refl H2)
    as (fresh & Hs & Hlen & _ & Hfetch).
  destruct (Hfetch H3 H4) as (routine & got & w2 & _ & Hhanded & _ & Hperm & _).
  exists fresh. split; [exact Hs|]. split; [exact Hlen|].
  exists routine, got. split; [exact Hhanded|exact Hperm].
Defined.

Lemma updateRoutine_refused_insert_loses_steps_witness :
  let run := updateRoutine new_steps alice jammed (home true) in
  locals alice ≫= user = Some alice_user /\
  run = (Throw (StorageError PrimaryKeyConstraint), snd run) /\
  steps (db (snd run)) = [ear_plugs].
Proof.
  intros run.
  assert (H1 : locals alice ≫= user = Some alice_user) by reflexivity.
  assert (H2 : run = (Throw (StorageError PrimaryKeyConstraint), snd run))
    by (vm_compute; reflexivity).
  split; [exact H1|]. split; [exact H2|].
  destruct (updateRoutine_refused_insert_loses_steps new_steps alice alice_user
              jammed (home true) _ (snd run) H1 H2) as (_ & Hs & _).
  exact Hs.
Defined.

Lemma actions_keep_routine_rows_witness :
  let run := server (ArchiveRoutine "r1") alice clock (home true) in
  run = (fst run, snd run) /\
  routines (db (home true)) !! 2%nat = Some night_shift /\
  routines (db (snd run)) !! 2%nat = Some night_shift.
Proof.
  intros run.
  assert (H1 : run = (fst run, snd run)) by (vm_compute; reflexivity).
  assert (H2 : routines (db (home true)) !! 2%nat = Some night_shift)
    by reflexivity.
  split; [exact H1|]. split; [exact H2|].
  destruct (actions_keep_routine_rows (ArchiveRoutine "r1") alice clock
              (home true) _ _ 2%nat night_shift H1 H2)
    as (r' & Hr' & _ & _ & _ & Hsame).
  rewrite Hr'. f_equal. apply Hsame. intros u [= <-]. discriminate.
Defined.

Lemma actions_keep_log_rows_witness :
  let run := server (UpdateSleepLog
                       (relog Missing (Present (Some "slept well"%string))))
               alice clock (home true) in
  run = (fst run, snd run) /\
  logs (db (home true)) !! 2%nat = Some bobs_night /\
  logs (db (snd run)) !! 2%nat = Some bobs_night.
Proof.
  intros run.
  assert (H1 : run = (fst run, snd run)) by (vm_compute; reflexivity).
  assert (H2 : logs (db (home true)) !! 2%nat = Some bobs_night) by reflexivity.
  split; [exact H1|]. split; [exact H2|].
  destruct (actions_keep_log_rows _ alice clock (home true) _ _ 2%nat
              bobs_night H1 H2) as (l' & Hl' & _ & _ & _ & Hsame).
  rewrite Hl'. f_equal. apply Hsame. intros u [= <-]. discriminate.
Defined.

Lemma actions_keep_foreign_steps_witness :
  let run := server (UpdateRoutine no_steps) alice clock (home true) in
  run = (fst run, snd run) /\
  ear_plugs ∈ steps (db (home true)) /\
  ear_plugs ∈ steps (db (snd run)).
Proof.
  intros run.
  assert (H1 : run = (fst run, snd run)) by (vm_compute; reflexivity).
  assert (H2 : ear_plugs ∈ steps (db (home true)))
    by (cbn; do 2 right; left).
  split; [exact H1|]. split; [exact H2|].
  apply (actions_keep_foreign_steps _ alice clock (home true) _ _ _ H1 H2).
  intros u r [= <-] Hin Hid Hme.
  apply (alice_does_not_own_r3 r Hin). split; [exact Hid|exact Hme].
Defined.

Lemma classified_failure_writes_nothing_witness :
  let run := server (CreateSleepLog (log_of (Some "r3"%string))) alice clock
               (home true) in
  run = (Throw (ActionError FORBIDDEN "You cannot log sleep for this routine."),
         snd run) /\
  db (snd run) = db (home true).
Proof.
  intros run.
  assert (H1 : run = (Throw (ActionError FORBIDDEN
                               "You cannot log sleep for this routine."),
                      snd run)) by (vm_compute; reflexivity).
  split; [exact H1|].
  exact (classified_failure_writes_nothing _ alice clock (home true) _ _ _ H1).
Defined.

Lemma error_codes_by_action_witness :
  let run := server (ArchiveRoutine "r3") alice clock (home true) in
  run = (Throw (ActionError NOT_FOUND "Sleep routine not found."), snd run) /\
  throws (ArchiveRoutine "r3") NOT_FOUND = true.
Proof.
  intros run.
  assert (H1 : run = (Throw (ActionError NOT_FOUND "Sleep routine not found."),
                      snd run)) by (vm_compute; reflexivity).
  split; [exact H1|].
  destruct (error_codes_by_action _ alice clock (home true) _ _ _ H1)
    as [Ht _].
  exact Ht.
Defined.

Lemma read_actions_only_read_witness :
  let run := server (ListMyRoutines true) alice clock (home true) in
  reads_only (ListMyRoutines true) = true /\
  run = (fst run, snd run) /\
  db (snd run) = db (home true).
Proof.
  intros run.
  assert (H1 : run = (fst run, snd run)) by (vm_compute; reflexivity).
  split; [reflexivity|]. split; [exact H1|].
  destruct (read_actions_only_read (ListMyRoutines true) alice clock
              (home true) _ _ eq_refl H1) as [Hdb _].
  exact Hdb.
Defined.

Lemma updateSleepLog_not_found_witness :
  let run := updateSleepLog (relog Missing Missing) bob clock (home true) in
  locals bob ≫= user = Some bob_user /\
  run = (fst run, snd run) /\
  fst run = Throw (ActionError NOT_FOUND "Sleep log not found.").
Proof.
  intros run.
  assert (H1 : locals bob ≫= user = Some bob_user) by reflexivity.
  assert (H2 : run = (fst run, snd run)) by (vm_compute; reflexivity).
  split; [exact H1|]. split; [exact H2|].
  refine (proj1 (updateSleepLog_not_found _ bob bob_user clock (home true)
                   _ _ H1 _ H2)).
  intros l Hin [Hid Hme]. cbn in Hin.
  repeat (apply elem_of_cons in Hin as [->|Hin];
          [first [discriminate Hid|discriminate Hme]|]).
  inversion Hin.
Defined.

Lemma updateSleepLog_forbidden_witness :
  let run := updateSleepLog (relog (Present (Some "r3"%string)) Missing)
               alice clock (home true) in
  locals alice ≫= user = Some alice_user /\
  run = (fst run, snd run) /\
  failed_with FORBIDDEN (fst run).
Proof.
  intros run.
  assert (H1 : locals alice ≫= user = Some alice_user) by reflexivity.
  assert (H2 : run = (fst run, snd run)) by (vm_compute; reflexivity).
  split; [exact H1|]. split; [exact H2|].
  destruct (updateSleepLog_forbidden
              (relog (Present (Some "r3"%string)) Missing) "r3" alice alice_user
              clock (home true) _ _ H1 alice_has_l1 eq_refl
              ltac:(discriminate) H2) as [Hiff _].
  apply Hiff. intros (r & Hin & Hid & Hme).
  exact (alice_does_not_own_r3 r Hin (conj Hid Hme)).
Defined.

Lemma updateSleepLog_sparse_patch_witness :
  let run := updateSleepLog (relog Missing (Present (Some "slept well"%string)))
               alice clock (home true) in
  locals alice ≫= user = Some alice_user /\
  run = (Return DataNone, snd run) /\
  dates_read (snd run) = 0%nat.
Proof.
  intros run.
  assert (H1 : locals alice ≫= user = Some alice_user) by reflexivity.
  assert (H2 : run = (Return DataNone, snd run)) by (vm_compute; reflexivity).
  split; [exact H1|]. split; [exact H2|].
  destruct (updateSleepLog_sparse_patch _ alice alice_user clock (home true)
              _ _ H1 H2) as [Hdates _].
  exact Hdates.
Defined.

Lemma updateSleepLog_empty_patch_witness :
  let run := updateSleepLog (relog Missing (Present None)) alice clock
               (home true) in
  locals alice ≫= user = Some alice_user /\
  run = (fst run, snd run) /\
  fst run = Return DataNone /\ db (snd run) = db (home true).
Proof.
  intros run.
  assert (H1 : locals alice ≫= user = Some alice_user) by reflexivity.
  assert (H2 : run = (fst run, snd run)) by (vm_compute; reflexivity).
  split; [exact H1|]. split; [exact H2|].
  destruct (updateSleepLog_empty_patch (relog Missing (Present None)) alice
              alice_user clock (home true)
              _ _ H1 alice_has_l1 (or_introl eq_refl) (or_introl eq_refl)
              (or_introl eq_refl) (or_introl eq_refl) (or_introl eq_refl)
              (or_intror eq_refl) H2) as (Ho & Hdb & _).
  split; [exact Ho|exact Hdb].
Defined.

Lemma createSleepLog_stores_witness :
  let run := createSleepLog (log_of (Some "r1"%string)) alice clock
               (home true) in
  locals alice ≫= user = Some alice_user /\
  run = (Return (DataId "A"), snd run) /\
  exists row, logs (db (snd run)) = logs (db (home true)) ++ [row] /\
              Log.sleepDate row = Log.createdAt row.
Proof.
  intros run.
  assert (H1 : locals alice ≫= user = Some alice_user) by reflexivity.
  assert (H2 : run = (Return (DataId "A"), snd run))
    by (vm_compute; reflexivity).
  split; [exact H1|]. split; [exact H2|].
  destruct (createSleepLog_stores _ alice alice_user clock (home true) _ _
              H1 H2) as (row & Hl & _ & _ & _ & _ & _ & Hdate & _).
  exists row. split; [exact Hl|exact Hdate].
Defined.

Lemma createRoutine_without_steps_witness :
  let run := createRoutine bare alice clock (home true) in
  locals alice ≫= user = Some alice_user /\
  run = (fst run, snd run) /\
  steps (db (snd run)) = steps (db (home true)).
Proof.
  intros run.
  assert (H1 : locals alice ≫= user = Some alice_user) by reflexivity.
  assert (H2 : run = (fst run, snd run)) by (vm_compute; reflexivity).
  split; [exact H1|]. split; [exact H2|].
  destruct (createRoutine_without_steps bare alice alice_user clock (home true)
              _ _ H1 (or_introl eq_refl) H2) as [Hs _].
  exact Hs.
Defined.

Lemma createRoutine_failure_is_partial_witness :
  let run := createRoutine two_steps alice jammed (home true) in
  locals alice ≫= user = Some alice_user /\
  run = (Throw (StorageError PrimaryKeyConstraint), snd run) /\
  steps (db (snd run)) = steps (db (home true)) /\
  length (routines (db (snd run))) = 4%nat.
Proof.
  intros run.
  assert (H1 : locals alice ≫= user = Some alice_user) by reflexivity.
  assert (H2 : run = (Throw (StorageError PrimaryKeyConstraint), snd run))
    by (vm_compute; reflexivity).
  split; [exact H1|]. split; [exact H2|].
  destruct (createRoutine_failure_is_partial two_steps alice alice_user jammed
              (home true) _ _ H1 H2) as (_ & Hs & _ & _).
  split; [exact Hs|reflexivity].
Defined.

Lemma created_routine_is_listed_witness :
  let w1 := snd (createRoutine two_steps alice clock (home true)) in
  locals alice ≫= user = Some alice_user /\
  createRoutine two_steps alice clock (home true) = (Return (DataId "A"), w1) /\
  exists after w3,
    listMyRoutines false alice clock w1 = (Return (DataRoutines after 2), w3).
Proof.
  intros w1.
  assert (H1 : locals alice ≫= user = Some alice_user) by reflexivity.
  assert (H2 : createRoutine two_steps alice clock (home true)
               = (Return (DataId "A"), w1)) by (vm_compute; reflexivity).
  split; [exact H1|]. split; [exact H2|].
  destruct (created_routine_is_listed two_steps false alice alice_user clock
              (home true) "A" w1 H1 H2)
    as (before & after & row & w2 & w3 & Hb & Ha & _).
  exists after, w3. rewrite Ha. do 3 f_equal.
  assert (Hc : fst (listMyRoutines false alice clock (home true))
               = Return (DataRoutines [weekday] 1))
    by (vm_compute; reflexivity).
  rewrite Hb in Hc. cbn [fst] in Hc. injection Hc as _ Hlen.
  rewrite Hlen. reflexivity.
Defined.

Lemma archived_routine_is_hidden_not_gone_witness :
  let run := archiveRoutine "r1" alice clock (home true) in
  locals alice ≫= user = Some alice_user /\
  run = (Return DataNone, snd run) /\
  (forall s, s ∈ steps (db (home true)) -> Step.routineId s = "r1"%string ->
             safe_row s) /\
  exists routine got w2,
    getRoutineWithSteps "r1" alice clock (snd run) =
      (Return (DataRoutine routine got), w2) /\
    delivered (fst (getRoutineWithSteps "r1" alice clock (snd run))) =
      Handed (Return (DataRoutine routine got)) /\
    Routine.isActive routine = false /\ length got = 2%nat.
Proof.
  intros run.
  assert (H1 : locals alice ≫= user = Some alice_user) by reflexivity.
  assert (H2 : run = (Return DataNone, snd run)) by (vm_compute; reflexivity).
  assert (H3 : forall s, s ∈ steps (db (home true)) ->
                 Step.routineId s = "r1"%string -> safe_row s)
    by (intros s; apply home_steps_are_safe).
  split; [exact H1|]. split; [exact H2|]. split; [exact H3|].
  destruct (archived_routine_is_hidden_not_gone "r1" alice alice_user clock
              (home true) _ _ H1 H2)
    as (_ & _ & Hfetch).
  destruct (Hfetch H3) as (routine & got & w2 & Hget & Hhanded & _ & Hact & Hperm).
  exists routine, got, w2. split; [exact Hget|]. split; [exact Hhanded|].
  split; [exact Hact|]. rewrite Hperm. reflexivity.
Defined.

Lemma listSleepLogs_next_page_witness :
  locals alice ≫= user = Some alice_user /\
  valid_page (page_of 1 1) /\
  safe_offset 2 1 /\
  plain_sleep_dates "alice" (db (home true)) /\
  exists items items' w1 w2,
    listSleepLogs (page_of 1 1) alice clock (home true) =
      (Return (DataLogs items 1 1 (length items)), w1) /\
    listSleepLogs (page_of 2 1) alice clock w1 =
      (Return (DataLogs items' 2 1 (length items')), w2) /\
    Sorted latest_first (items ++ items').
Proof.
  assert (H1 : locals alice ≫= user = Some alice_user) by reflexivity.
  assert (H2 : valid_page (page_of 1 1)) by (unfold valid_page; simpl; lia).
  assert (H3 : safe_offset 2 1) by (unfold safe_offset, MAX_SAFE_INTEGER; lia).
  assert (H4 : plain_sleep_dates "alice" (db (home true)))
    by apply home_sleep_dates_are_plain.
  split; [exact H1|]. split; [exact H2|]. split; [exact H3|].
  split; [exact H4|].
  destruct (listSleepLogs_next_page (page_of 1 1) (page_of 2 1) alice alice_user
              clock (home true) H1 H2 eq_refl eq_refl eq_refl H3 H4)
    as (all & items & items' & w1 & w2 & Ha & Hb & _ & _ & _ & _ & _ & Hsorted
        & _).
  exists items, items', w1, w2. auto.
Defined.

Lemma home_steps_reference_routines :
  steps_reference_routines (db (home true)).
Proof. apply (bool_decide_unpack _). vm_compute. exact I. Qed.

Lemma actions_keep_step_references_witness :
  let run := server (UpdateRoutine new_steps) alice clock (home true) in
  steps_reference_routines (db (home true)) /\
  run = (fst run, snd run) /\
  steps_reference_routines (db (snd run)).
Proof.
  intros run.
  assert (H2 : run = (fst run, snd run)) by (vm_compute; reflexivity).
  split; [exact home_steps_reference_routines|]. split; [exact H2|].
  exact (actions_keep_step_references _ alice clock (home true) _ _
           home_steps_reference_routines H2).
Defined.

Lemma home_logs_reference_own_routines :
  logs_reference_own_routines (db (home true)).
Proof.
  intros l rid Hin Hrid _. cbn in Hin.
  apply elem_of_cons in Hin as [->|Hin].
  { injection Hrid as <-. exists weekday. split; [left|split; reflexivity]. }
  apply elem_of_cons in Hin as [->|Hin]; [discriminate Hrid|].
  apply elem_of_cons in Hin as [->|Hin]; [|inversion Hin].
  injection Hrid as <-. exists night_shift.
  split; [cbn; do 2 right; left|split; reflexivity].
Qed.

Lemma actions_keep_log_references_witness :
  let run := server (CreateSleepLog (log_of (Some "r1"%string))) alice clock
               (home true) in
  logs_reference_own_routines (db (home true)) /\
  run = (fst run, snd run) /\
  logs_reference_own_routines (db (snd run)).
Proof.
  intros run.
  assert (H2 : run = (fst run, snd run)) by (vm_compute; reflexivity).
  split; [exact home_logs_reference_own_routines|]. split; [exact H2|].
  exact (actions_keep_log_references _ alice clock (home true) _ _
           home_logs_reference_own_routines H2).
Defined.

Lemma home_primary_keys_unique : primary_keys_unique (db (home true)).
Proof.
  unfold primary_keys_unique.
  repeat split; apply (bool_decide_unpack _); vm_compute; exact I.
Qed.

Lemma actions_keep_primary_keys_witness :
  let run := server (CreateRoutine two_steps) alice clock (home true) in
  primary_keys_unique (db (home true)) /\
  run = (fst run, snd run) /\
  primary_keys_unique (db (snd run)).
Proof.
  intros run.
  assert (H2 : run = (fst run, snd run)) by (vm_compute; reflexivity).
  split; [exact home_primary_keys_unique|]. split; [exact H2|].
  exact (actions_keep_primary_keys _ alice clock (home true) _ _
           home_primary_keys_unique H2).
Defined.
